(** * ti-ads1015: a shallow embedding of the ADS1015/ADS1115 IIO driver

    The driver talks to the converter through a register map (regmap) over
    I2C.  The register device, the runtime power management core and the IIO
    core are kernel collaborators; they appear here as an interface
    ([RegisterDevice]) and as small explicit models.  Driver functions are
    state transformers over a [system] that holds the driver's private data,
    the register device, the runtime-PM status, the IIO device flags and a
    chronological log of bus accesses, sleeps and pushed samples. *)

From Stdlib Require Import ZArith Lia Bool List.
From stdpp Require Import base list.
Import ListNotations.

Local Open Scope Z_scope.

(** ** Register addresses, field masks and constants (ti-ads1015.c, 39-80) *)

Definition ADS1015_CONV_REG : Z := 0.
Definition ADS1015_CFG_REG : Z := 1.
Definition ADS1015_LO_THRESH_REG : Z := 2.
Definition ADS1015_HI_THRESH_REG : Z := 3.

Definition ADS1015_CFG_COMP_QUE_SHIFT : Z := 0.
Definition ADS1015_CFG_DR_SHIFT : Z := 5.
Definition ADS1015_CFG_MOD_SHIFT : Z := 8.
Definition ADS1015_CFG_PGA_SHIFT : Z := 9.
Definition ADS1015_CFG_MUX_SHIFT : Z := 12.

(** [BIT(n)] and [GENMASK(h, l)] of the kernel. *)
Definition BIT (n : Z) : Z := Z.shiftl 1 n.
Definition GENMASK (h l : Z) : Z := Z.shiftl (Z.ones (h - l + 1)) l.

Definition ADS1015_CFG_COMP_QUE_MASK : Z := GENMASK 1 0.
Definition ADS1015_CFG_DR_MASK : Z := GENMASK 7 5.
Definition ADS1015_CFG_MOD_MASK : Z := BIT 8.
Definition ADS1015_CFG_PGA_MASK : Z := GENMASK 11 9.
Definition ADS1015_CFG_MUX_MASK : Z := GENMASK 14 12.

(** Comparator queue and disable field *)
Definition ADS1015_CFG_COMP_DISABLE : Z := 3.

(** device operating modes *)
Definition ADS1015_CONTINUOUS : Z := 0.
Definition ADS1015_SINGLESHOT : Z := 1.

Definition ADS1015_SLEEP_DELAY_MS : Z := 2000.
Definition ADS1015_DEFAULT_PGA : Z := 2.
Definition ADS1015_DEFAULT_DATA_RATE : Z := 4.

(** Modelled from the spec: [ADS1015_CHANNELS], the number of entries of
    [channel_data], is declared in the platform-data header, which is not
    among the sources.  The store has one entry per physical/differential
    channel, and [enum ads1015_channels] lists eight of them
    (AIN0_AIN1 = 0 .. AIN3 = 7). *)
Definition ADS1015_CHANNELS : Z := 8.

Definition USEC_PER_SEC : Z := 1000000.

(** errno values and IIO return-type codes used by the driver. *)
Definition EIO : Z := 5.
Definition EAGAIN : Z := 11.
Definition ENOMEM : Z := 12.
Definition EBUSY : Z := 16.
Definition EINVAL : Z := 22.
Definition IIO_VAL_INT : Z := 1.
Definition IIO_VAL_FRACTIONAL_LOG2 : Z := 11.

Inductive chip_ids := ADS1015 | ADS1115.

(** ** Machine integers *)

(** Conversion to [unsigned int], [int], [s64] and [s16]. *)
Definition u32 (x : Z) : Z := x mod 2 ^ 32.
Definition sint (w : Z) (x : Z) : Z := (x + 2 ^ (w - 1)) mod 2 ^ w - 2 ^ (w - 1).
Definition s32 : Z -> Z := sint 32.
Definition s64 : Z -> Z := sint 64.
Definition s16 : Z -> Z := sint 16.

(** [~m] on an [unsigned int]. *)
Definition not32 (m : Z) : Z := Z.lxor (u32 m) (Z.ones 32).

(** [DIV_ROUND_UP(n, d)] is [((n) + (d) - 1) / (d)]; C division truncates. *)
Definition DIV_ROUND_UP (n d : Z) : Z := Z.quot (n + d - 1) d.

(** [sign_extend32(value, index)]: bit [index] of [value] becomes the sign. *)
Definition sign_extend32 (value index : Z) : Z :=
  let sh := 31 - index in
  Z.shiftr (s32 (Z.shiftl (u32 value) sh)) sh.

(** [find_first_bit(addr, size)]: index of the lowest set bit below [size],
    or [size] when there is none. *)
Fixpoint find_bit_from (mask : Z) (i : Z) (fuel : nat) : Z :=
  match fuel with
  | O => i
  | S fuel' => if Z.testbit mask i then i else find_bit_from mask (i + 1) fuel'
  end.

Definition find_first_bit (mask size : Z) : Z :=
  find_bit_from mask 0 (Z.to_nat size).

(** ** Rate and gain tables (ti-ads1015.c, 101-112) *)

Definition ads1015_data_rate : list Z :=
  [128; 250; 490; 920; 1600; 2400; 3300; 3300].

Definition ads1115_data_rate : list Z :=
  [8; 16; 32; 64; 128; 250; 475; 860].

(** Translation from PGA bits to full-scale positive and negative input
    voltage range in mV *)
Definition ads1015_fullscale_range : list Z :=
  [6144; 4096; 2048; 1024; 512; 256; 256; 256].

(** [tbl[i]].  C leaves an index outside the table undefined; the model
    yields 0 there, and no theorem below reads a table out of range. *)
Definition table_at (tbl : list Z) (i : Z) : Z :=
  if i <? 0 then 0 else default 0 (tbl !! Z.to_nat i).

(** ** Driver data (ti-ads1015.c, 196-226) *)

(** Modelled from the spec: [struct ads1015_channel_data] is declared in
    the platform-data header, which is not among the sources.  A channel
    configuration is a gain (PGA) index and a data-rate index, the two
    fields the driver reads and writes. *)
Record ads1015_channel_data := mk_channel_data {
  pga : Z;
  cd_data_rate : Z
}.

#[global] Instance channel_data_inhabited : Inhabited ads1015_channel_data :=
  populate (mk_channel_data 0 0).

(** [struct ads1015_data] without [regmap] and [lock]: the register device is
    a component of [system], and the model is sequential. *)
Record ads1015_data := mk_data {
  channel_data : list ads1015_channel_data;
  data_rate : list Z;
  conv_invalid : bool;
  irq : Z;
  timestamp : Z;
  use_buffer : bool
}.

Definition set_channel_data (f : list ads1015_channel_data -> list ads1015_channel_data)
    (d : ads1015_data) : ads1015_data :=
  mk_data (f (channel_data d)) (data_rate d) (conv_invalid d) (irq d)
          (timestamp d) (use_buffer d).
Definition set_data_rate_table (t : list Z) (d : ads1015_data) : ads1015_data :=
  mk_data (channel_data d) t (conv_invalid d) (irq d) (timestamp d) (use_buffer d).
Definition set_conv_invalid (b : bool) (d : ads1015_data) : ads1015_data :=
  mk_data (channel_data d) (data_rate d) b (irq d) (timestamp d) (use_buffer d).
Definition set_irq (n : Z) (d : ads1015_data) : ads1015_data :=
  mk_data (channel_data d) (data_rate d) (conv_invalid d) n (timestamp d) (use_buffer d).
Definition set_timestamp (t : Z) (d : ads1015_data) : ads1015_data :=
  mk_data (channel_data d) (data_rate d) (conv_invalid d) (irq d) t (use_buffer d).
Definition set_use_buffer (b : bool) (d : ads1015_data) : ads1015_data :=
  mk_data (channel_data d) (data_rate d) (conv_invalid d) (irq d) (timestamp d) b.

(** [data->channel_data[chan]] and the two stores into it. *)
Definition channel_at (d : ads1015_data) (chan : Z) : ads1015_channel_data :=
  channel_data d !!! Z.to_nat chan.

Definition store_pga (chan i : Z) (d : ads1015_data) : ads1015_data :=
  set_channel_data
    (fun l => <[Z.to_nat chan := mk_channel_data i (cd_data_rate (l !!! Z.to_nat chan))]> l) d.

Definition store_data_rate (chan i : Z) (d : ads1015_data) : ads1015_data :=
  set_channel_data
    (fun l => <[Z.to_nat chan := mk_channel_data (pga (l !!! Z.to_nat chan)) i]> l) d.

(** The part of [struct iio_chan_spec] the driver reads. *)
Record iio_chan_spec := mk_chan_spec {
  address : Z;
  realbits : Z;
  shift : Z
}.

(** [ADS1015_V_CHAN]/[ADS1015_V_DIFF_CHAN] and the ADS1115 variants. *)
Definition ADS1015_V_CHAN (addr : Z) : iio_chan_spec := mk_chan_spec addr 12 4.
Definition ADS1115_V_CHAN (addr : Z) : iio_chan_spec := mk_chan_spec addr 16 0.

Definition ads1015_channels : list iio_chan_spec := map ADS1015_V_CHAN [0; 1; 2; 3; 4; 5; 6; 7].
Definition ads1115_channels : list iio_chan_spec := map ADS1115_V_CHAN [0; 1; 2; 3; 4; 5; 6; 7].

(** ** The environment of the driver *)

(** What the driver did to the outside world, oldest first. *)
Inductive event :=
| EvRead (reg ret val : Z)        (* a register read reached the bus *)
| EvWrite (reg val ret : Z)       (* a register write reached the bus *)
| EvSleep (min_us max_us : Z)     (* usleep_range(min, max) *)
| EvPush (sample ts : Z).         (* iio_push_to_buffers_with_timestamp *)

(** The register device behind the regmap: each access yields a return code
    (0, or a negative errno) and moves the device to a new state; time
    passing changes the device as well. *)
Class RegisterDevice (B : Type) := {
  bus_read : Z -> B -> Z * Z * B;
  bus_write : Z -> Z -> B -> Z * B;
  bus_elapse : Z -> B -> B
}.

(** Runtime power management status of the device, as kept by the PM core. *)
Record pm_state := mk_pm {
  usage_count : Z;
  runtime_suspended : bool
}.

(** The flags of [struct iio_dev] the driver consults. *)
Record iio_dev := mk_iio {
  buffer_enabled : bool;
  active_scan_mask : Z;
  masklength : Z
}.

(** The [mask] argument of [read_raw]/[write_raw]. *)
Inductive iio_chan_info :=
| IIO_CHAN_INFO_RAW
| IIO_CHAN_INFO_SCALE
| IIO_CHAN_INFO_SAMP_FREQ
| IIO_CHAN_INFO_OTHER.

Inductive irqreturn_t := IRQ_NONE | IRQ_HANDLED | IRQ_WAKE_THREAD.

(** A child node of the device-tree node: the properties [reg], [ti,gain]
    and [ti,datarate], each present or not. *)
Record of_node := mk_of_node {
  of_reg : option Z;
  of_gain : option Z;
  of_datarate : option Z
}.

(** What the kernel hands to [ads1015_probe] and answers to its calls. *)
Record probe_env := mk_probe_env {
  alloc_ok : bool;                      (* devm_iio_device_alloc *)
  chip : chip_ids;                      (* match data / id->driver_data *)
  pdata : option (list ads1015_channel_data);  (* dev_get_platdata *)
  config_of : bool;                     (* CONFIG_OF *)
  of_children : option (list of_node);  (* client->dev.of_node and children *)
  regmap_init_err : Z;                  (* 0, or PTR_ERR of the regmap *)
  kfifo_ok : bool;                      (* devm_iio_kfifo_allocate *)
  client_irq : Z;
  irq_type : Z;                         (* irqd_get_trigger_type *)
  request_irq_ret : Z;                  (* devm_request_threaded_irq *)
  set_active_ret : Z;                   (* pm_runtime_set_active *)
  register_ret : Z                      (* iio_device_register *)
}.

Definition IRQF_TRIGGER_RISING : Z := 1.
Definition IRQF_TRIGGER_FALLING : Z := 2.

Section Driver.

Context {B : Type} `{RegisterDevice B}.

Record system := mk_system {
  priv : ads1015_data;
  regmap : B;
  power : pm_state;
  indio_dev : iio_dev;
  trace : list event
}.

Definition with_priv (f : ads1015_data -> ads1015_data) (s : system) : system :=
  mk_system (f (priv s)) (regmap s) (power s) (indio_dev s) (trace s).
Definition with_regmap (b : B) (s : system) : system :=
  mk_system (priv s) b (power s) (indio_dev s) (trace s).
Definition with_power (p : pm_state) (s : system) : system :=
  mk_system (priv s) (regmap s) p (indio_dev s) (trace s).
Definition with_indio_dev (i : iio_dev) (s : system) : system :=
  mk_system (priv s) (regmap s) (power s) i (trace s).
Definition log (e : event) (s : system) : system :=
  mk_system (priv s) (regmap s) (power s) (indio_dev s) (trace s ++ [e]).

(** *** A state monad over [system] *)

Definition M (A : Type) : Type := system -> A * system.

Definition ret {A} (a : A) : M A := fun s => (a, s).
Definition bind {A C} (m : M A) (k : A -> M C) : M C :=
  fun s => let '(a, s') := m s in k a s'.
Definition gets {A} (f : system -> A) : M A := fun s => (f s, s).
Definition modify (f : system -> system) : M unit := fun s => (tt, f s).

#[global] Instance M_ret : MRet M := @ret.
#[global] Instance M_bind : MBind M := fun A C k m => bind m k.

(** *** The regmap layer (ti-ads1015.c, 228-246) *)

Definition ads1015_is_writeable_reg (reg : Z) : bool :=
  (reg =? ADS1015_CFG_REG) || (reg =? ADS1015_LO_THRESH_REG) || (reg =? ADS1015_HI_THRESH_REG).

(** [ads1015_regmap_config]: 8-bit register numbers up to
    [ADS1015_HI_THRESH_REG], 16-bit values, no register cache. *)
Definition max_register : Z := ADS1015_HI_THRESH_REG.
Definition val_mask : Z := Z.ones 16.

(** [regmap_read(map, reg, &val)]: returns the code and the new content of
    [val], which is written only on success.  A register above
    [max_register] is refused with -EIO before any bus traffic. *)
Definition regmap_read (reg : Z) (val : Z) : M (Z * Z) := fun s =>
  if max_register <? reg then ((- EIO, val), s)
  else
    let '(r, v, b) := bus_read reg (regmap s) in
    let v16 := Z.land v val_mask in
    ((r, if r =? 0 then v16 else val), log (EvRead reg r v16) (with_regmap b s)).

(** [regmap_write(map, reg, val)]: a register that is not writeable is
    refused with -EIO before any bus traffic. *)
Definition regmap_write (reg : Z) (val : Z) : M Z := fun s =>
  if negb (ads1015_is_writeable_reg reg) then (- EIO, s)
  else
    let v16 := Z.land val val_mask in
    let '(r, b) := bus_write reg v16 (regmap s) in
    (r, log (EvWrite reg v16 r) (with_regmap b s)).

(** [regmap_update_bits(map, reg, mask, val)]: read, replace the bits of
    [mask], write back when the word changed. *)
Definition regmap_update_bits (reg mask val : Z) : M Z :=
  '(r, orig) ← regmap_read reg 0;
  if negb (r =? 0) then mret r
  else
    let tmp := Z.lor (Z.land orig (not32 mask)) (Z.land (u32 val) (u32 mask)) in
    if negb (tmp =? orig) then regmap_write reg tmp else mret 0.

(** [usleep_range(min, max)]: the caller is blocked and the device runs on. *)
Definition usleep_range (min_us max_us : Z) : M unit := fun s =>
  (tt, log (EvSleep min_us max_us) (with_regmap (bus_elapse min_us (regmap s)) s)).

(** *** Conversion controller (ti-ads1015.c, 330-368) *)

(** The settling time computed at lines 359-362 from the rate index found
    in the old configuration word and the rate index of the channel.  The
    quotients are at most [USEC_PER_SEC], so [int conv_time] never wraps. *)
Definition conv_time_of (tbl : list Z) (dr_old dr : Z) : Z :=
  let conv_time := DIV_ROUND_UP USEC_PER_SEC (table_at tbl dr_old) in
  let conv_time := conv_time + DIV_ROUND_UP USEC_PER_SEC (table_at tbl dr) in
  conv_time + Z.quot conv_time 10. (* 10% internal clock inaccuracy *)

Definition ads1015_get_adc_result (chan : Z) (val : Z) : M (Z * Z) :=
  if (chan <? 0) || (chan >=? ADS1015_CHANNELS) then mret (- EINVAL, val)
  else
    '(r, old) ← regmap_read ADS1015_CFG_REG 0;
    if negb (r =? 0) then mret (r, val)
    else
      d ← gets priv;
      let pga := s32 (pga (channel_at d chan)) in
      let dr := s32 (cd_data_rate (channel_at d chan)) in
      let mask := Z.lor (Z.lor ADS1015_CFG_MUX_MASK ADS1015_CFG_PGA_MASK)
                        ADS1015_CFG_DR_MASK in
      let cfg := u32 (Z.lor (Z.lor (s32 (Z.shiftl chan ADS1015_CFG_MUX_SHIFT))
                                   (s32 (Z.shiftl pga ADS1015_CFG_PGA_SHIFT)))
                            (s32 (Z.shiftl dr ADS1015_CFG_DR_SHIFT))) in
      let cfg := Z.lor (Z.land old (not32 mask)) (Z.land cfg mask) in
      let settle_and_read : M (Z * Z) :=
        d ← gets priv;
        (if conv_invalid d then
           let dr_old := Z.shiftr (Z.land old ADS1015_CFG_DR_MASK) ADS1015_CFG_DR_SHIFT in
           let conv_time := conv_time_of (data_rate d) dr_old dr in
           usleep_range conv_time (conv_time + 1);;
           modify (with_priv (set_conv_invalid false))
         else mret tt);;
        regmap_read ADS1015_CONV_REG val in
      if negb (old =? cfg) then
        r ← regmap_write ADS1015_CFG_REG cfg;
        if negb (r =? 0) then mret (r, val)
        else
          modify (with_priv (set_conv_invalid true));;
          settle_and_read
      else settle_and_read.

(** *** Scale and data-rate setters (ti-ads1015.c, 370-403) *)

(** The [for] loops of the two setters: the first index [i], counted from
    [i] for [n] steps, at which the table holds [x]. *)
Fixpoint scan_table (tbl : list Z) (x : Z) (i : Z) (n : nat) : option Z :=
  match n with
  | O => None
  | S n' => if table_at tbl i =? x then Some i else scan_table tbl x (i + 1) n'
  end.

(** [ARRAY_SIZE] of the two tables the loops are bounded by. *)
Definition ARRAY_SIZE (tbl : list Z) : nat := length tbl.

(** [div_s64((scale * 1000000LL + uscale) << (realbits - 1), 1000000)],
    stored in an [int]. *)
Definition fullscale_of (chan : iio_chan_spec) (scale uscale : Z) : Z :=
  s32 (Z.quot (s64 (Z.shiftl (s64 (scale * 1000000 + uscale)) (realbits chan - 1)))
              1000000).

Definition ads1015_set_scale (chan : iio_chan_spec) (scale uscale : Z) : M Z :=
  let fullscale := fullscale_of chan scale uscale in
  match scan_table ads1015_fullscale_range fullscale 0
                   (ARRAY_SIZE ads1015_fullscale_range) with
  | Some i => modify (with_priv (store_pga (address chan) i));; mret 0
  | None => mret (- EINVAL)
  end.

(** The comparison [data->data_rate[i] == rate] is made on [unsigned int]. *)
Definition ads1015_set_data_rate (chan : Z) (rate : Z) : M Z :=
  d ← gets priv;
  match scan_table (data_rate d) (u32 rate) 0 (ARRAY_SIZE ads1015_data_rate) with
  | Some i => modify (with_priv (store_data_rate chan i));; mret 0
  | None => mret (- EINVAL)
  end.

(** *** Conversion mode, ready pin and runtime PM callbacks
        (ti-ads1015.c, 637-657 and 911-930) *)

Definition ads1015_set_conv_mode (mode : Z) : M Z :=
  regmap_update_bits ADS1015_CFG_REG ADS1015_CFG_MOD_MASK
                     (Z.shiftl mode ADS1015_CFG_MOD_SHIFT).

Definition ads1015_set_conv_ready_pin : M Z :=
  r ← regmap_write ADS1015_LO_THRESH_REG 0;
  if negb (r =? 0) then mret r
  else
    r ← regmap_write ADS1015_HI_THRESH_REG 65535;
    if negb (r =? 0) then mret r
    else regmap_update_bits ADS1015_CFG_REG ADS1015_CFG_COMP_QUE_MASK 0.

Definition ads1015_runtime_suspend : M Z :=
  ads1015_set_conv_mode ADS1015_SINGLESHOT.

Definition ads1015_runtime_resume : M Z :=
  r ← ads1015_set_conv_mode ADS1015_CONTINUOUS;
  (if r =? 0 then modify (with_priv (set_conv_invalid true)) else mret tt);;
  mret r.

(** *** The runtime-PM core, reduced to what the driver relies on

    A usage counter and an active/suspended status.  [pm_runtime_get_sync]
    resumes a suspended device through the driver's resume callback and
    answers 1 when the device was already active; [pm_runtime_put_autosuspend]
    only drops the reference: the switch to single-shot mode is made later,
    when the autosuspend timer expires with no user left. *)

Definition pm_usage_add (k : Z) : M unit :=
  modify (fun s => with_power (mk_pm (usage_count (power s) + k)
                                     (runtime_suspended (power s))) s).

Definition pm_set_suspended (b : bool) : M unit :=
  modify (fun s => with_power (mk_pm (usage_count (power s)) b) s).

Definition pm_runtime_get_sync : M Z :=
  pm_usage_add 1;;
  p ← gets power;
  if runtime_suspended p then
    r ← ads1015_runtime_resume;
    if r =? 0 then pm_set_suspended false;; mret 0 else mret r
  else mret 1.

Definition pm_runtime_put_noidle : M unit :=
  p ← gets power;
  if 0 <? usage_count p then pm_usage_add (-1) else mret tt.

Definition pm_runtime_put_autosuspend : M Z :=
  pm_usage_add (-1);; mret 0.

Definition pm_autosuspend_expired : M unit :=
  p ← gets power;
  if (usage_count p =? 0) && negb (runtime_suspended p) then
    r ← ads1015_runtime_suspend;
    if r =? 0 then pm_set_suspended true else mret tt
  else mret tt.

(** *** Power state and buffer hooks (ti-ads1015.c, 272-310) *)

Definition ads1015_set_power_state (on : bool) : M Z :=
  r ← (if on then
         r ← pm_runtime_get_sync;
         (if r <? 0 then pm_runtime_put_noidle else mret tt);;
         mret r
       else pm_runtime_put_autosuspend);
  mret (if r <? 0 then r else 0).

Definition ads1015_buffer_preenable : M Z := ads1015_set_power_state true.
Definition ads1015_buffer_postdisable : M Z := ads1015_set_power_state false.

(** The IIO core around the two hooks: capture is switched on after a
    successful [preenable] and switched off before [postdisable]. *)
Definition set_buffer_enabled (b : bool) : M unit :=
  modify (fun s => with_indio_dev (mk_iio b (active_scan_mask (indio_dev s))
                                          (masklength (indio_dev s))) s).

Definition iio_enable_buffer : M Z :=
  r ← ads1015_buffer_preenable;
  if negb (r =? 0) then mret r else set_buffer_enabled true;; mret 0.

Definition iio_disable_buffer : M Z :=
  set_buffer_enabled false;; ads1015_buffer_postdisable.

(** [iio_device_claim_direct_mode]: -EBUSY while capture is on. *)
Definition iio_device_claim_direct_mode : M Z :=
  i ← gets indio_dev;
  mret (if buffer_enabled i then - EBUSY else 0).

Definition iio_device_release_direct_mode : M unit := mret tt.

(** *** The IIO read and write callbacks (ti-ads1015.c, 405-497)

    [read_raw] returns its code together with the final contents of [*val]
    and [*val2], which keep the caller's values where the code does not
    store into them. *)

Definition ads1015_read_raw (chan : iio_chan_spec) (val val2 : Z)
    (mask : iio_chan_info) : M (Z * Z * Z) :=
  match mask with
  | IIO_CHAN_INFO_RAW =>
      i ← gets indio_dev;
      (* cannot read directly if buffered capture enabled. *)
      if buffer_enabled i then mret (- EAGAIN, val, val2)
      else
        let shift := shift chan in
        r ← iio_device_claim_direct_mode;
        if negb (r =? 0) then mret (r, val, val2)
        else
          r ← ads1015_set_power_state true;
          if r <? 0 then iio_device_release_direct_mode;; mret (r, val, val2)
          else
            '(r, val) ← ads1015_get_adc_result (address chan) val;
            if r <? 0 then
              ads1015_set_power_state false;;
              iio_device_release_direct_mode;;
              mret (r, val, val2)
            else
              let val := sign_extend32 (Z.shiftr val shift) (15 - shift) in
              r ← ads1015_set_power_state false;
              iio_device_release_direct_mode;;
              mret (if r <? 0 then r else IIO_VAL_INT, val, val2)
  | IIO_CHAN_INFO_SCALE =>
      d ← gets priv;
      let idx := s32 (pga (channel_at d (address chan))) in
      mret (IIO_VAL_FRACTIONAL_LOG2, table_at ads1015_fullscale_range idx,
            realbits chan - 1)
  | IIO_CHAN_INFO_SAMP_FREQ =>
      d ← gets priv;
      let idx := s32 (cd_data_rate (channel_at d (address chan))) in
      mret (IIO_VAL_INT, s32 (table_at (data_rate d) idx), val2)
  | IIO_CHAN_INFO_OTHER => mret (- EINVAL, val, val2)
  end.

Definition ads1015_write_raw (chan : iio_chan_spec) (val val2 : Z)
    (mask : iio_chan_info) : M Z :=
  match mask with
  | IIO_CHAN_INFO_SCALE => ads1015_set_scale chan val val2
  | IIO_CHAN_INFO_SAMP_FREQ => ads1015_set_data_rate (address chan) val
  | _ => mret (- EINVAL)
  end.

(** *** Channel configuration at probe time (ti-ads1015.c, 541-635) *)

Definition put_channel (channel p dr : Z) : M unit :=
  modify (with_priv (set_channel_data (fun l => <[Z.to_nat channel := mk_channel_data p dr]> l))).

Fixpoint of_children_loop (nodes : list of_node) : M Z :=
  match nodes with
  | [] => mret 0
  | node :: rest =>
      match of_reg node with
      | None => of_children_loop rest           (* invalid reg: continue *)
      | Some channel =>
          if channel >=? ADS1015_CHANNELS then of_children_loop rest
          else
            let p := default ADS1015_DEFAULT_PGA (of_gain node) in
            if 6 <? p then mret (- EINVAL)
            else
              let dr := default ADS1015_DEFAULT_DATA_RATE (of_datarate node) in
              if 7 <? dr then mret (- EINVAL)
              else put_channel channel p dr;; of_children_loop rest
      end
  end.

Definition ads1015_get_channels_config_of (env : probe_env) : M Z :=
  match of_children env with
  | None | Some [] => mret (- EINVAL)
  | Some nodes => of_children_loop nodes
  end.

Definition default_channels : list ads1015_channel_data :=
  replicate (Z.to_nat ADS1015_CHANNELS)
            (mk_channel_data ADS1015_DEFAULT_PGA ADS1015_DEFAULT_DATA_RATE).

Definition ads1015_get_channels_config (env : probe_env) : M unit :=
  match pdata env with
  | Some pd =>   (* prefer platform data *)
      modify (with_priv (set_channel_data (fun _ => pd)))
  | None =>
      r ← (if config_of env then ads1015_get_channels_config_of env else mret (- EINVAL));
      if r =? 0 then mret tt
      else (* fallback on default configuration *)
        modify (with_priv (set_channel_data (fun _ => default_channels)))
  end.

(** *** Interrupt handlers (ti-ads1015.c, 659-740) *)

Definition ads1015_irq_handler (now : Z) : M irqreturn_t :=
  modify (with_priv (set_timestamp now));;
  mret IRQ_WAKE_THREAD.

(** [res] is stored by the read before it is used: the regmap returns 0 or a
    negative code, and a negative code leaves through [err]. *)
Definition ads1015_irq_handler_thread : M irqreturn_t :=
  i ← gets indio_dev;
  (* return if buffer not enabled *)
  if negb (buffer_enabled i) then
    modify (with_priv (set_use_buffer false));;
    mret IRQ_HANDLED
  else
    d ← gets priv;
    '(r, res) ← (if use_buffer d then
                   (* fast conversion *)
                   regmap_read ADS1015_CONV_REG 0
                 else
                   (* conversion with config update *)
                   let chan := find_first_bit (active_scan_mask i) (masklength i) in
                   ads1015_get_adc_result chan 0);
    if r <? 0 then mret IRQ_HANDLED
    else
      d ← gets priv;
      modify (log (EvPush (s16 res) (timestamp d)));;
      modify (with_priv (set_use_buffer true));;
      mret IRQ_HANDLED.

(** *** Probe (ti-ads1015.c, 742-893) *)

Definition ads1015_probe_irq (env : probe_env) : M Z :=
  if (irq_type env =? IRQF_TRIGGER_RISING) || (irq_type env =? IRQF_TRIGGER_FALLING)
  then mret (request_irq_ret env)
  else mret (- EINVAL).

(** The private data as [devm_iio_device_alloc] returns it: zeroed. *)
Definition zero_data : ads1015_data :=
  mk_data (replicate (Z.to_nat ADS1015_CHANNELS) (mk_channel_data 0 0)) [] false 0 0 false.

Definition ads1015_probe (env : probe_env) : M Z :=
  if negb (alloc_ok env) then mret (- ENOMEM)
  else
    modify (with_priv (fun _ => zero_data));;
    modify (with_priv (set_data_rate_table
                         match chip env with
                         | ADS1015 => ads1015_data_rate
                         | ADS1115 => ads1115_data_rate
                         end));;
    ads1015_get_channels_config env;;
    if negb (regmap_init_err env =? 0) then mret (regmap_init_err env)
    else
      modify (with_priv (set_use_buffer false));;
      if negb (kfifo_ok env) then mret (- ENOMEM)
      else
        (* set conversion ready pin *)
        r ← ads1015_set_conv_ready_pin;
        if negb (r =? 0) then mret r
        else
          (* continuous conversion mode *)
          r ← ads1015_set_conv_mode ADS1015_CONTINUOUS;
          if negb (r =? 0) then mret r
          else
            r ← (if 0 <? client_irq env then
                   modify (with_priv (set_irq (client_irq env)));;
                   ads1015_probe_irq env
                 else mret 0);
            if negb (r =? 0) then mret r
            else
              modify (with_priv (set_conv_invalid true));;
              if negb (set_active_ret env =? 0) then mret (set_active_ret env)
              else
                modify (with_power (mk_pm 0 false));;
                if register_ret env <? 0 then mret (register_ret env) else mret 0.

End Driver.

Arguments system : clear implicits.
Arguments M : clear implicits.


(** ** A register file with scripted bus faults

    A concrete [RegisterDevice] on which the driver can be run: four 16-bit
    registers, and a script giving the return code of each coming bus access
    (0 for success; an exhausted script means success).  A failed access
    leaves the registers as they are. *)

Record regfile := mk_regfile {
  rf_conv : Z;
  rf_cfg : Z;
  rf_lo : Z;
  rf_hi : Z;
  rf_script : list Z
}.

Definition rf_next (f : regfile) : Z * regfile :=
  match rf_script f with
  | [] => (0, f)
  | r :: rest => (r, mk_regfile (rf_conv f) (rf_cfg f) (rf_lo f) (rf_hi f) rest)
  end.

Definition rf_get (reg : Z) (f : regfile) : Z :=
  if reg =? ADS1015_CONV_REG then rf_conv f
  else if reg =? ADS1015_CFG_REG then rf_cfg f
  else if reg =? ADS1015_LO_THRESH_REG then rf_lo f
  else rf_hi f.

Definition rf_put (reg v : Z) (f : regfile) : regfile :=
  if reg =? ADS1015_CFG_REG then mk_regfile (rf_conv f) v (rf_lo f) (rf_hi f) (rf_script f)
  else if reg =? ADS1015_LO_THRESH_REG then mk_regfile (rf_conv f) (rf_cfg f) v (rf_hi f) (rf_script f)
  else if reg =? ADS1015_HI_THRESH_REG then mk_regfile (rf_conv f) (rf_cfg f) (rf_lo f) v (rf_script f)
  else f.

#[global] Instance regfile_device : RegisterDevice regfile := {
  bus_read reg f := let '(r, f') := rf_next f in (r, rf_get reg f', f');
  bus_write reg v f := let '(r, f') := rf_next f in
                       (r, if r =? 0 then rf_put reg v f' else f');
  bus_elapse _ f := f
}.

(** The configuration register after power-up is 0x8583: single-shot mode,
    comparator disabled. *)
Definition ADS1015_CFG_RESET : Z := 34179.

Definition boot_system (f : regfile) : system regfile :=
  mk_system zero_data f (mk_pm 0 true) (mk_iio false 1 9) [].

Definition default_env : probe_env :=
  mk_probe_env true ADS1015 None false None 0 true 0 0 0 0 0.

Definition run {A} (m : M regfile A) (s : system regfile) : system regfile := snd (m s).

(** A converter fresh from power-up whose bus never fails, the system
    after a default probe of it, and the same with capture switched on. *)
Definition reset_regs : regfile := mk_regfile 77 ADS1015_CFG_RESET 0 0 [].
Definition probed : system regfile :=
  run (ads1015_probe default_env) (boot_system reset_regs).
Definition capturing : system regfile := run iio_enable_buffer probed.

(** The same converter on a bus whose ninth access fails with -EIO: the six
    accesses of probe and the two of the first capture cycle succeed, the
    conversion read of the second cycle does not. *)
Definition flaky_regs : regfile :=
  mk_regfile 77 ADS1015_CFG_RESET 0 0 [0; 0; 0; 0; 0; 0; 0; 0; - EIO].
Definition flaky_capturing : system regfile :=
  run iio_enable_buffer (run (ads1015_probe default_env) (boot_system flaky_regs)).

(** A runtime-suspended device: one sample was read after probe, then the
    autosuspend timer expired and switched the chip to single-shot mode. *)
Definition suspended : system regfile :=
  run pm_autosuspend_expired (run (ads1015_get_adc_result 0 0) probed).

(** The ADS1115 after a default probe. *)
Definition probed_1115 : system regfile :=
  run (ads1015_probe (mk_probe_env true ADS1115 None false None 0 true 0 0 0 0 0))
      (boot_system reset_regs).

(** ** Bit fields of the configuration word, arithmetically *)

(** The mux, gain and rate fields of a configuration word. *)
Definition field_mux (w : Z) : Z := (w / 4096) mod 8.
Definition field_pga (w : Z) : Z := (w / 512) mod 8.
Definition field_dr (w : Z) : Z := (w / 32) mod 8.
Definition comp_que (w : Z) : Z := w mod 4.

Definition cfg_fields (w : Z) : Z * Z * Z := (field_mux w, field_pga w, field_dr w).

Definition pack_fields (f : Z * Z * Z) : Z :=
  let '(m, g, r) := f in m * 4096 + g * 512 + r * 32.

(** The word [w] with its mux, gain and rate fields replaced by [f]. *)
Definition replace_fields (w : Z) (f : Z * Z * Z) : Z :=
  w - pack_fields (cfg_fields w) + pack_fields f.

Definition settle_mask : Z :=
  Z.lor (Z.lor ADS1015_CFG_MUX_MASK ADS1015_CFG_PGA_MASK) ADS1015_CFG_DR_MASK.

(** ** The acquisition algorithm as the design document words it *)

(** The smallest integer not below [n / d]. *)
Definition ceil_div (n d : Z) : Z := n / d + (if n mod d =? 0 then 0 else 1).

(** The rate in Hz behind a rate index. *)
Definition rate_hz (tbl : list Z) (idx : Z) : Z := table_at tbl idx.

(** One conversion period at the old rate plus one at the new rate. *)
Definition settling_sum (tbl : list Z) (old_idx new_idx : Z) : Z :=
  ceil_div 1000000 (rate_hz tbl old_idx) + ceil_div 1000000 (rate_hz tbl new_idx).

(** The sum inflated by 10%, the tenth taken in integer arithmetic. *)
Definition settling_delay (tbl : list Z) (old_idx new_idx : Z) : Z :=
  let t := settling_sum tbl old_idx new_idx in t + t / 10.

Definition chip_table (tbl : list Z) : Prop :=
  tbl = ads1015_data_rate \/ tbl = ads1115_data_rate.

(** The configuration store is well formed when it has one entry per
    channel, every stored index lies in 0..7 and the rate table is that of
    one of the two chips.  Probe without platform data establishes this and
    the setters keep it. *)
Definition valid_channel_data (c : ads1015_channel_data) : Prop :=
  0 <= pga c < 8 /\ 0 <= cd_data_rate c < 8.

Definition well_formed (d : ads1015_data) : Prop :=
  length (channel_data d) = Z.to_nat ADS1015_CHANNELS /\
  Forall valid_channel_data (channel_data d) /\
  chip_table (data_rate d).

(** The runs of the ready-pin setup: the bus accesses it makes, oldest
    first, and the code it returns. *)
Inductive ready_pin_run : list event -> Z -> Prop :=
| rp_lo_failed r :
    r <> 0 ->
    ready_pin_run [EvWrite ADS1015_LO_THRESH_REG 0 r] r
| rp_hi_failed r :
    r <> 0 ->
    ready_pin_run [EvWrite ADS1015_LO_THRESH_REG 0 0;
                   EvWrite ADS1015_HI_THRESH_REG 65535 r] r
| rp_cfg_read_failed r w :
    r <> 0 ->
    ready_pin_run [EvWrite ADS1015_LO_THRESH_REG 0 0;
                   EvWrite ADS1015_HI_THRESH_REG 65535 0;
                   EvRead ADS1015_CFG_REG r w] r
| rp_queue_already_zero w :
    comp_que w = 0 ->
    ready_pin_run [EvWrite ADS1015_LO_THRESH_REG 0 0;
                   EvWrite ADS1015_HI_THRESH_REG 65535 0;
                   EvRead ADS1015_CFG_REG 0 w] 0
| rp_queue_cleared w r :
    comp_que w <> 0 ->
    ready_pin_run [EvWrite ADS1015_LO_THRESH_REG 0 0;
                   EvWrite ADS1015_HI_THRESH_REG 65535 0;
                   EvRead ADS1015_CFG_REG 0 w;
                   EvWrite ADS1015_CFG_REG (w - comp_que w) r] r.

Section Spec.

Context {B : Type} `{RegisterDevice B}.

(** Step 4 and 5: wait out the settling delay when the last conversion
    cannot be trusted, then read the conversion register. *)
Definition settle_then_read (old_idx new_idx val : Z) (s : system B) : Z * Z * system B :=
  if conv_invalid (priv s) then
    let d := settling_delay (data_rate (priv s)) old_idx new_idx in
    let '(_, s1) := usleep_range d (d + 1) s in
    regmap_read ADS1015_CONV_REG val (with_priv (set_conv_invalid false) s1)
  else regmap_read ADS1015_CONV_REG val s.

(** [acquire(channel) -> raw_value | Error], steps 1 to 5. *)
Definition acquire_spec (chan val : Z) (s : system B) : Z * Z * system B :=
  if bool_decide (0 <= chan < ADS1015_CHANNELS) then
    let '(r, current, s1) := regmap_read ADS1015_CFG_REG 0 s in
    if bool_decide (r <> 0) then (r, val, s1)
    else
      let c := channel_at (priv s1) chan in
      let desired := (chan, pga c, cd_data_rate c) in
      if bool_decide (desired = cfg_fields current) then
        settle_then_read (field_dr current) (cd_data_rate c) val s1
      else
        let '(r, s2) := regmap_write ADS1015_CFG_REG (replace_fields current desired) s1 in
        if bool_decide (r <> 0) then (r, val, s2)
        else settle_then_read (field_dr current) (cd_data_rate c) val
               (with_priv (set_conv_invalid true) s2)
  else (- EINVAL, val, s).

(** The part of the state the capture pipeline decides on. *)
Definition capture_view (s : system B) : bool * iio_dev := (use_buffer (priv s), indio_dev s).

(** A computation that leaves [capture_view] as it found it. *)
Definition frames {A} (m : M B A) : Prop :=
  forall s, capture_view (snd (m s)) = capture_view s.

(** The end of a capture cycle: a failed read leaves through [err]; a
    successful one pushes the sample and marks the steady state. *)
Definition finish_cycle (r res : Z) (s1 : system B) : system B :=
  if r <? 0 then s1
  else with_priv (set_use_buffer true)
         (log (EvPush (s16 res) (timestamp (priv s1))) s1).

(** A computation that leaves [use_buffer] false when it finds it false. *)
Definition keeps_cold {A} (m : M B A) : Prop :=
  forall s, use_buffer (priv s) = false -> use_buffer (priv (snd (m s))) = false.

(** [n] interrupt cycles in a row. *)
Definition cycles (n : nat) (s : system B) : system B :=
  Nat.iter n (fun s => snd (ads1015_irq_handler_thread s)) s.

(** The bus traffic of the fast path: conversion reads and pushed samples. *)
Definition fast_event (e : event) : Prop :=
  match e with
  | EvRead reg _ _ => reg = ADS1015_CONV_REG
  | EvPush _ _ => True
  | _ => False
  end.

End Spec.

(** ** Notions for the rest of the driver *)

Section Notions.

Context {B : Type} `{RegisterDevice B}.

(** A computation that keeps a property of the system. *)
Definition preserves (P : system B -> Prop) {A} (m : M B A) : Prop :=
  forall s, P s -> P (snd (m s)).

(** Properties that do not look at the register device or the log, at
    [conv_invalid], or at the runtime-PM status. *)
Definition bus_blind (P : system B -> Prop) : Prop :=
  forall s b t, P s -> P (mk_system (priv s) b (power s) (indio_dev s) t).

Definition conv_blind (P : system B -> Prop) : Prop :=
  forall s c, P s -> P (with_priv (set_conv_invalid c) s).

Definition power_blind (P : system B -> Prop) : Prop :=
  forall s p, P s -> P (with_power p s).

(** The configuration store has one entry per channel and every stored
    index is in range. *)
Definition store_ok (x : system B) : Prop :=
  length (channel_data (priv x)) = Z.to_nat ADS1015_CHANNELS /\
  Forall valid_channel_data (channel_data (priv x)).

End Notions.

(** The runs of an acquisition: the flag [conv_invalid] and the content of
    [*val] on entry, the bus accesses and sleeps it makes, oldest first, the
    code it returns, and the content of [*val] and the flag on exit. *)
Inductive acquire_run (ci : bool) (val : Z) : list event -> Z -> Z -> bool -> Prop :=
| ar_bad_channel :
    acquire_run ci val [] (- EINVAL) val ci
| ar_cfg_read_failed r w :
    r <> 0 ->
    acquire_run ci val [EvRead ADS1015_CFG_REG r w] r val ci
| ar_write_failed old w r :
    r <> 0 -> w <> old ->
    acquire_run ci val [EvRead ADS1015_CFG_REG 0 old; EvWrite ADS1015_CFG_REG w r]
                r val ci
| ar_reconfigured old w d r x :
    w <> old ->
    acquire_run ci val [EvRead ADS1015_CFG_REG 0 old; EvWrite ADS1015_CFG_REG w 0;
                        EvSleep d (d + 1); EvRead ADS1015_CONV_REG r x]
                r (if r =? 0 then x else val) false
| ar_waited old d r x :
    ci = true ->
    acquire_run ci val [EvRead ADS1015_CFG_REG 0 old;
                        EvSleep d (d + 1); EvRead ADS1015_CONV_REG r x]
                r (if r =? 0 then x else val) false
| ar_steady old r x :
    ci = false ->
    acquire_run ci val [EvRead ADS1015_CFG_REG 0 old;
                        EvRead ADS1015_CONV_REG r x]
                r (if r =? 0 then x else val) false.

(** The operating-mode bit of a configuration word. *)
Definition mode_bit (w : Z) : Z := (w / 256) mod 2.

(** The runs of a mode switch: the bus accesses it makes and the code it
    returns. *)
Inductive mode_run (mode : Z) : list event -> Z -> Prop :=
| mr_read_failed r w :
    r <> 0 ->
    mode_run mode [EvRead ADS1015_CFG_REG r w] r
| mr_already w :
    mode_bit w = mode ->
    mode_run mode [EvRead ADS1015_CFG_REG 0 w] 0
| mr_switched w w' r :
    mode_bit w <> mode ->
    mode_bit w' = mode ->
    Z.land w' (not32 ADS1015_CFG_MOD_MASK) = Z.land w (not32 ADS1015_CFG_MOD_MASK) ->
    mode_run mode [EvRead ADS1015_CFG_REG 0 w; EvWrite ADS1015_CFG_REG w' r] r.

(** A child node the device-tree scan accepts: it has no [reg], or its
    [reg] is beyond the channels, or its gain (default 2) is at most 6 and
    its data rate (default 4) at most 7. *)
Definition node_ok (n : of_node) : Prop :=
  match of_reg n with
  | None => True
  | Some channel =>
      ADS1015_CHANNELS <= channel \/
      (default ADS1015_DEFAULT_PGA (of_gain n) <= 6 /\
       default ADS1015_DEFAULT_DATA_RATE (of_datarate n) <= 7)
  end.

(** Device-tree cells are [u32]. *)
Definition opt_u32 (o : option Z) : Prop :=
  match o with
  | Some v => 0 <= v < 2 ^ 32
  | None => True
  end.

Definition node_u32 (n : of_node) : Prop :=
  opt_u32 (of_reg n) /\ opt_u32 (of_gain n) /\ opt_u32 (of_datarate n).

(** What probe is handed is well typed: platform data has one valid entry
    per channel, and device-tree cells are [u32]. *)
Definition env_sane (env : probe_env) : Prop :=
  (forall pd, pdata env = Some pd ->
              length pd = Z.to_nat ADS1015_CHANNELS /\ Forall valid_channel_data pd) /\
  (forall nodes, of_children env = Some nodes -> Forall node_u32 nodes).

(** The rate table of a chip. *)
Definition chip_data_rate (c : chip_ids) : list Z :=
  match c with
  | ADS1015 => ads1015_data_rate
  | ADS1115 => ads1115_data_rate
  end.

(** What the driver may do on the bus: read the conversion and the
    configuration register, write a 16-bit word to the configuration
    register, write 0 to the low threshold and 0xFFFF to the high one. *)
Definition event_ok (e : event) : Prop :=
  match e with
  | EvRead reg _ _ => reg = ADS1015_CONV_REG \/ reg = ADS1015_CFG_REG
  | EvWrite reg v _ =>
      (reg = ADS1015_CFG_REG /\ 0 <= v < 2 ^ 16) \/
      (reg = ADS1015_LO_THRESH_REG /\ v = 0) \/
      (reg = ADS1015_HI_THRESH_REG /\ v = 65535)
  | EvSleep _ _ => True
  | EvPush _ _ => True
  end.

(** The entry points of the driver, as the kernel calls them. *)
Inductive driver_call :=
| CallProbe (env : probe_env)
| CallRemove
| CallReadRaw (chan : iio_chan_spec) (val val2 : Z) (mask : iio_chan_info)
| CallWriteRaw (chan : iio_chan_spec) (val val2 : Z) (mask : iio_chan_info)
| CallEnableBuffer
| CallDisableBuffer
| CallIrq (now : Z)
| CallIrqThread
| CallRuntimeSuspend
| CallRuntimeResume
| CallAutosuspendExpired.

Section Calls.

Context {B : Type} `{RegisterDevice B}.

(** [ads1015_remove] (ti-ads1015.c, 895-908): runtime PM is switched off
    with the device marked suspended and the reference dropped, then the
    chip is powered down to single-shot mode. *)
Definition ads1015_remove : M B Z :=
  pm_set_suspended true;;
  pm_runtime_put_noidle;;
  (* power down single shot mode *)
  ads1015_set_conv_mode ADS1015_SINGLESHOT.

Definition do_call (c : driver_call) : M B unit :=
  match c with
  | CallProbe env => ads1015_probe env;; mret tt
  | CallRemove => ads1015_remove;; mret tt
  | CallReadRaw chan val val2 mask => ads1015_read_raw chan val val2 mask;; mret tt
  | CallWriteRaw chan val val2 mask => ads1015_write_raw chan val val2 mask;; mret tt
  | CallEnableBuffer => iio_enable_buffer;; mret tt
  | CallDisableBuffer => iio_disable_buffer;; mret tt
  | CallIrq now => ads1015_irq_handler now;; mret tt
  | CallIrqThread => ads1015_irq_handler_thread;; mret tt
  | CallRuntimeSuspend => ads1015_runtime_suspend;; mret tt
  | CallRuntimeResume => ads1015_runtime_resume;; mret tt
  | CallAutosuspendExpired => pm_autosuspend_expired
  end.

Definition do_calls (calls : list driver_call) (s : system B) : system B :=
  fold_left (fun s c => snd (do_call c s)) calls s.

(** Every bus access logged so far was one the driver may make. *)
Definition disciplined (s : system B) : Prop := Forall event_ok (trace s).

End Calls.

(** A probe configured from the device tree: an ADS1115 with an interrupt
    line and two child nodes, one for channel 1 and one without [reg]. *)
Definition dt_nodes : list of_node :=
  [mk_of_node (Some 1) (Some 3) (Some 5); mk_of_node None None None].
Definition dt_env : probe_env :=
  mk_probe_env true ADS1115 None true (Some dt_nodes) 0 true 17 IRQF_TRIGGER_FALLING 0 0 0.

(** The calls of a short session: probe, a raw read, a capture cycle,
    autosuspend and removal. *)
Definition session : list driver_call :=
  [CallProbe default_env;
   CallReadRaw (ADS1015_V_CHAN 1) 0 0 IIO_CHAN_INFO_RAW;
   CallWriteRaw (ADS1015_V_CHAN 1) 920 0 IIO_CHAN_INFO_SAMP_FREQ;
   CallEnableBuffer; CallIrq 1234; CallIrqThread; CallDisableBuffer;
   CallAutosuspendExpired; CallRuntimeResume; CallRemove].

(** * Proofs *)

(** ** Bit-level facts about the configuration word *)

Lemma testbit_genmask h l n :
  0 <= l <= h -> 0 <= n ->
  Z.testbit (GENMASK h l) n = (l <=? n) && (n <=? h).
Proof.
  intros Hl Hn. unfold GENMASK.
  rewrite Z.shiftl_spec by lia.
  destruct (Z.leb_spec l n) as [Hln|Hln]; simpl.
  - rewrite Z.testbit_ones by lia.
    destruct (Z.leb_spec 0 (n - l)), (Z.ltb_spec (n - l) (h - l + 1)),
      (Z.leb_spec n h); simpl; try reflexivity; lia.
  - apply Z.testbit_neg_r. lia.
Qed.

Lemma land_genmask x h l :
  0 <= l <= h ->
  Z.land x (GENMASK h l) = ((x / 2 ^ l) mod 2 ^ (h - l + 1)) * 2 ^ l.
Proof.
  intros Hl. apply Z.bits_inj'. intros n Hn.
  rewrite Z.land_spec, testbit_genmask by lia.
  destruct (Z.leb_spec l n) as [Hln|Hln]; simpl.
  - rewrite Z.mul_pow2_bits by lia.
    destruct (Z.leb_spec n h) as [Hnh|Hnh].
    + rewrite Z.mod_pow2_bits_low by lia.
      rewrite Z.div_pow2_bits by lia.
      rewrite andb_true_r. f_equal. lia.
    + rewrite Z.mod_pow2_bits_high by lia. apply andb_false_r.
  - rewrite andb_false_r. symmetry.
    rewrite Z.mul_pow2_bits_low by lia. reflexivity.
Qed.

Lemma lor_disjoint_add a b : Z.land a b = 0 -> Z.lor a b = a + b.
Proof.
  intros Hd. rewrite <- Z.lxor_lor, <- Z.add_nocarry_lxor by assumption. reflexivity.
Qed.

Lemma settle_mask_genmask : settle_mask = Z.lor (GENMASK 14 9) (GENMASK 7 5).
Proof. vm_compute. reflexivity. Qed.

Lemma land_settle_mask x : Z.land x settle_mask = pack_fields (cfg_fields x).
Proof.
  rewrite settle_mask_genmask, Z.land_lor_distr_r.
  rewrite lor_disjoint_add.
  - rewrite !land_genmask by lia.
    unfold pack_fields, cfg_fields, field_mux, field_pga, field_dr.
    change (2 ^ 5) with 32. change (2 ^ 9) with 512.
    change (2 ^ (14 - 9 + 1)) with 64. change (2 ^ (7 - 5 + 1)) with 8.
    replace (x / 4096) with (x / 512 / 8) by (rewrite Z.div_div by lia; reflexivity).
    generalize (x / 512) (x / 32). intros q p.
    pose proof (Z.div_mod q 64). pose proof (Z.div_mod q 8). pose proof (Z.div_mod (q / 8) 8).
    pose proof (Z.mod_pos_bound q 64). pose proof (Z.mod_pos_bound q 8).
    pose proof (Z.mod_pos_bound (q / 8) 8). lia.
  - apply Z.bits_inj'. intros n Hn.
    rewrite !Z.land_spec, !testbit_genmask, Z.bits_0 by lia.
    destruct (Z.leb_spec 9 n), (Z.leb_spec n 7); simpl;
      rewrite ?andb_false_r; try reflexivity; lia.
Qed.

Lemma land_dr_mask x :
  Z.shiftr (Z.land x ADS1015_CFG_DR_MASK) ADS1015_CFG_DR_SHIFT = field_dr x.
Proof.
  unfold ADS1015_CFG_DR_MASK, ADS1015_CFG_DR_SHIFT, field_dr.
  rewrite land_genmask by lia. rewrite Z.shiftr_div_pow2 by lia.
  change (2 ^ 5) with 32. change (2 ^ (7 - 5 + 1)) with 8.
  rewrite Z.div_mul by lia. reflexivity.
Qed.

Lemma testbit_not32 m n :
  0 <= m < 2 ^ 32 -> 0 <= n ->
  Z.testbit (not32 m) n = negb (Z.testbit m n) && (n <? 32).
Proof.
  intros Hm Hn. unfold not32, u32. rewrite Z.mod_small by lia.
  rewrite Z.lxor_spec, Z.testbit_ones_nonneg by lia.
  destruct (Z.ltb_spec n 32) as [Hlt|Hge]; simpl.
  - replace (0 <=? n) with true by (symmetry; apply Z.leb_le; lia).
    destruct (Z.testbit m n); reflexivity.
  - rewrite andb_false_r.
    assert (Z.testbit m n = false) as ->; [|reflexivity].
    destruct (Z.eq_dec m 0) as [->|Hm0]; [apply Z.bits_0|].
    apply Z.bits_above_log2; [lia|].
    assert (Z.log2 m < 32) by (apply Z.log2_lt_pow2; lia). lia.
Qed.

Lemma testbit_high_u32 x n : 0 <= x < 2 ^ 32 -> 32 <= n -> Z.testbit x n = false.
Proof.
  intros Hx Hn.
  destruct (Z.eq_dec x 0) as [->|Hx0]; [apply Z.bits_0|].
  apply Z.bits_above_log2; [lia|].
  assert (Z.log2 x < 32) by (apply Z.log2_lt_pow2; lia). lia.
Qed.

(** Splitting a word along a mask and its complement. *)
Lemma land_not32_split x m :
  0 <= x < 2 ^ 32 -> 0 <= m < 2 ^ 32 ->
  Z.land x (not32 m) = x - Z.land x m.
Proof.
  intros Hx Hm.
  assert (Hd : Z.land (Z.land x m) (Z.land x (not32 m)) = 0).
  { apply Z.bits_inj'. intros n Hn.
    rewrite !Z.land_spec, testbit_not32, Z.bits_0 by lia.
    destruct (Z.testbit x n), (Z.testbit m n); reflexivity. }
  assert (Hs : Z.lor (Z.land x m) (Z.land x (not32 m)) = x).
  { apply Z.bits_inj'. intros n Hn.
    rewrite Z.lor_spec, !Z.land_spec, testbit_not32 by lia.
    destruct (Z.ltb_spec n 32) as [Hlt|Hge].
    - destruct (Z.testbit x n), (Z.testbit m n); reflexivity.
    - rewrite (testbit_high_u32 x n) by lia. reflexivity. }
  rewrite lor_disjoint_add in Hs by assumption. lia.
Qed.

Lemma settle_mask_value : settle_mask = 32480.
Proof. vm_compute. reflexivity. Qed.

(** The merge at line 349 replaces exactly the three fields. *)
Lemma merge_replaces_fields old c :
  0 <= old < 2 ^ 32 ->
  Z.lor (Z.land old (not32 settle_mask)) (Z.land c settle_mask)
  = old - pack_fields (cfg_fields old) + pack_fields (cfg_fields c).
Proof.
  intros Hold.
  rewrite lor_disjoint_add.
  - rewrite land_not32_split by (rewrite ?settle_mask_value; lia).
    rewrite !land_settle_mask. reflexivity.
  - apply Z.bits_inj'. intros n Hn.
    rewrite !Z.land_spec, testbit_not32, Z.bits_0
      by (rewrite ?settle_mask_value; lia).
    destruct (Z.testbit settle_mask n); simpl;
      rewrite ?andb_false_r; reflexivity.
Qed.

(** The desired word built at lines 346-347 carries the channel number and
    the two stored indices in its three fields. *)
Lemma desired_word_fields chan g r :
  0 <= chan < 8 -> 0 <= g < 8 -> 0 <= r < 8 ->
  cfg_fields (u32 (Z.lor (Z.lor (s32 (Z.shiftl chan ADS1015_CFG_MUX_SHIFT))
                                (s32 (Z.shiftl (s32 g) ADS1015_CFG_PGA_SHIFT)))
                         (s32 (Z.shiftl (s32 r) ADS1015_CFG_DR_SHIFT))))
  = (chan, g, r).
Proof.
  intros Hc Hg Hr.
  assert (Ec : chan = 0 \/ chan = 1 \/ chan = 2 \/ chan = 3 \/
               chan = 4 \/ chan = 5 \/ chan = 6 \/ chan = 7) by lia.
  assert (Eg : g = 0 \/ g = 1 \/ g = 2 \/ g = 3 \/ g = 4 \/ g = 5 \/ g = 6 \/ g = 7) by lia.
  assert (Er : r = 0 \/ r = 1 \/ r = 2 \/ r = 3 \/ r = 4 \/ r = 5 \/ r = 6 \/ r = 7) by lia.
  clear Hc Hg Hr.
  repeat (destruct Ec as [-> | Ec]); try subst chan;
    repeat (destruct Eg as [-> | Eg]); try subst g;
      repeat (destruct Er as [-> | Er]); try subst r;
        vm_compute; reflexivity.
Qed.

Lemma pack_fields_inj a b c a' b' c' :
  0 <= a < 8 -> 0 <= b < 8 -> 0 <= c < 8 ->
  0 <= a' < 8 -> 0 <= b' < 8 -> 0 <= c' < 8 ->
  pack_fields (a, b, c) = pack_fields (a', b', c') -> (a, b, c) = (a', b', c').
Proof.
  unfold pack_fields. intros.
  assert (a = a' /\ b = b' /\ c = c') as (-> & -> & ->) by lia. reflexivity.
Qed.

Lemma cfg_fields_range w :
  let '(m, g, r) := cfg_fields w in 0 <= m < 8 /\ 0 <= g < 8 /\ 0 <= r < 8.
Proof.
  unfold cfg_fields, field_mux, field_pga, field_dr.
  repeat split; apply Z.mod_pos_bound; lia.
Qed.

(** ** Arithmetic of the settling delay *)

Lemma DIV_ROUND_UP_ceil n d : 0 <= n -> 0 < d -> DIV_ROUND_UP n d = ceil_div n d.
Proof.
  intros Hn Hd. unfold DIV_ROUND_UP, ceil_div.
  rewrite Z.quot_div_nonneg by lia.
  pose proof (Z.div_mod n d ltac:(lia)) as E.
  pose proof (Z.mod_pos_bound n d Hd) as Hb.
  destruct (Z.eqb_spec (n mod d) 0) as [H0|H0].
  - symmetry. rewrite Z.add_0_r. apply Z.div_unique with (r := d - 1); [lia|].
    rewrite H0 in E. lia.
  - symmetry. apply Z.div_unique with (r := n mod d - 1); [lia|]. nia.
Qed.

Lemma chip_table_positive tbl i : chip_table tbl -> 0 <= i < 8 -> 0 < table_at tbl i.
Proof.
  intros [-> | ->] Hi;
    assert (Ei : i = 0 \/ i = 1 \/ i = 2 \/ i = 3 \/ i = 4 \/ i = 5 \/ i = 6 \/ i = 7) by lia;
    repeat (destruct Ei as [-> | Ei]); try subst i; vm_compute; reflexivity.
Qed.

Lemma conv_time_of_settling tbl dr_old dr :
  chip_table tbl -> 0 <= dr_old < 8 -> 0 <= dr < 8 ->
  conv_time_of tbl dr_old dr = settling_delay tbl dr_old dr.
Proof.
  intros Ht Ho Hn. unfold conv_time_of, settling_delay, settling_sum, rate_hz.
  pose proof (chip_table_positive tbl dr_old Ht Ho).
  pose proof (chip_table_positive tbl dr Ht Hn).
  rewrite !DIV_ROUND_UP_ceil by (unfold USEC_PER_SEC; lia).
  unfold USEC_PER_SEC.
  rewrite Z.quot_div_nonneg; [reflexivity| |lia].
  unfold ceil_div.
  assert (0 <= 1000000 / table_at tbl dr_old) by (apply Z.div_pos; lia).
  assert (0 <= 1000000 / table_at tbl dr) by (apply Z.div_pos; lia).
  repeat case_match; lia.
Qed.

(** ** The configuration store *)

Lemma well_formed_channel d chan :
  well_formed d -> 0 <= chan < ADS1015_CHANNELS -> valid_channel_data (channel_at d chan).
Proof.
  intros (Hlen & Hall & _) Hc. unfold channel_at.
  rewrite Forall_lookup in Hall.
  destruct (channel_data d !! Z.to_nat chan) as [c|] eqn:E.
  - rewrite (list_lookup_total_correct _ _ _ E). eapply Hall, E.
  - apply lookup_ge_None in E. unfold ADS1015_CHANNELS in *. lia.
Qed.

Create HintDb frames.

Section Proofs.

Context {B : Type} `{RegisterDevice B}.

Ltac unfold_monad :=
  unfold mbind, M_bind, bind, mret, M_ret, ret, gets, modify in *.

Lemma regmap_read_priv reg v0 (s : system B) :
  priv (snd (regmap_read reg v0 s)) = priv s.
Proof.
  unfold regmap_read. destruct (max_register <? reg); [reflexivity|].
  destruct (bus_read reg (regmap s)) as [[r v] b]. reflexivity.
Qed.

Lemma regmap_read_range reg v0 (s : system B) :
  0 <= v0 < 2 ^ 16 -> 0 <= snd (fst (regmap_read reg v0 s)) < 2 ^ 16.
Proof.
  intros Hv. unfold regmap_read. destruct (max_register <? reg); [simpl; lia|].
  destruct (bus_read reg (regmap s)) as [[r v] b]. simpl.
  destruct (r =? 0); [|lia].
  unfold val_mask. rewrite Z.land_ones by lia. apply Z.mod_pos_bound. lia.
Qed.

Lemma regmap_write_priv reg v (s : system B) :
  priv (snd (regmap_write reg v s)) = priv s.
Proof.
  unfold regmap_write. destruct (negb (ads1015_is_writeable_reg reg)); [reflexivity|].
  destruct (bus_write reg (Z.land v val_mask) (regmap s)) as [r b]. reflexivity.
Qed.

Lemma fields_eq_iff old chan g r :
  0 <= chan < 8 -> 0 <= g < 8 -> 0 <= r < 8 ->
  old = replace_fields old (chan, g, r) <-> (chan, g, r) = cfg_fields old.
Proof.
  intros Hc Hg Hr. unfold replace_fields.
  pose proof (cfg_fields_range old) as Hf.
  destruct (cfg_fields old) as [[m' g'] r'] eqn:E. destruct Hf as (Hm' & Hg' & Hr').
  split.
  - intros Heq. apply pack_fields_inj; try assumption. lia.
  - intros Heq. rewrite Heq. lia.
Qed.

Lemma s32_small x : - 2 ^ 31 <= x < 2 ^ 31 -> s32 x = x.
Proof.
  intros Hx. unfold s32, sint. change (2 ^ (32 - 1)) with (2 ^ 31).
  rewrite Z.mod_small by lia. lia.
Qed.

Lemma get_adc_result_acquire chan val (s : system B) :
  well_formed (priv s) ->
  ads1015_get_adc_result chan val s = acquire_spec chan val s.
Proof.
  intros Hwf. unfold ads1015_get_adc_result, acquire_spec.
  change ADS1015_CHANNELS with 8.
  destruct (Z.ltb_spec chan 0) as [Hc0|Hc0]; simpl.
  { rewrite (bool_decide_eq_false_2 (0 <= chan < 8)) by lia. reflexivity. }
  unfold Z.geb. destruct (Z.compare_spec chan 8) as [Hc|Hc|Hc];
    try (rewrite (bool_decide_eq_false_2 (0 <= chan < 8)) by lia; reflexivity).
  rewrite (bool_decide_eq_true_2 (0 <= chan < 8)) by lia.
  unfold_monad.
  pose proof (regmap_read_priv ADS1015_CFG_REG 0 s) as Hp.
  pose proof (regmap_read_range ADS1015_CFG_REG 0 s ltac:(lia)) as Hr.
  destruct (regmap_read ADS1015_CFG_REG 0 s) as [[r old] s1]. simpl in Hp, Hr.
  destruct (Z.eqb_spec r 0) as [->|Hr0]; simpl.
  2:{ rewrite (bool_decide_eq_true_2 (r <> 0)) by assumption. reflexivity. }
  try rewrite (bool_decide_eq_false_2 (0 <> 0)) by lia.
  rewrite <- Hp in Hwf.
  destruct (well_formed_channel _ chan Hwf ltac:(unfold ADS1015_CHANNELS; lia)) as [Hg Hd].
  destruct Hwf as (_ & _ & Htbl).
  set (g := pga (channel_at (priv s1) chan)) in *.
  set (dr := cd_data_rate (channel_at (priv s1) chan)) in *.
  fold settle_mask.
  rewrite merge_replaces_fields by lia.
  rewrite desired_word_fields by lia.
  fold (replace_fields old (chan, g, dr)).
  rewrite land_dr_mask, (s32_small dr) by lia.
  assert (Hdo : 0 <= field_dr old < 8) by (apply Z.mod_pos_bound; lia).
  pose proof (fields_eq_iff old chan g dr ltac:(lia) Hg Hd) as Hiff.
  destruct (Z.eqb_spec old (replace_fields old (chan, g, dr))) as [E|E]; simpl.
  - rewrite bool_decide_eq_true_2 by (apply Hiff, E).
    unfold settle_then_read, usleep_range.
    destruct (conv_invalid (priv s1)); [|reflexivity].
    rewrite conv_time_of_settling by assumption. reflexivity.
  - rewrite (bool_decide_eq_false_2 (_ = cfg_fields old)) by (intros E'; apply E, Hiff, E').
    pose proof (regmap_write_priv ADS1015_CFG_REG (replace_fields old (chan, g, dr)) s1) as Hw.
    destruct (regmap_write ADS1015_CFG_REG (replace_fields old (chan, g, dr)) s1)
      as [rw s2]. simpl in Hw.
    destruct (Z.eqb_spec rw 0) as [->|Hrw]; simpl.
    + unfold settle_then_read, usleep_range. simpl.
      rewrite Hw, conv_time_of_settling by assumption. reflexivity.
    + rewrite (bool_decide_eq_true_2 (rw <> 0)) by assumption. reflexivity.
Qed.

(** C1: for every valid channel and every well-formed configuration store,
    [ads1015_get_adc_result] is the reconciliation algorithm of the design:
    read the configuration register; when the desired mux/gain/rate fields
    differ from the current ones, write the old word with only these fields
    replaced and set [conv_invalid]; when [conv_invalid] is set, sleep for
    ceil(1e6/rate(old index)) + ceil(1e6/rate(new index)) microseconds plus
    one tenth of it and clear the flag; finally read and return the
    conversion register.  Bus failures are returned as they come. *)
Theorem get_adc_result_refines_acquire chan val (s : system B) :
  well_formed (priv s) ->
  0 <= chan < ADS1015_CHANNELS ->
  ads1015_get_adc_result chan val s = acquire_spec chan val s.
Proof. intros Hwf _. apply get_adc_result_acquire, Hwf. Qed.

Lemma cfg_fields_pack chan g r :
  0 <= chan < 8 -> 0 <= g < 8 -> 0 <= r < 8 ->
  cfg_fields (pack_fields (chan, g, r)) = (chan, g, r).
Proof.
  intros Hc Hg Hr.
  assert (Ec : chan = 0 \/ chan = 1 \/ chan = 2 \/ chan = 3 \/
               chan = 4 \/ chan = 5 \/ chan = 6 \/ chan = 7) by lia.
  assert (Eg : g = 0 \/ g = 1 \/ g = 2 \/ g = 3 \/ g = 4 \/ g = 5 \/ g = 6 \/ g = 7) by lia.
  assert (Er : r = 0 \/ r = 1 \/ r = 2 \/ r = 3 \/ r = 4 \/ r = 5 \/ r = 6 \/ r = 7) by lia.
  clear Hc Hg Hr.
  repeat (destruct Ec as [-> | Ec]); try subst chan;
    repeat (destruct Eg as [-> | Eg]); try subst g;
      repeat (destruct Er as [-> | Er]); try subst r;
        vm_compute; reflexivity.
Qed.

Lemma replace_fields_range old chan g r :
  0 <= old < 2 ^ 16 -> 0 <= chan < 8 -> 0 <= g < 8 -> 0 <= r < 8 ->
  0 <= replace_fields old (chan, g, r) < 2 ^ 16.
Proof.
  intros Ho Hc Hg Hr.
  pose proof (merge_replaces_fields old (pack_fields (chan, g, r)) ltac:(lia)) as Hm.
  rewrite cfg_fields_pack in Hm by assumption.
  fold (replace_fields old (chan, g, r)) in Hm.
  assert (Hd : Z.land (Z.land old (not32 settle_mask))
                      (Z.land (pack_fields (chan, g, r)) settle_mask) = 0).
  { apply Z.bits_inj'. intros n Hn.
    rewrite !Z.land_spec, testbit_not32, Z.bits_0
      by (rewrite ?settle_mask_value; lia).
    destruct (Z.testbit settle_mask n); simpl;
      rewrite ?andb_false_r; reflexivity. }
  rewrite lor_disjoint_add in Hm by assumption.
  assert (Ha : 0 <= Z.land old (not32 settle_mask) < 2 ^ 16).
  { rewrite land_not32_split by (rewrite ?settle_mask_value; lia).
    pose proof (proj2 (Z.land_nonneg old settle_mask) (or_introl (proj1 Ho))).
    assert (0 <= Z.land old (not32 settle_mask)) by (apply Z.land_nonneg; lia).
    rewrite land_not32_split in * by (rewrite ?settle_mask_value; lia). lia. }
  assert (Hb : 0 <= Z.land (pack_fields (chan, g, r)) settle_mask < 2 ^ 16).
  { rewrite land_settle_mask, cfg_fields_pack by assumption. unfold pack_fields. lia. }
  pose proof (Z.add_nocarry_lt_pow2 _ _ 16 Hd (proj2 Ha) (proj2 Hb)). lia.
Qed.

(** The four registers are within the map, and three of them writeable. *)
Lemma regmap_read_in_map reg v0 (s : system B) :
  0 <= reg <= ADS1015_HI_THRESH_REG ->
  regmap_read reg v0 s =
  let '(r, v, b) := bus_read reg (regmap s) in
  ((r, if r =? 0 then Z.land v val_mask else v0),
   log (EvRead reg r (Z.land v val_mask)) (with_regmap b s)).
Proof.
  intros Hreg. unfold regmap_read, max_register.
  destruct (Z.ltb_spec ADS1015_HI_THRESH_REG reg); [lia|reflexivity].
Qed.

Lemma regmap_write_writeable reg v (s : system B) :
  ads1015_is_writeable_reg reg = true ->
  regmap_write reg v s =
  let '(r, b) := bus_write reg (Z.land v val_mask) (regmap s) in
  (r, log (EvWrite reg (Z.land v val_mask) r) (with_regmap b s)).
Proof. intros Hw. unfold regmap_write. rewrite Hw. reflexivity. Qed.

Lemma land_val_mask_small v : 0 <= v < 2 ^ 16 -> Z.land v val_mask = v.
Proof.
  intros Hv. unfold val_mask. rewrite Z.land_ones by lia. apply Z.mod_small, Hv.
Qed.

Lemma land_val_mask_range v : 0 <= Z.land v val_mask < 2 ^ 16.
Proof.
  unfold val_mask. rewrite Z.land_ones by lia. apply Z.mod_pos_bound. lia.
Qed.

(** C2 (amended): an acquisition whose configuration write changes the
    mux/gain/rate fields sleeps for the computed settling delay between that
    write and the read of the conversion register whose value it returns;
    an acquisition that finds the device configuration current and
    [conv_invalid] clear goes from the configuration read straight to the
    conversion read; an acquisition that finds the configuration current
    but [conv_invalid] set sleeps all the same. *)
Theorem acquisition_settling chan val (s : system B) w b1 :
  well_formed (priv s) ->
  0 <= chan < ADS1015_CHANNELS ->
  bus_read ADS1015_CFG_REG (regmap s) = (0, w, b1) ->
  let old := Z.land w val_mask in
  let c := channel_at (priv s) chan in
  let desired := (chan, pga c, cd_data_rate c) in
  let d := settling_delay (data_rate (priv s)) (field_dr old) (cd_data_rate c) in
  let res := ads1015_get_adc_result chan val s in
  (desired <> cfg_fields old ->
   forall b2, bus_write ADS1015_CFG_REG (replace_fields old desired) b1 = (0, b2) ->
   exists r v,
     trace (snd res) =
       trace s ++ [EvRead ADS1015_CFG_REG 0 old;
                   EvWrite ADS1015_CFG_REG (replace_fields old desired) 0;
                   EvSleep d (d + 1);
                   EvRead ADS1015_CONV_REG r v] /\
     fst res = (r, if r =? 0 then v else val) /\
     conv_invalid (priv (snd res)) = false) /\
  (desired = cfg_fields old -> conv_invalid (priv s) = false ->
   exists r v,
     trace (snd res) =
       trace s ++ [EvRead ADS1015_CFG_REG 0 old; EvRead ADS1015_CONV_REG r v] /\
     fst res = (r, if r =? 0 then v else val) /\
     conv_invalid (priv (snd res)) = false) /\
  (desired = cfg_fields old -> conv_invalid (priv s) = true ->
   exists r v,
     trace (snd res) =
       trace s ++ [EvRead ADS1015_CFG_REG 0 old;
                   EvSleep d (d + 1);
                   EvRead ADS1015_CONV_REG r v] /\
     fst res = (r, if r =? 0 then v else val) /\
     conv_invalid (priv (snd res)) = false).
Proof.
  intros Hwf Hc Hrd old c desired d res.
  assert (Hres : res = acquire_spec chan val s)
    by (apply get_adc_result_acquire, Hwf).
  destruct (well_formed_channel _ chan Hwf Hc) as [Hg Hdr].
  fold c in Hg, Hdr.
  pose proof (land_val_mask_range w) as Hold. fold old in Hold.
  unfold acquire_spec in Hres.
  rewrite (bool_decide_eq_true_2 (0 <= chan < ADS1015_CHANNELS)) in Hres by assumption.
  rewrite regmap_read_in_map in Hres by (vm_compute; split; discriminate).
  rewrite Hrd in Hres. simpl in Hres. fold old c desired in Hres.
  split; [|split].
  - intros Hne b2 Hwr.
    rewrite (bool_decide_eq_false_2 (desired = cfg_fields old)) in Hres by assumption.
    rewrite regmap_write_writeable in Hres by reflexivity.
    simpl in Hres.
    rewrite land_val_mask_small in Hres
      by (apply replace_fields_range; unfold ADS1015_CHANNELS in Hc; lia).
    rewrite Hwr in Hres. simpl in Hres.
    unfold settle_then_read in Hres. simpl in Hres.
    rewrite regmap_read_in_map in Hres by (vm_compute; split; discriminate).
    simpl in Hres. fold d in Hres.
    destruct (bus_read ADS1015_CONV_REG (bus_elapse d b2)) as [[r v] b3].
    exists r, (Z.land v val_mask). rewrite Hres. simpl.
    rewrite <- !app_assoc. simpl. auto.
  - intros Heq Hci.
    rewrite (bool_decide_eq_true_2 (desired = cfg_fields old)) in Hres by assumption.
    unfold settle_then_read in Hres. simpl in Hres. rewrite Hci in Hres.
    rewrite regmap_read_in_map in Hres by (vm_compute; split; discriminate).
    simpl in Hres.
    destruct (bus_read ADS1015_CONV_REG b1) as [[r v] b3].
    exists r, (Z.land v val_mask). rewrite Hres. simpl.
    rewrite <- !app_assoc. simpl. auto.
  - intros Heq Hci.
    rewrite (bool_decide_eq_true_2 (desired = cfg_fields old)) in Hres by assumption.
    unfold settle_then_read in Hres. simpl in Hres. rewrite Hci in Hres.
    simpl in Hres.
    rewrite regmap_read_in_map in Hres by (vm_compute; split; discriminate).
    simpl in Hres. fold d in Hres.
    destruct (bus_read ADS1015_CONV_REG (bus_elapse d b1)) as [[r v] b3].
    exists r, (Z.land v val_mask). rewrite Hres. simpl.
    rewrite <- !app_assoc. simpl. auto.
Qed.

(** *** What the capture pipeline looks at, and the code that leaves it alone *)

Lemma frames_ret {A} (a : A) : frames (B := B) (mret a).
Proof. intros s. reflexivity. Qed.

Lemma frames_gets {A} (f : system B -> A) : frames (gets f).
Proof. intros s. reflexivity. Qed.

Lemma frames_modify (f : system B -> system B) :
  (forall s, capture_view (f s) = capture_view s) -> frames (modify f).
Proof. intros Hf s. apply Hf. Qed.

Lemma frames_bind {A C} (m : M B A) (k : A -> M B C) :
  frames m -> (forall a, frames (k a)) -> frames (m ≫= k).
Proof.
  intros Hm Hk s. unfold_monad. specialize (Hm s).
  destruct (m s) as [a s1]. simpl in Hm. rewrite <- Hm. apply Hk.
Qed.

Lemma frames_regmap_read reg v0 : frames (regmap_read reg v0).
Proof.
  intros s. unfold regmap_read. destruct (max_register <? reg); [reflexivity|].
  destruct (bus_read reg (regmap s)) as [[r v] b]. reflexivity.
Qed.

Lemma frames_regmap_write reg v : frames (regmap_write reg v).
Proof.
  intros s. unfold regmap_write.
  destruct (negb (ads1015_is_writeable_reg reg)); [reflexivity|].
  destruct (bus_write reg (Z.land v val_mask) (regmap s)) as [r b]. reflexivity.
Qed.

Lemma frames_usleep_range a b : frames (usleep_range a b).
Proof. intros s. reflexivity. Qed.

Ltac frames_tac :=
  repeat first
    [ solve [auto with frames nocore]
    | match goal with
      | |- frames (mret _) => apply frames_ret
      | |- frames (gets _) => apply frames_gets
      | |- frames (modify _) => apply frames_modify; intro; reflexivity
      | |- frames (_ ≫= _) => apply frames_bind; [| intro]
      | |- frames (if ?b then _ else _) => destruct b
      | |- frames (let '(_, _) := ?x in _) => destruct x
      | |- frames (match ?x with _ => _ end) => destruct x
      end ].

#[local] Hint Resolve frames_regmap_read frames_regmap_write frames_usleep_range : frames.

Lemma frames_regmap_update_bits reg mask val : frames (regmap_update_bits reg mask val).
Proof. unfold regmap_update_bits. frames_tac. Qed.

#[local] Hint Resolve frames_regmap_update_bits : frames.

Lemma frames_get_adc_result chan val : frames (ads1015_get_adc_result chan val).
Proof. unfold ads1015_get_adc_result. frames_tac. Qed.

Lemma frames_set_conv_mode mode : frames (ads1015_set_conv_mode mode).
Proof. apply frames_regmap_update_bits. Qed.

#[local] Hint Resolve frames_get_adc_result frames_set_conv_mode : frames.

Lemma frames_set_conv_ready_pin : frames ads1015_set_conv_ready_pin.
Proof. unfold ads1015_set_conv_ready_pin. frames_tac. Qed.

Lemma frames_runtime_resume : frames ads1015_runtime_resume.
Proof. unfold ads1015_runtime_resume. frames_tac. Qed.

#[local] Hint Resolve frames_set_conv_ready_pin frames_runtime_resume : frames.

Lemma frames_set_power_state on : frames (ads1015_set_power_state on).
Proof.
  unfold ads1015_set_power_state, pm_runtime_get_sync, pm_runtime_put_noidle,
    pm_runtime_put_autosuspend, pm_usage_add, pm_set_suspended.
  frames_tac.
Qed.

Lemma frames_of_children_loop nodes : frames (of_children_loop (B := B) nodes).
Proof.
  induction nodes as [|node rest IH]; simpl; [apply frames_ret|].
  unfold put_channel. frames_tac.
Qed.

#[local] Hint Resolve frames_set_power_state frames_of_children_loop : frames.

Lemma frames_get_channels_config env :
  frames (ads1015_get_channels_config (B := B) env).
Proof.
  unfold ads1015_get_channels_config, ads1015_get_channels_config_of. frames_tac.
Qed.

#[local] Hint Resolve frames_get_channels_config : frames.

Lemma frames_use_buffer {A} (m : M B A) s :
  frames m -> use_buffer (priv (snd (m s))) = use_buffer (priv s).
Proof. intros Hm. specialize (Hm s). unfold capture_view in Hm. congruence. Qed.

Lemma frames_indio_dev {A} (m : M B A) s :
  frames m -> indio_dev (snd (m s)) = indio_dev s.
Proof. intros Hm. specialize (Hm s). unfold capture_view in Hm. congruence. Qed.

Lemma frames_keeps_cold {A} (m : M B A) : frames m -> keeps_cold m.
Proof. intros Hm s Hs. rewrite frames_use_buffer; assumption. Qed.

Lemma keeps_cold_bind {A C} (m : M B A) (k : A -> M B C) :
  keeps_cold m -> (forall a, keeps_cold (k a)) -> keeps_cold (m ≫= k).
Proof.
  intros Hm Hk s Hs. unfold_monad. specialize (Hm s Hs).
  destruct (m s) as [a s1]. apply Hk, Hm.
Qed.

Ltac cold_tac :=
  repeat first
    [ solve [apply frames_keeps_cold; frames_tac]
    | match goal with
      | |- keeps_cold (_ ≫= _) => apply keeps_cold_bind; [| intro]
      | |- keeps_cold (if ?b then _ else _) => destruct b
      | |- keeps_cold (modify (with_priv (set_use_buffer false))) =>
          intros ? ?; reflexivity
      end ].

(** Probe hands over a device whose [use_buffer] is false. *)
Lemma probe_use_buffer env (s : system B) :
  alloc_ok env = true -> use_buffer (priv (snd (ads1015_probe env s))) = false.
Proof.
  intros Ha. unfold ads1015_probe. rewrite Ha. cbn [negb].
  match goal with
  | |- use_buffer (priv (snd ((_ ≫= ?k) s))) = false =>
      assert (Hk : forall a, keeps_cold (k a))
  end.
  { intros []. unfold ads1015_probe_irq. cold_tac. }
  exact (Hk tt (with_priv (fun _ => zero_data) s) eq_refl).
Qed.

Lemma irq_thread_disabled (s : system B) :
  buffer_enabled (indio_dev s) = false ->
  ads1015_irq_handler_thread s = (IRQ_HANDLED, with_priv (set_use_buffer false) s).
Proof. intros He. unfold ads1015_irq_handler_thread. unfold_monad. rewrite He. reflexivity. Qed.

Lemma irq_thread_full (s : system B) :
  buffer_enabled (indio_dev s) = true -> use_buffer (priv s) = false ->
  ads1015_irq_handler_thread s =
  let '(r, res, s1) :=
    ads1015_get_adc_result
      (find_first_bit (active_scan_mask (indio_dev s)) (masklength (indio_dev s))) 0 s in
  (IRQ_HANDLED, finish_cycle r res s1).
Proof.
  intros He Hu. unfold ads1015_irq_handler_thread, finish_cycle. unfold_monad.
  rewrite He. simpl. rewrite Hu.
  destruct (ads1015_get_adc_result _ 0 s) as [[r res] s1].
  destruct (r <? 0); reflexivity.
Qed.

Lemma irq_thread_fast (s : system B) :
  buffer_enabled (indio_dev s) = true -> use_buffer (priv s) = true ->
  ads1015_irq_handler_thread s =
  let '(r, res, s1) := regmap_read ADS1015_CONV_REG 0 s in
  (IRQ_HANDLED, finish_cycle r res s1).
Proof.
  intros He Hu. unfold ads1015_irq_handler_thread, finish_cycle. unfold_monad.
  rewrite He. simpl. rewrite Hu.
  destruct (regmap_read ADS1015_CONV_REG 0 s) as [[r res] s1].
  destruct (r <? 0); reflexivity.
Qed.

(** One fast cycle: the flag and the capture switch stay as they are, and
    the bus sees one conversion read, followed by a push when it succeeds. *)
Lemma fast_cycle_step (s : system B) :
  buffer_enabled (indio_dev s) = true -> use_buffer (priv s) = true ->
  let s' := snd (ads1015_irq_handler_thread s) in
  use_buffer (priv s') = true /\ indio_dev s' = indio_dev s /\
  exists t, trace s' = trace s ++ t /\ Forall fast_event t.
Proof.
  intros He Hu. rewrite irq_thread_fast by assumption.
  rewrite regmap_read_in_map by (vm_compute; split; discriminate).
  destruct (bus_read ADS1015_CONV_REG (regmap s)) as [[r v] b]. simpl.
  unfold finish_cycle. destruct (r <? 0); simpl.
  - split; [assumption|]. split; [reflexivity|].
    eexists. split; [reflexivity|]. repeat constructor.
  - split; [reflexivity|]. split; [reflexivity|].
    eexists. split; [rewrite <- app_assoc; reflexivity|]. repeat constructor.
Qed.

(** Once the steady state is reached it is kept for as long as capture
    stays on, whether the reads succeed or fail. *)
Lemma steady_state_kept n (s : system B) :
  buffer_enabled (indio_dev s) = true -> use_buffer (priv s) = true ->
  use_buffer (priv (cycles n s)) = true /\
  indio_dev (cycles n s) = indio_dev s /\
  exists t, trace (cycles n s) = trace s ++ t /\ Forall fast_event t.
Proof.
  intros He Hu. induction n as [|n (IHu & IHi & t & IHt & IHf)].
  - simpl. split; [assumption|]. split; [reflexivity|]. exists (@nil event).
    split; [rewrite app_nil_r; reflexivity|constructor].
  - change (cycles (S n) s) with (snd (ads1015_irq_handler_thread (cycles n s))).
    destruct (fast_cycle_step (cycles n s)) as (Hu' & Hi' & t' & Ht' & Hf');
      [rewrite IHi; assumption|assumption|].
    split; [assumption|]. split; [congruence|].
    exists (t ++ t'). split.
    + rewrite Ht', IHt, app_assoc. reflexivity.
    + apply Forall_app. split; assumption.
Qed.

(** C3 (amended): [use_buffer] is false after probe and is set false by an
    interrupt handled while capture is off, and switching capture on in
    that state leaves it false.  With capture on, a cycle that finds
    [use_buffer] false takes the full reconciliation path for the first
    channel of the scan mask, and a cycle that finds it true only reads the
    conversion register.  A successful cycle of either path sets
    [use_buffer]; a failed cycle leaves it as it was, so after a failed fast
    read the flag is still true and the following cycles stay on the fast
    path. *)
Theorem capture_state_machine (env : probe_env) (n : nat) (s : system B) :
  let chan := find_first_bit (active_scan_mask (indio_dev s)) (masklength (indio_dev s)) in
  let s' := snd (ads1015_irq_handler_thread s) in
  (alloc_ok env = true -> use_buffer (priv (snd (ads1015_probe env s))) = false) /\
  (buffer_enabled (indio_dev s) = false -> s' = with_priv (set_use_buffer false) s) /\
  (use_buffer (priv s) = false ->
   use_buffer (priv (snd (ads1015_buffer_preenable s))) = false) /\
  (buffer_enabled (indio_dev s) = true -> use_buffer (priv s) = false ->
   let '(r, res, s1) := ads1015_get_adc_result chan 0 s in
   s' = finish_cycle r res s1 /\ use_buffer (priv s') = negb (r <? 0)) /\
  (buffer_enabled (indio_dev s) = true -> use_buffer (priv s) = true ->
   let '(r, res, s1) := regmap_read ADS1015_CONV_REG 0 s in
   s' = finish_cycle r res s1 /\ use_buffer (priv s') = true) /\
  (buffer_enabled (indio_dev s) = true -> use_buffer (priv s) = true ->
   use_buffer (priv (cycles n s)) = true /\
   exists t, trace (cycles n s) = trace s ++ t /\ Forall fast_event t).
Proof.
  intros chan s'. split; [apply probe_use_buffer|].
  split; [intros He; unfold s'; rewrite irq_thread_disabled by assumption; reflexivity|].
  split.
  { intros Hu. unfold ads1015_buffer_preenable.
    rewrite (frames_use_buffer _ s (frames_set_power_state true)). exact Hu. }
  split; [|split].
  - intros He Hu. unfold s'. rewrite irq_thread_full by assumption. fold chan.
    pose proof (frames_use_buffer (ads1015_get_adc_result chan 0) s
                  (frames_get_adc_result chan 0)) as Hf.
    destruct (ads1015_get_adc_result chan 0 s) as [[r res] s1]. simpl in *.
    split; [reflexivity|]. unfold finish_cycle.
    destruct (r <? 0); simpl; [congruence|reflexivity].
  - intros He Hu. unfold s'. rewrite irq_thread_fast by assumption.
    pose proof (frames_use_buffer (regmap_read ADS1015_CONV_REG 0) s
                  (frames_regmap_read ADS1015_CONV_REG 0)) as Hf.
    destruct (regmap_read ADS1015_CONV_REG 0 s) as [[r res] s1]. simpl in *.
    split; [reflexivity|]. unfold finish_cycle.
    destruct (r <? 0); simpl; [congruence|reflexivity].
  - intros He Hu. destruct (steady_state_kept n s He Hu) as (H1 & _ & H2).
    split; assumption.
Qed.

Lemma regmap_update_bits_priv reg mask val (s : system B) :
  priv (snd (regmap_update_bits reg mask val s)) = priv s.
Proof.
  unfold regmap_update_bits. unfold_monad.
  pose proof (regmap_read_priv reg 0 s) as Hr.
  destruct (regmap_read reg 0 s) as [[r orig] s1]. simpl in Hr.
  destruct (negb (r =? 0)); [exact Hr|].
  match goal with |- context [if ?c then _ else _] => destruct c end.
  - rewrite regmap_write_priv. exact Hr.
  - exact Hr.
Qed.

(** C4: a runtime resume returns what the switch to continuous mode
    returns; when that is 0 it sets [conv_invalid], whether or not the
    switch had to write the configuration word; when it is an error, the
    error is returned and the private data, [conv_invalid] included, is
    left as it was. *)
Theorem runtime_resume_invalidates (s : system B) :
  let '(r0, s0) := ads1015_set_conv_mode ADS1015_CONTINUOUS s in
  let '(r, s') := ads1015_runtime_resume s in
  r = r0 /\
  (r = 0 -> s' = with_priv (set_conv_invalid true) s0 /\
            conv_invalid (priv s') = true) /\
  (r <> 0 -> s' = s0 /\ priv s' = priv s).
Proof.
  unfold ads1015_runtime_resume. unfold_monad.
  pose proof (regmap_update_bits_priv ADS1015_CFG_REG ADS1015_CFG_MOD_MASK
                (Z.shiftl ADS1015_CONTINUOUS ADS1015_CFG_MOD_SHIFT) s) as Hp.
  fold (ads1015_set_conv_mode ADS1015_CONTINUOUS) in Hp.
  destruct (ads1015_set_conv_mode ADS1015_CONTINUOUS s) as [r0 s0]. simpl in Hp.
  destruct (Z.eqb_spec r0 0) as [->|Hne]; simpl.
  - split; [reflexivity|]. split; [intros _; split; reflexivity|intros Hc; lia].
  - split; [reflexivity|]. split; [intros Hc; lia|intros _; split; [reflexivity|exact Hp]].
Qed.

(** C7: with buffered capture enabled, a raw read returns -EAGAIN and
    changes nothing: no bus access is logged, the device state is the same
    and the caller's [val] is not written. *)
Theorem read_raw_busy chan val val2 (s : system B) :
  buffer_enabled (indio_dev s) = true ->
  ads1015_read_raw chan val val2 IIO_CHAN_INFO_RAW s = (- EAGAIN, val, val2, s).
Proof.
  intros He. unfold ads1015_read_raw. unfold_monad. rewrite He. reflexivity.
Qed.

(** *** The table scans of the two setters *)

Lemma scan_table_some tbl x i n j :
  scan_table tbl x i n = Some j ->
  i <= j < i + Z.of_nat n /\ table_at tbl j = x.
Proof.
  revert i. induction n as [|n IH]; intros i; simpl; [discriminate|].
  destruct (Z.eqb_spec (table_at tbl i) x) as [E|E].
  - intros [= <-]. split; [lia|exact E].
  - intros Hs. destruct (IH _ Hs) as [Hr Ht]. split; [lia|exact Ht].
Qed.

Lemma scan_table_none tbl x i n :
  scan_table tbl x i n = None ->
  forall k, i <= k < i + Z.of_nat n -> table_at tbl k <> x.
Proof.
  revert i. induction n as [|n IH]; intros i; simpl; [intros _ k Hk; lia|].
  destruct (Z.eqb_spec (table_at tbl i) x) as [E|E]; [discriminate|].
  intros Hs k Hk. destruct (Z.eq_dec k i) as [->|Hne]; [exact E|].
  apply (IH _ Hs). lia.
Qed.

Lemma table_at_In tbl k :
  0 <= k < Z.of_nat (length tbl) -> In (table_at tbl k) tbl.
Proof.
  intros Hk. unfold table_at. destruct (Z.ltb_spec k 0); [lia|].
  destruct (tbl !! Z.to_nat k) as [x|] eqn:E.
  - simpl. apply list_elem_of_In. eapply list_elem_of_lookup_2, E.
  - apply lookup_ge_None in E. lia.
Qed.

Lemma In_table_at tbl x :
  In x tbl -> exists k, 0 <= k < Z.of_nat (length tbl) /\ table_at tbl k = x.
Proof.
  intros Hin. apply list_elem_of_In, list_elem_of_lookup_1 in Hin as [i Hi].
  exists (Z.of_nat i). pose proof (lookup_lt_Some _ _ _ Hi).
  split; [lia|]. unfold table_at. destruct (Z.ltb_spec (Z.of_nat i) 0); [lia|].
  rewrite Nat2Z.id, Hi. reflexivity.
Qed.

(** The scan over a whole table finds a value exactly when the table holds it. *)
Lemma scan_table_In tbl x :
  In x tbl <-> exists j, scan_table tbl x 0 (length tbl) = Some j.
Proof.
  split.
  - intros Hin. destruct (In_table_at tbl x Hin) as (k & Hk & Ek).
    destruct (scan_table tbl x 0 (length tbl)) as [j|] eqn:E; [eauto|].
    exfalso. apply (scan_table_none _ _ _ _ E k); [lia|exact Ek].
  - intros [j Hj]. apply scan_table_some in Hj as [Hr <-].
    apply table_at_In. lia.
Qed.

Lemma chip_table_length tbl : chip_table tbl -> length tbl = ARRAY_SIZE ads1015_data_rate.
Proof. intros [-> | ->]; reflexivity. Qed.

Lemma chip_table_entries tbl x : chip_table tbl -> In x tbl -> 0 < x < 4000.
Proof. intros [-> | ->] Hin; simpl in Hin; intuition lia. Qed.

Lemma u32_of_int_in_table tbl rate :
  chip_table tbl -> - 2 ^ 31 <= rate < 2 ^ 31 -> In (u32 rate) tbl -> u32 rate = rate.
Proof.
  intros Ht Hr Hin. pose proof (chip_table_entries _ _ Ht Hin) as Hb.
  unfold u32 in *. destruct (Z.neg_nonneg_cases rate) as [Hneg|Hpos].
  - replace rate with (rate + 2 ^ 32 - 1 * 2 ^ 32) in Hb by lia.
    rewrite Zminus_mod, Z_mod_mult, Z.sub_0_r, Z.mod_mod in Hb by lia.
    rewrite Z.mod_small in Hb by lia. lia.
  - apply Z.mod_small. lia.
Qed.

(** C5: [ads1015_set_scale] accepts a scale exactly when the full-scale
    value computed from it equals an entry of the gain table.  When no entry
    is equal it returns -EINVAL and changes nothing, the stored gain index
    included; when one is, it stores an index whose table entry is that
    very value. *)
Theorem set_scale_exact_match chan scale uscale (s : system B) :
  (~ In (fullscale_of chan scale uscale) ads1015_fullscale_range ->
   ads1015_set_scale chan scale uscale s = (- EINVAL, s)) /\
  (In (fullscale_of chan scale uscale) ads1015_fullscale_range ->
   exists i,
     ads1015_set_scale chan scale uscale s = (0, with_priv (store_pga (address chan) i) s) /\
     table_at ads1015_fullscale_range i = fullscale_of chan scale uscale).
Proof.
  unfold ads1015_set_scale, ARRAY_SIZE. unfold_monad.
  destruct (scan_table ads1015_fullscale_range (fullscale_of chan scale uscale) 0
              (length ads1015_fullscale_range)) as [i|] eqn:E.
  - split.
    + intros Hn. exfalso. apply Hn, scan_table_In. eauto.
    + intros _. exists i. split; [reflexivity|]. apply (scan_table_some _ _ _ _ _ E).
  - split; [reflexivity|].
    intros Hin. apply scan_table_In in Hin as [j Hj]. congruence.
Qed.

(** C10: [ads1015_set_data_rate] with a rate that is not in the chip's rate
    table returns -EINVAL and changes nothing: the data-rate index of the
    channel and the configuration of every other channel are as before. *)
Theorem set_data_rate_unknown chan rate (s : system B) :
  chip_table (data_rate (priv s)) ->
  - 2 ^ 31 <= rate < 2 ^ 31 ->
  ~ In rate (data_rate (priv s)) ->
  ads1015_set_data_rate chan rate s = (- EINVAL, s).
Proof.
  intros Ht Hr Hn. unfold ads1015_set_data_rate. unfold_monad.
  rewrite <- (chip_table_length _ Ht).
  destruct (scan_table (data_rate (priv s)) (u32 rate) 0 (length (data_rate (priv s))))
    as [i|] eqn:E; [|reflexivity].
  exfalso. apply Hn.
  assert (Hin : In (u32 rate) (data_rate (priv s))) by (apply scan_table_In; eauto).
  rewrite <- (u32_of_int_in_table _ _ Ht Hr Hin). exact Hin.
Qed.

(** *** Stores into the configuration store *)

Lemma channel_at_store_pga d chan i :
  0 <= chan < Z.of_nat (length (channel_data d)) ->
  channel_at (store_pga chan i d) chan
  = mk_channel_data i (cd_data_rate (channel_at d chan)).
Proof.
  intros Hc. unfold channel_at, store_pga, set_channel_data. simpl.
  apply list_lookup_total_insert_eq. lia.
Qed.

Lemma channel_at_store_data_rate d chan i :
  0 <= chan < Z.of_nat (length (channel_data d)) ->
  channel_at (store_data_rate chan i d) chan
  = mk_channel_data (pga (channel_at d chan)) i.
Proof.
  intros Hc. unfold channel_at, store_data_rate, set_channel_data. simpl.
  apply list_lookup_total_insert_eq. lia.
Qed.

Lemma store_pga_idem d chan i :
  0 <= chan < Z.of_nat (length (channel_data d)) ->
  store_pga chan i (store_pga chan i d) = store_pga chan i d.
Proof.
  intros Hc. unfold store_pga, set_channel_data. simpl. f_equal.
  rewrite list_lookup_total_insert_eq by lia. simpl.
  apply list_insert_insert_eq.
Qed.

Lemma store_data_rate_idem d chan i :
  0 <= chan < Z.of_nat (length (channel_data d)) ->
  store_data_rate chan i (store_data_rate chan i d) = store_data_rate chan i d.
Proof.
  intros Hc. unfold store_data_rate, set_channel_data. simpl. f_equal.
  rewrite list_lookup_total_insert_eq by lia. simpl.
  apply list_insert_insert_eq.
Qed.

Lemma set_scale_unfold chan scale uscale (s : system B) :
  ads1015_set_scale chan scale uscale s =
  match scan_table ads1015_fullscale_range (fullscale_of chan scale uscale) 0
                   (length ads1015_fullscale_range) with
  | Some i => (0, with_priv (store_pga (address chan) i) s)
  | None => (- EINVAL, s)
  end.
Proof.
  unfold ads1015_set_scale, ARRAY_SIZE.
  destruct (scan_table _ _ _ _); reflexivity.
Qed.

Lemma set_data_rate_unfold chan rate (s : system B) :
  ads1015_set_data_rate chan rate s =
  match scan_table (data_rate (priv s)) (u32 rate) 0 (length ads1015_data_rate) with
  | Some i => (0, with_priv (store_data_rate chan i) s)
  | None => (- EINVAL, s)
  end.
Proof.
  unfold ads1015_set_data_rate, ARRAY_SIZE. unfold_monad.
  destruct (scan_table _ _ _ _); reflexivity.
Qed.

(** A scale that equals a table entry over 2^(realbits-1) exactly is
    computed to that entry: the division at line 375 loses nothing. *)
Lemma fullscale_of_exact chan scale uscale v :
  1 <= realbits chan <= 16 -> 0 <= v < 2 ^ 15 ->
  (scale * 1000000 + uscale) * 2 ^ (realbits chan - 1) = v * 1000000 ->
  fullscale_of chan scale uscale = v.
Proof.
  intros Hrb Hv Hex. unfold fullscale_of.
  set (x := scale * 1000000 + uscale) in *.
  assert (Hp : 1 <= 2 ^ (realbits chan - 1) <= 2 ^ 15).
  { split.
    - change 1 with (2 ^ 0). apply Z.pow_le_mono_r; lia.
    - apply Z.pow_le_mono_r; lia. }
  assert (Hx : 0 <= x <= v * 1000000) by nia.
  assert (Hs : s64 x = x).
  { unfold s64, sint. change (2 ^ (64 - 1)) with (2 ^ 63).
    rewrite Z.mod_small by lia. lia. }
  rewrite Hs, Z.shiftl_mul_pow2, Hex by lia.
  assert (Hs' : s64 (v * 1000000) = v * 1000000).
  { unfold s64, sint. change (2 ^ (64 - 1)) with (2 ^ 63).
    rewrite Z.mod_small by lia. lia. }
  rewrite Hs', Z.quot_mul by lia. apply s32_small. lia.
Qed.

(** The two setters keep the configuration store well formed. *)
Lemma set_scale_well_formed chan scale uscale (s : system B) :
  well_formed (priv s) ->
  well_formed (priv (snd (ads1015_set_scale chan scale uscale s))).
Proof.
  intros (Hlen & Hall & Htbl). rewrite set_scale_unfold.
  destruct (scan_table _ _ _ _) as [i|] eqn:E; [|repeat split; assumption].
  apply scan_table_some in E as [Hi _]. simpl in Hi.
  split; [|split; [|exact Htbl]]; simpl.
  - rewrite length_insert. exact Hlen.
  - apply Forall_insert; [exact Hall|]. split; simpl; [lia|].
    destruct (channel_data (priv s) !! Z.to_nat (address chan)) as [c|] eqn:Ec.
    + rewrite (list_lookup_total_correct _ _ _ Ec).
      apply (Forall_lookup_1 _ _ _ _ Hall Ec).
    + rewrite list_lookup_total_alt, Ec. simpl. lia.
Qed.

Lemma set_data_rate_well_formed chan rate (s : system B) :
  well_formed (priv s) ->
  well_formed (priv (snd (ads1015_set_data_rate chan rate s))).
Proof.
  intros (Hlen & Hall & Htbl). rewrite set_data_rate_unfold.
  destruct (scan_table _ _ _ _) as [i|] eqn:E; [|repeat split; assumption].
  apply scan_table_some in E as [Hi _]. simpl in Hi.
  split; [|split; [|exact Htbl]]; simpl.
  - rewrite length_insert. exact Hlen.
  - apply Forall_insert; [exact Hall|]. split; simpl; [|lia].
    destruct (channel_data (priv s) !! Z.to_nat chan) as [c|] eqn:Ec.
    + rewrite (list_lookup_total_correct _ _ _ Ec).
      apply (Forall_lookup_1 _ _ _ _ Hall Ec).
    + rewrite list_lookup_total_alt, Ec. simpl. lia.
Qed.

(** Where line 375 neither goes negative nor leaves [int], the computed
    full-scale value is the written scale, in micro-units, times
    2^(realbits-1), divided by 10^6 and truncated. *)
Lemma fullscale_of_floor chan scale uscale :
  1 <= realbits chan <= 16 ->
  0 <= scale * 1000000 + uscale ->
  (scale * 1000000 + uscale) * 2 ^ (realbits chan - 1) < 2 ^ 31 * 1000000 ->
  fullscale_of chan scale uscale
  = (scale * 1000000 + uscale) * 2 ^ (realbits chan - 1) / 1000000.
Proof.
  intros Hrb Hx Hlt. unfold fullscale_of.
  set (x := scale * 1000000 + uscale) in *.
  assert (Hp : 1 <= 2 ^ (realbits chan - 1)).
  { change 1 with (2 ^ 0). apply Z.pow_le_mono_r; lia. }
  assert (Hxk : 0 <= x * 2 ^ (realbits chan - 1)) by nia.
  assert (Hxs : x <= x * 2 ^ (realbits chan - 1)) by nia.
  assert (Hs : forall y, 0 <= y < 2 ^ 31 * 1000000 -> s64 y = y).
  { intros y Hy. unfold s64, sint. change (2 ^ (64 - 1)) with (2 ^ 63).
    rewrite Z.mod_small by lia. lia. }
  rewrite (Hs x), Z.shiftl_mul_pow2, Hs by lia.
  rewrite Z.quot_div_nonneg by lia.
  apply s32_small. split.
  - pose proof (Z.div_pos (x * 2 ^ (realbits chan - 1)) 1000000 Hxk ltac:(lia)). lia.
  - apply Z.div_lt_upper_bound; lia.
Qed.

(** C6 (amended): on a well-formed store and a valid channel, a scale write
    that is accepted reads back as the gain-table entry [fs] it selected,
    over 2^(realbits-1), and writing it a second time changes nothing.
    For a non-negative scale in the range where line 375 does not leave
    [int], [fs / 2^(realbits-1)] is at most the scale written and less than
    [1 / 2^(realbits-1)] below it, and equals it exactly when the scale
    written, in micro-units, times 2^(realbits-1) is a multiple of 10^6.
    Every scale that is a table entry over 2^(realbits-1) is accepted and
    reads back as that entry.  A rate of the chip's rate table reads back
    as that rate, and writing it a second time changes nothing. *)
Theorem scale_rate_round_trip chan scale uscale rate val val2 (s : system B) :
  well_formed (priv s) ->
  0 <= address chan < ADS1015_CHANNELS ->
  1 <= realbits chan <= 16 ->
  let x := scale * 1000000 + uscale in
  let k := 2 ^ (realbits chan - 1) in
  (In (fullscale_of chan scale uscale) ads1015_fullscale_range ->
   let '(r, s1) := ads1015_set_scale chan scale uscale s in
   r = 0 /\
   (exists fs,
      ads1015_read_raw chan val val2 IIO_CHAN_INFO_SCALE s1
      = (IIO_VAL_FRACTIONAL_LOG2, fs, realbits chan - 1, s1) /\
      In fs ads1015_fullscale_range /\
      (0 <= x -> x * k < 2 ^ 31 * 1000000 ->
       fs * 1000000 <= x * k < (fs + 1) * 1000000 /\
       (fs * 1000000 = x * k <-> (x * k) mod 1000000 = 0))) /\
   ads1015_set_scale chan scale uscale s1 = (0, s1)) /\
  (forall fs,
     In fs ads1015_fullscale_range -> x * k = fs * 1000000 ->
     let '(r, s1) := ads1015_set_scale chan scale uscale s in
     r = 0 /\
     ads1015_read_raw chan val val2 IIO_CHAN_INFO_SCALE s1
     = (IIO_VAL_FRACTIONAL_LOG2, fs, realbits chan - 1, s1)) /\
  (In rate (data_rate (priv s)) ->
   let '(r, s1) := ads1015_set_data_rate (address chan) rate s in
   r = 0 /\
   ads1015_read_raw chan val val2 IIO_CHAN_INFO_SAMP_FREQ s1
   = (IIO_VAL_INT, rate, val2, s1) /\
   ads1015_set_data_rate (address chan) rate s1 = (0, s1)).
Proof.
  intros (Hlen & _ & Htbl) Hc Hrb x k.
  assert (Hc' : 0 <= address chan < Z.of_nat (length (channel_data (priv s))))
    by (rewrite Hlen; unfold ADS1015_CHANNELS in *; lia).
  assert (Hmain : In (fullscale_of chan scale uscale) ads1015_fullscale_range ->
            let '(r, s1) := ads1015_set_scale chan scale uscale s in
            r = 0 /\
            ads1015_read_raw chan val val2 IIO_CHAN_INFO_SCALE s1
            = (IIO_VAL_FRACTIONAL_LOG2, fullscale_of chan scale uscale,
               realbits chan - 1, s1) /\
            ads1015_set_scale chan scale uscale s1 = (0, s1)).
  { intros Hin. apply scan_table_In in Hin as [i Hi].
    rewrite !set_scale_unfold, Hi.
    destruct (scan_table_some _ _ _ _ _ Hi) as [Hr Ht]. simpl in Hr.
    split; [reflexivity|]. split.
    + unfold ads1015_read_raw. unfold_monad. simpl.
      rewrite channel_at_store_pga by assumption. simpl.
      rewrite s32_small by lia. rewrite Ht. reflexivity.
    + rewrite set_scale_unfold, Hi. unfold with_priv. simpl.
      rewrite store_pga_idem by assumption. reflexivity. }
  split; [|split].
  - intros Hin. specialize (Hmain Hin).
    destruct (ads1015_set_scale chan scale uscale s) as [r s1].
    destruct Hmain as (Hr & Hget & Hidem).
    split; [exact Hr|]. split; [|exact Hidem].
    exists (fullscale_of chan scale uscale).
    split; [exact Hget|]. split; [exact Hin|].
    intros Hx Hlt. rewrite (fullscale_of_floor chan scale uscale Hrb Hx Hlt).
    fold x k.
    pose proof (Z.div_mod (x * k) 1000000 ltac:(lia)) as Hdm.
    pose proof (Z.mod_pos_bound (x * k) 1000000 ltac:(lia)) as Hmb.
    split; [lia|]. split; lia.
  - intros fs Hfs Hex.
    assert (Hb : 0 <= fs < 2 ^ 15).
    { simpl in Hfs. change (2 ^ 15) with 32768. lia. }
    pose proof (fullscale_of_exact chan scale uscale fs Hrb Hb Hex) as Hfo.
    rewrite <- Hfo in Hfs. specialize (Hmain Hfs). rewrite Hfo in Hmain.
    destruct (ads1015_set_scale chan scale uscale s) as [r s1].
    destruct Hmain as (Hr & Hget & _). split; assumption.
  - intros Hin. pose proof (chip_table_entries _ _ Htbl Hin) as Hb.
    assert (Hu : u32 rate = rate) by (apply Z.mod_small; lia).
    pose proof (chip_table_length _ Htbl) as Hl. unfold ARRAY_SIZE in Hl.
    apply scan_table_In in Hin as [i Hi].
    rewrite !set_data_rate_unfold, Hu.
    rewrite <- Hl. rewrite Hi.
    destruct (scan_table_some _ _ _ _ _ Hi) as [Hr Ht].
    rewrite Hl in Hr. simpl in Hr.
    split; [reflexivity|]. split.
    + unfold ads1015_read_raw. unfold_monad. simpl.
      rewrite channel_at_store_data_rate by assumption. simpl.
      rewrite (s32_small i) by lia. rewrite Ht. rewrite s32_small by lia. reflexivity.
    + rewrite set_data_rate_unfold, Hu.
      change (data_rate (priv (with_priv (store_data_rate (address chan) i) s)))
        with (data_rate (priv s)).
      rewrite <- Hl, Hi.
      unfold with_priv. simpl.
      rewrite store_data_rate_idem by assumption. reflexivity.
Qed.

(** *** The ready pin *)

Lemma clear_comp_que w :
  0 <= w < 2 ^ 16 ->
  Z.lor (Z.land w (not32 ADS1015_CFG_COMP_QUE_MASK))
        (Z.land (u32 0) (u32 ADS1015_CFG_COMP_QUE_MASK))
  = w - comp_que w.
Proof.
  intros Hw. change (Z.land (u32 0) (u32 ADS1015_CFG_COMP_QUE_MASK)) with 0.
  rewrite Z.lor_0_r.
  change ADS1015_CFG_COMP_QUE_MASK with (Z.ones 2).
  rewrite land_not32_split by (change (Z.ones 2) with 3; lia).
  rewrite Z.land_ones by lia. reflexivity.
Qed.

Lemma comp_que_cleared w : comp_que (w - comp_que w) = 0.
Proof.
  unfold comp_que. rewrite Zminus_mod, Z.mod_mod, Z.sub_diag by lia. reflexivity.
Qed.

(** C9 (amended): the ready-pin setup writes 0 to the low-threshold
    register, then 0xFFFF to the high-threshold register, then reads the
    configuration register and, unless its comparator-queue field is
    already 0, writes the word back with that field cleared to 0.  The
    first failing access ends the run with its error.  The queue field is
    never set to the disable value 3. *)
Theorem conv_ready_pin_setup (s : system B) :
  let '(r, s') := ads1015_set_conv_ready_pin s in
  exists t,
    trace s' = trace s ++ t /\
    ready_pin_run t r /\
    (forall w r', In (EvWrite ADS1015_CFG_REG w r') t ->
                  comp_que w = 0 /\ comp_que w <> ADS1015_CFG_COMP_DISABLE).
Proof.
  unfold ads1015_set_conv_ready_pin, regmap_update_bits. unfold_monad.
  rewrite regmap_write_writeable by reflexivity.
  change (Z.land 0 val_mask) with 0.
  destruct (bus_write ADS1015_LO_THRESH_REG 0 (regmap s)) as [r1 b1].
  destruct (Z.eqb_spec r1 0) as [->|Hr1]; simpl.
  2:{ eexists. split; [reflexivity|]. split; [constructor; assumption|].
      intros w r' [[=]|[]]. }
  rewrite regmap_write_writeable by reflexivity.
  change (Z.land 65535 val_mask) with 65535. simpl.
  destruct (bus_write ADS1015_HI_THRESH_REG 65535 b1) as [r2 b2].
  destruct (Z.eqb_spec r2 0) as [->|Hr2]; simpl.
  2:{ eexists. split; [rewrite <- app_assoc; reflexivity|].
      split; [constructor; assumption|].
      intros w r' [[=]|[[=]|[]]]. }
  rewrite regmap_read_in_map by (vm_compute; split; discriminate). simpl.
  destruct (bus_read ADS1015_CFG_REG b2) as [[r3 v] b3].
  pose proof (land_val_mask_range v) as Hv.
  destruct (Z.eqb_spec r3 0) as [->|Hr3]; simpl.
  2:{ eexists. split; [rewrite <- !app_assoc; reflexivity|].
      split; [constructor; assumption|].
      intros w r' [[=]|[[=]|[[=]|[]]]]. }
  rewrite clear_comp_que by assumption.
  set (w := Z.land v val_mask) in *.
  destruct (Z.eqb_spec (w - comp_que w) w) as [E|E]; simpl.
  - eexists. split; [rewrite <- !app_assoc; reflexivity|].
    split; [apply rp_queue_already_zero; lia|].
    intros w' r' [[=]|[[=]|[[=]|[]]]].
  - rewrite regmap_write_writeable by reflexivity.
    assert (Hq : 0 <= comp_que w < 4) by (apply Z.mod_pos_bound; lia).
    assert (Hle : comp_que w <= w).
    { unfold comp_que. apply Z.mod_le; lia. }
    rewrite land_val_mask_small by lia. simpl.
    destruct (bus_write ADS1015_CFG_REG (w - comp_que w) b3) as [r4 b4].
    eexists. split; [simpl; rewrite <- !app_assoc; reflexivity|].
    split; [apply rp_queue_cleared; lia|].
    intros w' r' [[=]|[[=]|[[=]|[[= <- <-]|[]]]]].
    rewrite comp_que_cleared. split; [reflexivity|discriminate].
Qed.

End Proofs.

(** ** The settling delay, numerically *)

(** C8 (amended): for the ADS1015 the delay computed for a change from the
    rate index of 128 Hz (index 0) to a rate index of 3300 Hz (index 6 or 7)
    is ceil(1e6/128) + ceil(1e6/3300) = 7813 + 304 = 8117 microseconds plus a
    tenth of it rounded down (811), that is 8928 microseconds. *)
Theorem settling_delay_128_to_3300 :
  table_at ads1015_data_rate 0 = 128 /\
  table_at ads1015_data_rate 6 = 3300 /\
  table_at ads1015_data_rate 7 = 3300 /\
  ceil_div 1000000 128 = 7813 /\
  ceil_div 1000000 3300 = 304 /\
  settling_sum ads1015_data_rate 0 6 = 8117 /\
  conv_time_of ads1015_data_rate 0 6 = 8117 + 8117 / 10 /\
  conv_time_of ads1015_data_rate 0 6 = 8928 /\
  conv_time_of ads1015_data_rate 0 7 = 8928.
Proof. vm_compute. repeat split; reflexivity. Qed.

(** ** The theorems at work on the register file *)

Ltac show_well_formed :=
  split; [vm_compute; reflexivity|];
  split; [|left; vm_compute; reflexivity];
  match goal with
  | |- Forall _ ?l => let l' := eval vm_compute in l in change (Forall valid_channel_data l')
  end;
  repeat constructor; simpl; lia.

Lemma get_adc_result_refines_acquire_witness :
  well_formed (priv probed) /\ 0 <= 1 < ADS1015_CHANNELS /\
  ads1015_get_adc_result 1 0 probed = acquire_spec 1 0 probed.
Proof.
  assert (Hwf : well_formed (priv probed)) by show_well_formed.
  assert (Hc : 0 <= 1 < ADS1015_CHANNELS) by (unfold ADS1015_CHANNELS; lia).
  exact (conj Hwf (conj Hc (get_adc_result_refines_acquire 1 0 probed Hwf Hc))).
Defined.

Lemma acquisition_settling_witness :
  well_formed (priv probed) /\ 0 <= 1 < ADS1015_CHANNELS /\
  bus_read ADS1015_CFG_REG (regmap probed) = (0, 33920, regmap probed) /\
  exists r v,
    trace (snd (ads1015_get_adc_result 1 0 probed)) =
    trace probed ++ [EvRead ADS1015_CFG_REG 0 33920;
                     EvWrite ADS1015_CFG_REG 38016 0;
                     EvSleep 1375 1376;
                     EvRead ADS1015_CONV_REG r v].
Proof.
  assert (Hwf : well_formed (priv probed)) by show_well_formed.
  assert (Hc : 0 <= 1 < ADS1015_CHANNELS) by (unfold ADS1015_CHANNELS; lia).
  assert (Hrd : bus_read ADS1015_CFG_REG (regmap probed) = (0, 33920, regmap probed))
    by (vm_compute; reflexivity).
  split; [exact Hwf|]. split; [exact Hc|]. split; [exact Hrd|].
  destruct (acquisition_settling 1 0 probed 33920 (regmap probed) Hwf Hc Hrd)
    as (Hchg & _ & _).
  destruct (Hchg ltac:(vm_compute; discriminate)
                 (mk_regfile 77 38016 0 65535 []) ltac:(vm_compute; reflexivity))
    as (r & v & Ht & _).
  exists r, v. exact Ht.
Defined.

(** The first acquisition after probe on channel 0: the power-up
    configuration already selects channel 0 with the default gain and rate,
    no configuration write is made, and the acquisition sleeps 1375
    microseconds all the same, because probe left [conv_invalid] set. *)
Lemma current_config_still_sleeps :
  cfg_fields (rf_cfg (regmap probed))
  = (0, pga (channel_at (priv probed) 0), cd_data_rate (channel_at (priv probed) 0)) /\
  trace (snd (ads1015_get_adc_result 0 0 probed))
  = trace probed ++ [EvRead ADS1015_CFG_REG 0 33920;
                     EvSleep 1375 1376;
                     EvRead ADS1015_CONV_REG 0 77] /\
  In (EvSleep 1375 1376) (trace (snd (ads1015_get_adc_result 0 0 probed))).
Proof.
  split; [vm_compute; reflexivity|]. split; [vm_compute; reflexivity|].
  vm_compute. tauto.
Qed.

Lemma capture_state_machine_witness :
  use_buffer (priv probed) = false /\
  use_buffer (priv (snd (ads1015_buffer_preenable probed))) = false /\
  buffer_enabled (indio_dev capturing) = true /\
  use_buffer (priv capturing) = false /\
  use_buffer (priv (snd (ads1015_irq_handler_thread capturing))) = true /\
  use_buffer (priv (cycles 3 (snd (ads1015_irq_handler_thread capturing)))) = true.
Proof.
  assert (Hp : use_buffer (priv probed) = false) by (vm_compute; reflexivity).
  assert (He : buffer_enabled (indio_dev capturing) = true) by (vm_compute; reflexivity).
  assert (Hu : use_buffer (priv capturing) = false) by (vm_compute; reflexivity).
  split; [exact Hp|].
  split.
  { destruct (capture_state_machine default_env 0 probed) as (_ & _ & Hen & _).
    exact (Hen Hp). }
  split; [exact He|]. split; [exact Hu|].
  destruct (capture_state_machine default_env 3 capturing) as (_ & _ & _ & Hfull & _).
  specialize (Hfull He Hu).
  destruct (ads1015_get_adc_result
              (find_first_bit (active_scan_mask (indio_dev capturing))
                              (masklength (indio_dev capturing))) 0 capturing)
    as [[r res] s1] eqn:E.
  destruct Hfull as [_ Hflag].
  assert (Hr : r = 0) by (vm_compute in E; congruence).
  rewrite Hr in Hflag. split; [exact Hflag|].
  destruct (capture_state_machine default_env 3
              (snd (ads1015_irq_handler_thread capturing)))
    as (_ & _ & _ & _ & _ & Hsteady).
  apply Hsteady; [vm_compute; reflexivity|exact Hflag].
Defined.

(** A failed fast-path read does not reset [use_buffer]: the cycle after it
    is a fast-path cycle again, with no access to the configuration
    register. *)
Lemma failed_fast_read_stays_fast :
  let s2 := run ads1015_irq_handler_thread flaky_capturing in
  let s3 := run ads1015_irq_handler_thread s2 in
  let s4 := run ads1015_irq_handler_thread s3 in
  use_buffer (priv flaky_capturing) = false /\
  trace s2 = trace flaky_capturing ++ [EvRead ADS1015_CFG_REG 0 33920;
                                       EvSleep 1375 1376;
                                       EvRead ADS1015_CONV_REG 0 77;
                                       EvPush 77 0] /\
  use_buffer (priv s2) = true /\
  trace s3 = trace s2 ++ [EvRead ADS1015_CONV_REG (- EIO) 77] /\
  use_buffer (priv s3) = true /\
  trace s4 = trace s3 ++ [EvRead ADS1015_CONV_REG 0 77; EvPush 77 0].
Proof. vm_compute. repeat split; reflexivity. Qed.

Lemma runtime_resume_invalidates_witness :
  conv_invalid (priv suspended) = false /\
  fst (ads1015_runtime_resume suspended) = 0 /\
  conv_invalid (priv (snd (ads1015_runtime_resume suspended))) = true.
Proof.
  split; [vm_compute; reflexivity|].
  pose proof (runtime_resume_invalidates suspended) as Hres.
  destruct (ads1015_set_conv_mode ADS1015_CONTINUOUS suspended) as [r0 s0] eqn:E0.
  destruct (ads1015_runtime_resume suspended) as [r s'] eqn:E.
  destruct Hres as (Hr & Hok & _).
  assert (Hr0 : r0 = 0) by (vm_compute in E0; congruence).
  simpl. split; [congruence|].
  apply Hok. congruence.
Defined.

Lemma set_scale_exact_match_witness :
  fullscale_of (ADS1015_V_CHAN 0) 2 441407 = 5000 /\
  ~ In (fullscale_of (ADS1015_V_CHAN 0) 2 441407) ads1015_fullscale_range /\
  ads1015_set_scale (ADS1015_V_CHAN 0) 2 441407 probed = (- EINVAL, probed).
Proof.
  assert (Hn : ~ In (fullscale_of (ADS1015_V_CHAN 0) 2 441407) ads1015_fullscale_range)
    by (vm_compute; intuition discriminate).
  split; [vm_compute; reflexivity|]. split; [exact Hn|].
  exact (proj1 (set_scale_exact_match (ADS1015_V_CHAN 0) 2 441407 probed) Hn).
Defined.

Lemma scale_rate_round_trip_witness :
  well_formed (priv probed) /\
  0 <= address (ADS1015_V_CHAN 1) < ADS1015_CHANNELS /\
  1 <= realbits (ADS1015_V_CHAN 1) <= 16 /\
  In (fullscale_of (ADS1015_V_CHAN 1) 0 500000) ads1015_fullscale_range /\
  In 1024 ads1015_fullscale_range /\
  (0 * 1000000 + 500000) * 2 ^ (realbits (ADS1015_V_CHAN 1) - 1) = 1024 * 1000000 /\
  In 920 (data_rate (priv probed)) /\
  ads1015_read_raw (ADS1015_V_CHAN 1) 0 0 IIO_CHAN_INFO_SCALE
    (snd (ads1015_set_scale (ADS1015_V_CHAN 1) 0 500000 probed))
  = (IIO_VAL_FRACTIONAL_LOG2, 1024, 11,
     snd (ads1015_set_scale (ADS1015_V_CHAN 1) 0 500000 probed)) /\
  ads1015_set_scale (ADS1015_V_CHAN 1) 0 500000
    (snd (ads1015_set_scale (ADS1015_V_CHAN 1) 0 500000 probed))
  = (0, snd (ads1015_set_scale (ADS1015_V_CHAN 1) 0 500000 probed)) /\
  ads1015_read_raw (ADS1015_V_CHAN 1) 0 0 IIO_CHAN_INFO_SAMP_FREQ
    (snd (ads1015_set_data_rate 1 920 probed))
  = (IIO_VAL_INT, 920, 0, snd (ads1015_set_data_rate 1 920 probed)).
Proof.
  assert (Hwf : well_formed (priv probed)) by show_well_formed.
  assert (Hc : 0 <= address (ADS1015_V_CHAN 1) < ADS1015_CHANNELS)
    by (unfold ADS1015_CHANNELS; simpl; lia).
  assert (Hb : 1 <= realbits (ADS1015_V_CHAN 1) <= 16) by (simpl; lia).
  assert (Hs : In (fullscale_of (ADS1015_V_CHAN 1) 0 500000) ads1015_fullscale_range)
    by (vm_compute; tauto).
  assert (Hf : In 1024 ads1015_fullscale_range) by (simpl; tauto).
  assert (Hx : (0 * 1000000 + 500000) * 2 ^ (realbits (ADS1015_V_CHAN 1) - 1)
               = 1024 * 1000000) by (vm_compute; reflexivity).
  assert (Hr : In 920 (data_rate (priv probed))) by (vm_compute; tauto).
  split; [exact Hwf|]. split; [exact Hc|]. split; [exact Hb|]. split; [exact Hs|].
  split; [exact Hf|]. split; [exact Hx|]. split; [exact Hr|].
  destruct (scale_rate_round_trip (ADS1015_V_CHAN 1) 0 500000 920 0 0 probed Hwf Hc Hb)
    as (Hscale & Hexact & Hrate).
  specialize (Hscale Hs). specialize (Hexact 1024 Hf Hx). specialize (Hrate Hr).
  change (address (ADS1015_V_CHAN 1)) with 1 in Hrate.
  destruct (ads1015_set_scale (ADS1015_V_CHAN 1) 0 500000 probed) as [r1 s1].
  destruct (ads1015_set_data_rate 1 920 probed) as [r2 s2].
  destruct Hscale as (_ & _ & Hidem). destruct Hexact as (_ & Hget1).
  destruct Hrate as (_ & Hget2 & _).
  split; [exact Hget1|]. split; [exact Hidem|exact Hget2].
Defined.

(** The ADS1115 gain-table entry 256 stands for the scale 256 / 2^15 =
    0.0078125, which no value in micro-units equals: 0.007812 is refused
    and 0.007813 is accepted and reads back as 256 / 2^15, which is not the
    value written. *)
Lemma scale_read_back_differs :
  In 256 ads1015_fullscale_range /\
  ads1015_set_scale (ADS1115_V_CHAN 1) 0 7812 probed_1115 = (- EINVAL, probed_1115) /\
  fst (ads1015_set_scale (ADS1115_V_CHAN 1) 0 7813 probed_1115) = 0 /\
  fst (ads1015_read_raw (ADS1115_V_CHAN 1) 0 0 IIO_CHAN_INFO_SCALE
         (snd (ads1015_set_scale (ADS1115_V_CHAN 1) 0 7813 probed_1115)))
  = (IIO_VAL_FRACTIONAL_LOG2, 256, 15) /\
  256 * 1000000 <> (0 * 1000000 + 7813) * 2 ^ 15 /\
  (forall scale uscale : Z, (scale * 1000000 + uscale) * 2 ^ 15 <> 256 * 1000000).
Proof.
  split; [simpl; tauto|].
  split; [vm_compute; reflexivity|].
  split; [vm_compute; reflexivity|].
  split; [vm_compute; reflexivity|].
  split; [vm_compute; discriminate|].
  intros scale uscale. change (2 ^ 15) with 32768. lia.
Qed.

Lemma read_raw_busy_witness :
  buffer_enabled (indio_dev capturing) = true /\
  ads1015_read_raw (ADS1015_V_CHAN 0) 123 456 IIO_CHAN_INFO_RAW capturing
  = (- EAGAIN, 123, 456, capturing).
Proof.
  assert (He : buffer_enabled (indio_dev capturing) = true) by (vm_compute; reflexivity).
  exact (conj He (read_raw_busy (ADS1015_V_CHAN 0) 123 456 capturing He)).
Defined.

(** The computed delay is 8928, one less than 8117 * 1.1 rounded up, and
    the sum before inflation is 8117, not 8113. *)
Lemma settling_delay_not_rounded_up :
  conv_time_of ads1015_data_rate 0 6
  <> ceil_div (11 * (ceil_div 1000000 128 + ceil_div 1000000 3300)) 10 /\
  ceil_div 1000000 128 + ceil_div 1000000 3300 <> 8113.
Proof. vm_compute. split; discriminate. Qed.

Lemma conv_ready_pin_setup_witness :
  exists t,
    trace (snd (ads1015_set_conv_ready_pin (boot_system reset_regs)))
    = trace (boot_system reset_regs) ++ t /\
    ready_pin_run t (fst (ads1015_set_conv_ready_pin (boot_system reset_regs))).
Proof.
  pose proof (conv_ready_pin_setup (boot_system reset_regs)) as Hrun.
  destruct (ads1015_set_conv_ready_pin (boot_system reset_regs)) as [r s'].
  destruct Hrun as (t & Ht & Hr & _). exists t. split; [exact Ht|exact Hr].
Defined.

(** On a converter fresh from power-up, whose comparator is disabled
    (queue field 3), the setup succeeds and leaves the queue field at 0:
    the comparator is enabled, not disabled. *)
Lemma ready_pin_enables_comparator :
  comp_que (rf_cfg reset_regs) = ADS1015_CFG_COMP_DISABLE /\
  fst (ads1015_set_conv_ready_pin (boot_system reset_regs)) = 0 /\
  comp_que (rf_cfg (regmap (snd (ads1015_set_conv_ready_pin (boot_system reset_regs))))) = 0 /\
  comp_que (rf_cfg (regmap (snd (ads1015_set_conv_ready_pin (boot_system reset_regs)))))
  <> ADS1015_CFG_COMP_DISABLE.
Proof. vm_compute. repeat split; discriminate. Qed.

Lemma set_data_rate_unknown_witness :
  chip_table (data_rate (priv probed)) /\
  - 2 ^ 31 <= 1000 < 2 ^ 31 /\
  ~ In 1000 (data_rate (priv probed)) /\
  ads1015_set_data_rate 3 1000 probed = (- EINVAL, probed).
Proof.
  assert (Ht : chip_table (data_rate (priv probed))) by (left; vm_compute; reflexivity).
  assert (Hr : - 2 ^ 31 <= 1000 < 2 ^ 31) by lia.
  assert (Hn : ~ In 1000 (data_rate (priv probed))) by (vm_compute; intuition discriminate).
  exact (conj Ht (conj Hr (conj Hn (set_data_rate_unknown 3 1000 probed Ht Hr Hn)))).
Defined.

(** * The rest of the driver *)

Section Extras.

Context {B : Type} `{RegisterDevice B}.

Ltac unfold_monad :=
  unfold mbind, M_bind, bind, mret, M_ret, ret, gets, modify in *.

(** ** Computations that keep a property *)

Lemma preserves_ret P {A} (a : A) : preserves (B := B) P (mret a).
Proof. intros s Hs. exact Hs. Qed.

Lemma preserves_gets P {A} (f : system B -> A) : preserves P (gets f).
Proof. intros s Hs. exact Hs. Qed.

Lemma preserves_modify (P : system B -> Prop) (f : system B -> system B) :
  (forall s, P s -> P (f s)) -> preserves P (modify f).
Proof. intros Hf s Hs. apply Hf, Hs. Qed.

Lemma preserves_bind P {A C} (m : M B A) (k : A -> M B C) :
  preserves P m -> (forall a, preserves P (k a)) -> preserves P (m ≫= k).
Proof.
  intros Hm Hk s Hs. unfold_monad. specialize (Hm s Hs).
  destruct (m s) as [a s1]. apply Hk, Hm.
Qed.

Lemma preserves_regmap_read P reg v0 :
  bus_blind P -> preserves P (regmap_read reg v0).
Proof.
  intros Hb s Hs. unfold regmap_read. destruct (max_register <? reg); [exact Hs|].
  destruct (bus_read reg (regmap s)) as [[r v] b]. exact (Hb s b _ Hs).
Qed.

Lemma preserves_regmap_write P reg v :
  bus_blind P -> preserves P (regmap_write reg v).
Proof.
  intros Hb s Hs. unfold regmap_write.
  destruct (negb (ads1015_is_writeable_reg reg)); [exact Hs|].
  destruct (bus_write reg (Z.land v val_mask) (regmap s)) as [r b]. exact (Hb s b _ Hs).
Qed.

Lemma preserves_usleep_range P a b :
  bus_blind P -> preserves P (usleep_range a b).
Proof. intros Hb s Hs. exact (Hb s _ _ Hs). Qed.

Ltac blind :=
  solve [ unfold bus_blind, conv_blind, power_blind; intros; cbv beta in *;
          match goal with Hs : _ |- _ => exact Hs end ].

Ltac preserves_tac :=
  repeat first
    [ assumption
    | match goal with
      | |- bus_blind _ => blind
      | |- conv_blind _ => blind
      | |- power_blind _ => blind
      | |- preserves _ (mret _) => apply preserves_ret
      | |- preserves _ (gets _) => apply preserves_gets
      | |- preserves _ (regmap_read _ _) => apply preserves_regmap_read
      | |- preserves _ (regmap_write _ _) => apply preserves_regmap_write
      | |- preserves _ (usleep_range _ _) => apply preserves_usleep_range
      | |- preserves _ (modify _) => apply preserves_modify; blind
      | |- preserves _ (_ ≫= _) => apply preserves_bind; [| intro]
      | |- preserves _ (if ?b then _ else _) => destruct b
      | |- preserves _ (let '(_, _) := ?x in _) => destruct x
      | |- preserves _ (match ?x with _ => _ end) => destruct x
      end ].

Lemma preserves_regmap_update_bits P reg mask val :
  bus_blind P -> preserves P (regmap_update_bits reg mask val).
Proof. intros Hb. unfold regmap_update_bits. preserves_tac. Qed.

Lemma preserves_get_adc_result P chan val :
  bus_blind P -> conv_blind P -> preserves P (ads1015_get_adc_result chan val).
Proof.
  intros Hb Hc. unfold ads1015_get_adc_result. preserves_tac.
  all: apply preserves_modify; intros s Hs; apply Hc, Hs.
Qed.

(** ** Acquisition *)

Lemma get_adc_result_keeps chan val (s : system B) :
  let s' := snd (ads1015_get_adc_result chan val s) in
  channel_data (priv s') = channel_data (priv s) /\
  data_rate (priv s') = data_rate (priv s) /\
  irq (priv s') = irq (priv s) /\
  timestamp (priv s') = timestamp (priv s) /\
  use_buffer (priv s') = use_buffer (priv s) /\
  power s' = power s /\
  indio_dev s' = indio_dev s.
Proof.
  intros s'.
  pose proof (preserves_get_adc_result
                (fun x => set_conv_invalid false (priv x) = set_conv_invalid false (priv s)
                          /\ power x = power s /\ indio_dev x = indio_dev s)
                chan val ltac:(blind) ltac:(blind) s
                (conj eq_refl (conj eq_refl eq_refl))) as (Hp & Hw & Hi).
  fold s' in Hp, Hw, Hi. unfold set_conv_invalid in Hp.
  injection Hp as H1 H2 H3 H4 H5. repeat split; assumption.
Qed.

(** X1: an acquisition changes the register device, the log and
    [conv_invalid], and nothing else: the configuration store, the rate
    table, [irq], [timestamp], [use_buffer], the runtime-PM status and the
    IIO flags are as before. *)
Theorem get_adc_result_keeps_store chan val (s : system B) :
  let s' := snd (ads1015_get_adc_result chan val s) in
  channel_data (priv s') = channel_data (priv s) /\
  data_rate (priv s') = data_rate (priv s) /\
  irq (priv s') = irq (priv s) /\
  timestamp (priv s') = timestamp (priv s) /\
  use_buffer (priv s') = use_buffer (priv s) /\
  power s' = power s /\
  indio_dev s' = indio_dev s.
Proof. apply get_adc_result_keeps. Qed.

Lemma merged_word_range old c :
  0 <= old < 2 ^ 16 ->
  0 <= Z.lor (Z.land old (not32 settle_mask)) (Z.land c settle_mask) < 2 ^ 16.
Proof.
  intros Ho. rewrite merge_replaces_fields by lia.
  pose proof (cfg_fields_range c) as Hr.
  destruct (cfg_fields c) as [[m g] r] eqn:E. destruct Hr as (Hm & Hg & Hr).
  apply (replace_fields_range old m g r); assumption.
Qed.

Lemma get_adc_result_run_shape chan val (s : system B) :
  let '(r, v, s') := ads1015_get_adc_result chan val s in
  exists t,
    trace s' = trace s ++ t /\
    acquire_run (conv_invalid (priv s)) val t r v (conv_invalid (priv s')).
Proof.
  unfold ads1015_get_adc_result.
  destruct ((chan <? 0) || (chan >=? ADS1015_CHANNELS)).
  { exists nil. split; [rewrite app_nil_r; reflexivity|constructor]. }
  unfold_monad.
  rewrite regmap_read_in_map by (vm_compute; split; discriminate).
  destruct (bus_read ADS1015_CFG_REG (regmap s)) as [[r0 w0] b0].
  pose proof (land_val_mask_range w0) as Hold.
  set (old := Z.land w0 val_mask) in *.
  destruct (Z.eqb_spec r0 0) as [->|Hr0]; simpl.
  2:{ eexists. split; [reflexivity|]. constructor. assumption. }
  fold settle_mask.
  match goal with
  | |- context [Z.land ?c settle_mask] =>
      pose proof (merged_word_range old c Hold) as Hrange;
      set (cfg := Z.lor (Z.land old (not32 settle_mask)) (Z.land c settle_mask)) in *
  end.
  destruct (Z.eqb_spec old cfg) as [E|E]; simpl.
  - destruct (conv_invalid (priv s)) eqn:Eci; simpl.
    + rewrite regmap_read_in_map by (vm_compute; split; discriminate). simpl.
      match goal with
      | |- context [bus_read ADS1015_CONV_REG ?b] =>
          destruct (bus_read ADS1015_CONV_REG b) as [[r1 v1] b1]
      end.
      eexists. split; [simpl; rewrite <- !app_assoc; reflexivity|].
      apply ar_waited. reflexivity.
    + rewrite regmap_read_in_map by (vm_compute; split; discriminate). simpl.
      destruct (bus_read ADS1015_CONV_REG b0) as [[r1 v1] b1].
      eexists. split; [simpl; rewrite <- !app_assoc; reflexivity|].
      simpl. rewrite Eci. apply ar_steady. reflexivity.
  - rewrite regmap_write_writeable by reflexivity. simpl.
    rewrite land_val_mask_small by assumption.
    destruct (bus_write ADS1015_CFG_REG cfg b0) as [r1 b1].
    destruct (Z.eqb_spec r1 0) as [->|Hr1]; simpl.
    + rewrite regmap_read_in_map by (vm_compute; split; discriminate). simpl.
      match goal with
      | |- context [bus_read ADS1015_CONV_REG ?b] =>
          destruct (bus_read ADS1015_CONV_REG b) as [[r2 v2] b2]
      end.
      eexists. split; [simpl; rewrite <- !app_assoc; reflexivity|].
      apply ar_reconfigured. congruence.
    + eexists. split; [simpl; rewrite <- !app_assoc; reflexivity|].
      apply ar_write_failed; congruence.
Qed.

(** X2: every acquisition makes one of six runs: none at all for a channel
    out of range; a failed configuration read; a failed configuration write,
    with no sleep, no conversion read and [conv_invalid] as before; a
    configuration write, a sleep and the conversion read; a sleep and the
    conversion read when the word was current but [conv_invalid] set; the
    configuration read and the conversion read alone.  [*val] is written
    only by a conversion read that succeeds. *)
Theorem get_adc_result_runs chan val (s : system B) :
  let '(r, v, s') := ads1015_get_adc_result chan val s in
  exists t,
    trace s' = trace s ++ t /\
    acquire_run (conv_invalid (priv s)) val t r v (conv_invalid (priv s')).
Proof. apply get_adc_result_run_shape. Qed.

(** X3: when an acquisition returns 0, the value it hands back is the word
    of a successful conversion read, which is the last thing it did;
    [conv_invalid] is clear afterwards; and if it wrote the configuration
    register or found [conv_invalid] set, it slept before that read. *)
Theorem returned_sample_is_settled chan val (s : system B) :
  let '(r, v, s') := ads1015_get_adc_result chan val s in
  r = 0 ->
  conv_invalid (priv s') = false /\
  exists t,
    trace s' = trace s ++ t ++ [EvRead ADS1015_CONV_REG 0 v] /\
    ((conv_invalid (priv s) = true \/ exists reg w r', In (EvWrite reg w r') t) ->
     exists d, In (EvSleep d (d + 1)) t).
Proof.
  pose proof (get_adc_result_run_shape chan val s) as Hrun.
  destruct (ads1015_get_adc_result chan val s) as [[r v] s'].
  destruct Hrun as (t & Ht & Hrun). intros ->.
  inversion Hrun; subst; try (unfold EINVAL in *; lia).
  - split; [reflexivity|].
    exists [EvRead ADS1015_CFG_REG 0 old; EvWrite ADS1015_CFG_REG w 0; EvSleep d (d + 1)].
    split; [exact Ht|]. intros _. exists d. simpl. tauto.
  - split; [reflexivity|].
    exists [EvRead ADS1015_CFG_REG 0 old; EvSleep d (d + 1)].
    split; [exact Ht|]. intros _. exists d. simpl. tauto.
  - split; [reflexivity|].
    exists [EvRead ADS1015_CFG_REG 0 old].
    split; [exact Ht|]. intros [Hci|(reg & w & r' & [Hin|[]])]; congruence.
Qed.

(** ** The word an acquisition writes *)

Lemma land_outside_mask x k m :
  0 <= m < 2 ^ 32 -> Z.land k m = 0 ->
  Z.land (Z.land x (not32 m)) k = Z.land x (Z.land k (Z.ones 32)).
Proof.
  intros Hm Hk. apply Z.bits_inj'. intros n Hn.
  rewrite !Z.land_spec, testbit_not32 by lia.
  assert (Hb : Z.testbit k n && Z.testbit m n = false).
  { rewrite <- Z.land_spec, Hk. apply Z.bits_0. }
  rewrite Z.testbit_ones_nonneg by lia.
  destruct (Z.testbit x n), (Z.testbit k n), (Z.testbit m n), (n <? 32);
    simpl in *; congruence.
Qed.

Lemma merged_outside_mask old c :
  Z.land (Z.lor (Z.land old (not32 settle_mask)) (Z.land c settle_mask))
         (not32 settle_mask)
  = Z.land old (not32 settle_mask).
Proof.
  apply Z.bits_inj'. intros n Hn.
  rewrite Z.land_spec, Z.lor_spec, !Z.land_spec, testbit_not32
    by (rewrite ?settle_mask_value; lia).
  destruct (Z.testbit old n), (Z.testbit c n), (Z.testbit settle_mask n), (n <? 32);
    reflexivity.
Qed.

Lemma replace_fields_fields old chan g r :
  0 <= old < 2 ^ 16 -> 0 <= chan < 8 -> 0 <= g < 8 -> 0 <= r < 8 ->
  cfg_fields (replace_fields old (chan, g, r)) = (chan, g, r).
Proof.
  intros Ho Hc Hg Hr.
  pose proof (merge_replaces_fields old (pack_fields (chan, g, r)) ltac:(lia)) as Hm.
  rewrite cfg_fields_pack in Hm by assumption.
  fold (replace_fields old (chan, g, r)) in Hm.
  pose proof (cfg_fields_range (replace_fields old (chan, g, r))) as Hrg.
  destruct (cfg_fields (replace_fields old (chan, g, r))) as [[m' g'] r'] eqn:E.
  destruct Hrg as (Hm' & Hg' & Hr').
  apply pack_fields_inj; try assumption.
  rewrite <- E, <- land_settle_mask, <- Hm.
  rewrite Z.land_lor_distr_l.
  assert (Z.land (Z.land old (not32 settle_mask)) settle_mask = 0) as ->.
  { apply Z.bits_inj'. intros n Hn.
    rewrite !Z.land_spec, testbit_not32, Z.bits_0 by (rewrite ?settle_mask_value; lia).
    destruct (Z.testbit old n), (Z.testbit settle_mask n), (n <? 32); reflexivity. }
  rewrite Z.lor_0_l, <- Z.land_assoc, Z.land_diag, land_settle_mask.
  rewrite cfg_fields_pack by assumption. reflexivity.
Qed.

Lemma replace_fields_outside old f :
  0 <= old < 2 ^ 16 ->
  (let '(m, g, r) := f in 0 <= m < 8 /\ 0 <= g < 8 /\ 0 <= r < 8) ->
  Z.land (replace_fields old f) (not32 settle_mask) = Z.land old (not32 settle_mask).
Proof.
  intros Ho Hf. destruct f as [[m g] r]. destruct Hf as (Hm & Hg & Hr).
  pose proof (merge_replaces_fields old (pack_fields (m, g, r)) ltac:(lia)) as Hmr.
  rewrite cfg_fields_pack in Hmr by assumption.
  fold (replace_fields old (m, g, r)) in Hmr. rewrite <- Hmr.
  apply merged_outside_mask.
Qed.

(** X4: the only write an acquisition makes is to the configuration
    register, and the word it writes carries the channel number, the stored
    gain index and the stored rate index in its three fields and the old
    word's bits everywhere else: the operating mode and the comparator
    queue are as the device had them. *)
Theorem reconcile_write_word chan val (s : system B) w0 b0 :
  well_formed (priv s) ->
  0 <= chan < ADS1015_CHANNELS ->
  bus_read ADS1015_CFG_REG (regmap s) = (0, w0, b0) ->
  let old := Z.land w0 val_mask in
  let c := channel_at (priv s) chan in
  forall t reg w r,
    trace (snd (ads1015_get_adc_result chan val s)) = trace s ++ t ->
    In (EvWrite reg w r) t ->
    reg = ADS1015_CFG_REG /\
    cfg_fields w = (chan, pga c, cd_data_rate c) /\
    Z.land w (not32 settle_mask) = Z.land old (not32 settle_mask) /\
    Z.land w ADS1015_CFG_MOD_MASK = Z.land old ADS1015_CFG_MOD_MASK /\
    Z.land w ADS1015_CFG_COMP_QUE_MASK = Z.land old ADS1015_CFG_COMP_QUE_MASK.
Proof.
  intros Hwf Hc Hrd old c t reg w r Ht Hin.
  destruct (well_formed_channel _ chan Hwf Hc) as [Hg Hdr]. fold c in Hg, Hdr.
  pose proof (land_val_mask_range w0) as Hold. fold old in Hold.
  assert (Hc8 : 0 <= chan < 8) by (unfold ADS1015_CHANNELS in Hc; lia).
  set (desired := (chan, pga c, cd_data_rate c)).
  assert (Hw : w = replace_fields old desired /\ reg = ADS1015_CFG_REG).
  { rewrite get_adc_result_acquire in Ht by assumption.
    unfold acquire_spec in Ht.
    rewrite (bool_decide_eq_true_2 (0 <= chan < ADS1015_CHANNELS)) in Ht by assumption.
    rewrite regmap_read_in_map in Ht by (vm_compute; split; discriminate).
    rewrite Hrd in Ht. simpl in Ht. fold old c desired in Ht.
    destruct (bool_decide (desired = cfg_fields old)).
    - unfold settle_then_read in Ht. simpl in Ht.
      destruct (conv_invalid (priv s)); simpl in Ht;
        rewrite regmap_read_in_map in Ht by (vm_compute; split; discriminate);
        simpl in Ht;
        match type of Ht with
        | context [bus_read ADS1015_CONV_REG ?b] =>
            destruct (bus_read ADS1015_CONV_REG b) as [[r1 v1] b1]
        end;
        simpl in Ht; rewrite <- ?app_assoc in Ht; apply app_inv_head in Ht;
        subst t; simpl in Hin; intuition discriminate.
    - rewrite regmap_write_writeable in Ht by reflexivity. simpl in Ht.
      rewrite land_val_mask_small in Ht by (apply replace_fields_range; assumption).
      destruct (bus_write ADS1015_CFG_REG (replace_fields old desired) b0) as [r1 b1].
      destruct (bool_decide (r1 <> 0)).
      + simpl in Ht. rewrite <- ?app_assoc in Ht. apply app_inv_head in Ht.
        subst t. simpl in Hin.
        destruct Hin as [[=]|[[= <- <- <-]|[]]]. split; reflexivity.
      + unfold settle_then_read in Ht. simpl in Ht.
        rewrite regmap_read_in_map in Ht by (vm_compute; split; discriminate).
        simpl in Ht.
        match type of Ht with
        | context [bus_read ADS1015_CONV_REG ?b] =>
            destruct (bus_read ADS1015_CONV_REG b) as [[r2 v2] b2]
        end.
        simpl in Ht. rewrite <- ?app_assoc in Ht. apply app_inv_head in Ht.
        subst t. simpl in Hin.
        destruct Hin as [[=]|[[= <- <- <-]|[[=]|[[=]|[]]]]]. split; reflexivity. }
  destruct Hw as [-> ->]. split; [reflexivity|].
  split; [apply replace_fields_fields; assumption|].
  assert (Ho : Z.land (replace_fields old desired) (not32 settle_mask)
               = Z.land old (not32 settle_mask))
    by (apply replace_fields_outside; [assumption|repeat split; lia]).
  split; [exact Ho|].
  assert (Hk : forall k, 0 <= k < 2 ^ 32 -> Z.land k settle_mask = 0 ->
                         Z.land (replace_fields old desired) k = Z.land old k).
  { intros k Hk Hd.
    assert (Hk1 : Z.land k (Z.ones 32) = k)
      by (rewrite Z.land_ones by lia; apply Z.mod_small; lia).
    rewrite <- Hk1 at 1 2.
    rewrite <- !(land_outside_mask _ k settle_mask)
      by (rewrite ?settle_mask_value; lia || assumption).
    rewrite Ho. reflexivity. }
  split; apply Hk;
    first [ vm_compute; reflexivity | vm_compute; split; [discriminate|reflexivity] ].
Qed.

(** ** Mode switches *)

Lemma merge_outside m old c :
  0 <= m < 2 ^ 32 ->
  Z.land (Z.lor (Z.land old (not32 m)) (Z.land c m)) (not32 m)
  = Z.land old (not32 m).
Proof.
  intros Hm. apply Z.bits_inj'. intros n Hn.
  rewrite Z.land_spec, Z.lor_spec, !Z.land_spec, testbit_not32 by lia.
  destruct (Z.testbit old n), (Z.testbit c n), (Z.testbit m n), (n <? 32);
    reflexivity.
Qed.

Lemma merge_disjoint m old c :
  0 <= m < 2 ^ 32 ->
  Z.land (Z.land old (not32 m)) (Z.land c m) = 0.
Proof.
  intros Hm. apply Z.bits_inj'. intros n Hn.
  rewrite !Z.land_spec, testbit_not32, Z.bits_0 by lia.
  destruct (Z.testbit old n), (Z.testbit c n), (Z.testbit m n), (n <? 32);
    reflexivity.
Qed.

Lemma land_mod_mask w : Z.land w ADS1015_CFG_MOD_MASK = mode_bit w * 256.
Proof.
  change ADS1015_CFG_MOD_MASK with (GENMASK 8 8).
  rewrite land_genmask by lia. reflexivity.
Qed.

Lemma mode_merge w mode :
  0 <= w < 2 ^ 16 -> mode = 0 \/ mode = 1 ->
  let tmp := Z.lor (Z.land w (not32 ADS1015_CFG_MOD_MASK))
                   (Z.land (u32 (Z.shiftl mode ADS1015_CFG_MOD_SHIFT))
                           (u32 ADS1015_CFG_MOD_MASK)) in
  0 <= tmp < 2 ^ 16 /\
  mode_bit tmp = mode /\
  (tmp = w <-> mode_bit w = mode) /\
  Z.land tmp (not32 ADS1015_CFG_MOD_MASK) = Z.land w (not32 ADS1015_CFG_MOD_MASK).
Proof.
  intros Hw Hmode tmp.
  assert (Hmm : 0 <= ADS1015_CFG_MOD_MASK < 2 ^ 32)
    by (change ADS1015_CFG_MOD_MASK with 256; lia).
  assert (Hu : u32 ADS1015_CFG_MOD_MASK = ADS1015_CFG_MOD_MASK) by reflexivity.
  assert (Hval : Z.land (u32 (Z.shiftl mode ADS1015_CFG_MOD_SHIFT)) ADS1015_CFG_MOD_MASK
                 = mode * 256)
    by (destruct Hmode as [-> | ->]; vm_compute; reflexivity).
  assert (Hout : Z.land tmp (not32 ADS1015_CFG_MOD_MASK)
                 = Z.land w (not32 ADS1015_CFG_MOD_MASK)).
  { unfold tmp. rewrite Hu. apply merge_outside, Hmm. }
  assert (Htmp : tmp = w - mode_bit w * 256 + mode * 256).
  { unfold tmp. rewrite Hu, lor_disjoint_add by (apply merge_disjoint, Hmm).
    rewrite land_not32_split, land_mod_mask, Hval by lia. reflexivity. }
  assert (Hb : 0 <= mode_bit w < 2) by (apply Z.mod_pos_bound; lia).
  pose proof (Z.div_mod w 256 ltac:(lia)) as E1.
  pose proof (Z.mod_pos_bound w 256 ltac:(lia)) as B1.
  pose proof (Z.div_mod (w / 256) 2 ltac:(lia)) as E2.
  fold (mode_bit w) in E2.
  assert (Hq : 0 <= w / 256 < 256)
    by (split; [apply Z.div_pos; lia|apply Z.div_lt_upper_bound; lia]).
  assert (Hmb : mode_bit tmp = mode).
  { unfold mode_bit.
    assert (tmp / 256 = 2 * (w / 256 / 2) + mode) as ->.
    { symmetry. apply Z.div_unique with (r := w mod 256); [lia|]. rewrite Htmp. lia. }
    symmetry. apply Z.mod_unique with (q := w / 256 / 2); lia. }
  split; [rewrite Htmp; lia|]. split; [exact Hmb|]. split; [|exact Hout].
  split; [intros E; rewrite <- E; exact Hmb|intros E; rewrite Htmp, E; lia].
Qed.

Lemma set_conv_mode_run_shape mode (s : system B) :
  mode = 0 \/ mode = 1 ->
  let '(r, s') := ads1015_set_conv_mode mode s in
  priv s' = priv s /\ power s' = power s /\ indio_dev s' = indio_dev s /\
  exists t, trace s' = trace s ++ t /\ mode_run mode t r.
Proof.
  intros Hmode. unfold ads1015_set_conv_mode, regmap_update_bits. unfold_monad.
  rewrite regmap_read_in_map by (vm_compute; split; discriminate).
  destruct (bus_read ADS1015_CFG_REG (regmap s)) as [[r0 w0] b0].
  pose proof (land_val_mask_range w0) as Hw.
  set (w := Z.land w0 val_mask) in *.
  destruct (Z.eqb_spec r0 0) as [->|Hr0]; simpl.
  2:{ repeat (split; [reflexivity|]). eexists. split; [reflexivity|].
      constructor. assumption. }
  destruct (mode_merge w mode Hw Hmode) as (Hrange & Hmb & Hiff & Hout).
  match goal with
  | |- context [Z.lor ?a ?b =? w] => set (tmp := Z.lor a b) in *
  end.
  destruct (Z.eqb_spec tmp w) as [E|E]; simpl.
  - repeat (split; [reflexivity|]). eexists. split; [reflexivity|].
    apply mr_already. apply Hiff, E.
  - rewrite regmap_write_writeable by reflexivity.
    rewrite land_val_mask_small by assumption. simpl.
    destruct (bus_write ADS1015_CFG_REG tmp b0) as [r1 b1].
    repeat (split; [reflexivity|]). eexists.
    split; [simpl; rewrite <- app_assoc; reflexivity|].
    apply mr_switched; [intros E'; apply E, Hiff, E'|assumption|assumption].
Qed.

(** X5: a switch of the operating mode reads the configuration register
    and, only when the mode bit differs from the requested mode, writes the
    word back with that one bit changed and every other bit as read; a
    failed read ends it without a write.  The driver's data and the
    runtime-PM status are not touched. *)
Theorem set_conv_mode_runs mode (s : system B) :
  mode = ADS1015_CONTINUOUS \/ mode = ADS1015_SINGLESHOT ->
  let '(r, s') := ads1015_set_conv_mode mode s in
  priv s' = priv s /\ power s' = power s /\ indio_dev s' = indio_dev s /\
  exists t, trace s' = trace s ++ t /\ mode_run mode t r.
Proof. apply set_conv_mode_run_shape. Qed.

(** ** Power references and raw reads *)

Lemma preserves_runtime_resume P :
  bus_blind P -> conv_blind P -> preserves P ads1015_runtime_resume.
Proof.
  intros Hb Hc. unfold ads1015_runtime_resume, ads1015_set_conv_mode.
  pose proof (preserves_regmap_update_bits P) as Hu.
  apply preserves_bind; [apply Hu, Hb|intro r].
  apply preserves_bind; [|intro; apply preserves_ret].
  destruct (r =? 0); [|apply preserves_ret].
  apply preserves_modify. intros s Hs. apply Hc, Hs.
Qed.

Lemma runtime_resume_power (s : system B) :
  power (snd (ads1015_runtime_resume s)) = power s.
Proof.
  apply (preserves_runtime_resume (fun x => power x = power s));
    [blind|blind|reflexivity].
Qed.

Lemma get_adc_result_power chan val (s : system B) :
  power (snd (ads1015_get_adc_result chan val s)) = power s.
Proof.
  apply (preserves_get_adc_result (fun x => power x = power s));
    [blind|blind|reflexivity].
Qed.

(** What a power request does to the usage counter: a failed acquire gives
    its reference back, a successful one keeps it, a release drops one. *)
Lemma set_power_state_usage on (s : system B) :
  0 <= usage_count (power s) ->
  let '(r, s') := ads1015_set_power_state on s in
  r <= 0 /\
  usage_count (power s')
  = if on then (if r <? 0 then usage_count (power s) else usage_count (power s) + 1)
    else usage_count (power s) - 1.
Proof.
  intros Hu. unfold ads1015_set_power_state, pm_runtime_get_sync,
    pm_runtime_put_noidle, pm_runtime_put_autosuspend, pm_usage_add, pm_set_suspended.
  unfold_monad. destruct on; simpl; [|split; [lia|reflexivity]].
  destruct (runtime_suspended (power s)) eqn:Es; simpl.
  - match goal with
    | |- context [ads1015_runtime_resume ?x] =>
        pose proof (runtime_resume_power x) as Hp;
        destruct (ads1015_runtime_resume x) as [r s1]
    end.
    simpl in Hp.
    destruct (Z.eqb_spec r 0) as [->|Hr]; simpl; rewrite ?Hp; simpl;
      repeat (match goal with
              | |- context [?a <? ?b] => destruct (Z.ltb_spec a b); simpl
              end; rewrite ?Hp; simpl);
      split; lia.
  - split; [lia|reflexivity].
Qed.

Lemma set_power_state_usage_of on (s : system B) :
  0 <= usage_count (power s) ->
  fst (ads1015_set_power_state on s) <= 0 /\
  usage_count (power (snd (ads1015_set_power_state on s)))
  = if on then (if fst (ads1015_set_power_state on s) <? 0
                then usage_count (power s) else usage_count (power s) + 1)
    else usage_count (power s) - 1.
Proof.
  intros Hu. pose proof (set_power_state_usage on s Hu) as Hs.
  destruct (ads1015_set_power_state on s) as [r s']. exact Hs.
Qed.

(** X6: a read through [ads1015_read_raw] leaves the runtime-PM usage
    counter where it found it, whatever the kind of read and whichever way
    it ends: the reference taken for a raw read is given back when the
    resume fails, when the acquisition fails and when it succeeds. *)
Theorem read_raw_balances_power chan val val2 mask (s : system B) :
  0 <= usage_count (power s) ->
  usage_count (power (snd (ads1015_read_raw chan val val2 mask s)))
  = usage_count (power s).
Proof.
  intros Hu. unfold ads1015_read_raw.
  destruct mask; try reflexivity.
  unfold iio_device_claim_direct_mode, iio_device_release_direct_mode.
  unfold_monad. cbv beta iota zeta.
  destruct (buffer_enabled (indio_dev s)) eqn:Eb; [reflexivity|].
  cbv beta iota zeta. rewrite Eb.
  change (negb (0 =? 0)) with false. cbv beta iota zeta.
  pose proof (set_power_state_usage_of true s Hu) as [Hle Hup].
  destruct (ads1015_set_power_state true s) as [r1 s1]. simpl in Hle, Hup.
  destruct (Z.ltb_spec r1 0) as [Hneg|Hpos]; [exact Hup|].
  pose proof (get_adc_result_power (address chan) val s1) as Hp.
  destruct (ads1015_get_adc_result (address chan) val s1) as [[r2 v2] s2].
  simpl in Hp.
  assert (Hu2 : 0 <= usage_count (power s2)) by (rewrite Hp, Hup; lia).
  pose proof (set_power_state_usage_of false s2 Hu2) as [_ Hdown].
  destruct (r2 <? 0); destruct (ads1015_set_power_state false s2) as [r3 s3];
    simpl in Hdown |- *; rewrite Hdown, Hp, Hup; lia.
Qed.

Lemma sign_extend32_range x index :
  0 <= index <= 31 ->
  - 2 ^ index <= sign_extend32 x index < 2 ^ index.
Proof.
  intros Hi. unfold sign_extend32.
  set (sh := 31 - index).
  set (y := s32 (Z.shiftl (u32 x) sh)).
  assert (Hy : - 2 ^ 31 <= y < 2 ^ 31).
  { unfold y, s32, sint. change (2 ^ (32 - 1)) with (2 ^ 31).
    pose proof (Z.mod_pos_bound (Z.shiftl (u32 x) sh + 2 ^ 31) (2 ^ 32) ltac:(lia)).
    lia. }
  rewrite Z.shiftr_div_pow2 by (unfold sh; lia).
  assert (Hp : 2 ^ 31 = 2 ^ index * 2 ^ sh)
    by (rewrite <- Z.pow_add_r by (unfold sh; lia); f_equal; unfold sh; lia).
  assert (Hsh : 0 < 2 ^ sh) by (apply Z.pow_pos_nonneg; unfold sh; lia).
  split.
  - apply Z.div_le_lower_bound; [exact Hsh|]. nia.
  - apply Z.div_lt_upper_bound; [exact Hsh|]. nia.
Qed.

(** X7: a raw read that returns IIO_VAL_INT hands back a value of
    16 - shift signed bits: between -2048 and 2047 for the ADS1015
    channels, between -32768 and 32767 for the ADS1115 channels. *)
Theorem read_raw_value_range chan val val2 (s : system B) :
  0 <= shift chan <= 15 ->
  let '(r, v, v2, s') := ads1015_read_raw chan val val2 IIO_CHAN_INFO_RAW s in
  r = IIO_VAL_INT ->
  - 2 ^ (15 - shift chan) <= v < 2 ^ (15 - shift chan) /\ v2 = val2.
Proof.
  intros Hsh. unfold ads1015_read_raw, iio_device_claim_direct_mode,
    iio_device_release_direct_mode.
  unfold_monad. cbv beta iota zeta.
  destruct (buffer_enabled (indio_dev s)) eqn:Eb.
  { intros E. vm_compute in E. discriminate. }
  cbv beta iota zeta. rewrite Eb.
  change (negb (0 =? 0)) with false. cbv beta iota zeta.
  pose proof (set_power_state_usage_of true s) as Hst.
  destruct (ads1015_set_power_state true s) as [r1 s1].
  destruct (Z.ltb_spec r1 0) as [Hneg|Hpos].
  { unfold IIO_VAL_INT. intros ->. lia. }
  destruct (ads1015_get_adc_result (address chan) val s1) as [[r2 v2'] s2].
  destruct (Z.ltb_spec r2 0) as [Hneg2|Hpos2];
    destruct (ads1015_set_power_state false s2) as [r3 s3]; cbv beta iota.
  - unfold IIO_VAL_INT. intros ->. lia.
  - destruct (Z.ltb_spec r3 0) as [Hneg3|Hpos3].
    + unfold IIO_VAL_INT. intros ->. lia.
    + intros _. split; [|reflexivity]. apply sign_extend32_range. lia.
Qed.

(** ** Channel configuration at probe time *)

Lemma of_children_loop_code nodes (s : system B) :
  (Forall node_ok nodes -> fst (of_children_loop nodes s) = 0) /\
  (~ Forall node_ok nodes -> fst (of_children_loop nodes s) = - EINVAL).
Proof.
  revert s. induction nodes as [|node rest IH]; intros s.
  { split; [reflexivity|]. intros Hn. exfalso. apply Hn. constructor. }
  assert (Hcons : forall s' : system B, node_ok node ->
            (Forall node_ok (node :: rest) -> fst (of_children_loop rest s') = 0) /\
            (~ Forall node_ok (node :: rest) -> fst (of_children_loop rest s') = - EINVAL)).
  { intros s' Hok. destruct (IH s') as [IH1 IH2]. split.
    - intros Hall. apply IH1. inversion Hall; assumption.
    - intros Hn. apply IH2. intros Hr. apply Hn. constructor; assumption. }
  simpl. unfold node_ok in Hcons.
  destruct (of_reg node) as [channel|] eqn:Er; [|apply Hcons; exact I].
  rewrite Z.geb_leb.
  destruct (Z.leb_spec ADS1015_CHANNELS channel) as [Hge|Hlt];
    [apply Hcons; left; exact Hge|].
  destruct (Z.ltb_spec 6 (default ADS1015_DEFAULT_PGA (of_gain node))) as [Hg|Hg].
  { split; [|reflexivity]. intros Hall. inversion Hall as [|? ? Hok _]; subst.
    unfold node_ok in Hok. rewrite Er in Hok. lia. }
  destruct (Z.ltb_spec 7 (default ADS1015_DEFAULT_DATA_RATE (of_datarate node))) as [Hd|Hd].
  { split; [|reflexivity]. intros Hall. inversion Hall as [|? ? Hok _]; subst.
    unfold node_ok in Hok. rewrite Er in Hok. lia. }
  unfold put_channel. unfold_monad. simpl.
  apply Hcons. right. split; assumption.
Qed.

(** X8: the device-tree configuration returns 0 when the device has a
    node with at least one child and every child is acceptable, and -EINVAL
    otherwise: without a node, without a child, or with a child that is
    refused.  A child is acceptable when it has no [reg], or a [reg] beyond
    the channels (such children are skipped), or a gain of at most 6 and a
    data rate of at most 7, absent cells counting as the defaults 2 and 4. *)
Theorem get_channels_config_of_accepts env (s : system B) :
  (forall nodes,
     of_children env = Some nodes -> nodes <> [] -> Forall node_ok nodes ->
     fst (ads1015_get_channels_config_of env s) = 0) /\
  (of_children env = None \/ of_children env = Some [] \/
   (exists nodes, of_children env = Some nodes /\ ~ Forall node_ok nodes) ->
   fst (ads1015_get_channels_config_of env s) = - EINVAL).
Proof.
  unfold ads1015_get_channels_config_of. split.
  - intros nodes E Hne Hok. rewrite E.
    destruct nodes as [|n l]; [contradiction|].
    apply (proj1 (of_children_loop_code (n :: l) s) Hok).
  - intros [E|[E|(nodes & E & Hn)]]; rewrite E; try reflexivity.
    destruct nodes as [|n l]; [reflexivity|].
    apply (proj2 (of_children_loop_code (n :: l) s) Hn).
Qed.

Lemma preserves_of_children_loop P nodes :
  (forall s c p d, P s -> P (with_priv (set_channel_data
                                          (fun l => <[Z.to_nat c := mk_channel_data p d]> l)) s)) ->
  preserves (B := B) P (of_children_loop nodes).
Proof.
  intros Hput. induction nodes as [|node rest IH]; simpl; [apply preserves_ret|].
  unfold put_channel. preserves_tac.
  apply preserves_modify. intros s Hs. apply Hput, Hs.
Qed.

(** The scan and the fallback write the configuration store and nothing
    else. *)
Lemma get_channels_config_rest env (s : system B) :
  let s' := snd (ads1015_get_channels_config env s) in
  with_priv (set_channel_data (fun _ => [])) s'
  = with_priv (set_channel_data (fun _ => [])) s.
Proof.
  intros s'.
  set (P := fun x : system B => with_priv (set_channel_data (fun _ => [])) x
                                = with_priv (set_channel_data (fun _ => [])) s).
  assert (Hl : forall nodes, preserves P (of_children_loop nodes)).
  { intros nodes. apply preserves_of_children_loop. intros x c p d Hx. exact Hx. }
  assert (Hp : preserves P (ads1015_get_channels_config env)).
  { unfold ads1015_get_channels_config, ads1015_get_channels_config_of.
    destruct (pdata env).
    - apply preserves_modify. intros x Hx. exact Hx.
    - apply preserves_bind.
      + destruct (config_of env); [|apply preserves_ret].
        destruct (of_children env) as [[|n l]|]; try apply preserves_ret. apply Hl.
      + intros r. destruct (r =? 0); [apply preserves_ret|].
        apply preserves_modify. intros x Hx. exact Hx. }
  apply Hp. reflexivity.
Qed.

Lemma channels_config_cases env (s : system B) :
  channel_data (priv (snd (ads1015_get_channels_config env s)))
  = match pdata env with
    | Some pd => pd
    | None =>
        if config_of env && (fst (ads1015_get_channels_config_of env s) =? 0)
        then channel_data (priv (snd (ads1015_get_channels_config_of env s)))
        else default_channels
    end.
Proof.
  unfold ads1015_get_channels_config. destruct (pdata env); [reflexivity|].
  unfold_monad. destruct (config_of env); simpl; [|reflexivity].
  destruct (ads1015_get_channels_config_of env s) as [r s1]. simpl.
  destruct (r =? 0); reflexivity.
Qed.

(** X9: platform data, when there is any, is taken as it is and the device
    tree is not consulted.  Without platform data, a device-tree scan that
    is compiled out, has no node to scan or meets a child node it refuses
    leaves every channel at the default gain index 2 and rate index 4,
    also the channels that earlier nodes had configured.  In every case
    only the configuration store is written. *)
Theorem channels_config_sources env (s : system B) :
  let s' := snd (ads1015_get_channels_config env s) in
  (forall pd, pdata env = Some pd -> channel_data (priv s') = pd) /\
  (pdata env = None ->
   (config_of env = false \/ of_children env = None \/ of_children env = Some [] \/
    exists nodes, of_children env = Some nodes /\ ~ Forall node_ok nodes) ->
   channel_data (priv s') = default_channels /\
   forall chan, 0 <= chan < ADS1015_CHANNELS ->
                channel_at (priv s') chan
                = mk_channel_data ADS1015_DEFAULT_PGA ADS1015_DEFAULT_DATA_RATE) /\
  with_priv (set_channel_data (fun _ => [])) s'
  = with_priv (set_channel_data (fun _ => [])) s.
Proof.
  intros s'. split; [|split; [|apply get_channels_config_rest]].
  - intros pd Hpd. unfold s'. rewrite channels_config_cases, Hpd. reflexivity.
  - intros Hnone Hwhy.
    assert (Hd : channel_data (priv s') = default_channels).
    { unfold s'. rewrite channels_config_cases, Hnone.
      destruct (config_of env) eqn:Ec; [|reflexivity]. simpl.
      unfold ads1015_get_channels_config_of.
      destruct Hwhy as [Hf|[Hn|[Hn|(nodes & Hn & Hbad)]]]; [congruence| | |];
        rewrite Hn; try reflexivity.
      destruct nodes as [|n l]; [reflexivity|].
      rewrite (proj2 (of_children_loop_code (n :: l) s) Hbad). reflexivity. }
    split; [exact Hd|]. intros chan Hc. unfold channel_at. rewrite Hd.
    unfold ADS1015_CHANNELS in Hc.
    assert (Ec : chan = 0 \/ chan = 1 \/ chan = 2 \/ chan = 3 \/
                 chan = 4 \/ chan = 5 \/ chan = 6 \/ chan = 7) by lia.
    repeat (destruct Ec as [-> | Ec]); try subst chan; reflexivity.
Qed.

(** ** What probe hands over *)

Lemma of_children_loop_store nodes :
  Forall node_u32 nodes -> preserves (B := B) store_ok (of_children_loop nodes).
Proof.
  induction nodes as [|node rest IH]; intros Hall; simpl; [apply preserves_ret|].
  inversion Hall as [|? ? (Hr & Hg & Hd) Hrest]; subst. specialize (IH Hrest).
  destruct (of_reg node) as [channel|]; [|exact IH].
  destruct (channel >=? ADS1015_CHANNELS); [exact IH|].
  destruct (Z.ltb_spec 6 (default ADS1015_DEFAULT_PGA (of_gain node))) as [Hp|Hp];
    [apply preserves_ret|].
  destruct (Z.ltb_spec 7 (default ADS1015_DEFAULT_DATA_RATE (of_datarate node))) as [Hq|Hq];
    [apply preserves_ret|].
  apply preserves_bind; [|intro; exact IH].
  unfold put_channel. apply preserves_modify. intros s [Hlen Hval]. split; simpl.
  - rewrite length_insert. exact Hlen.
  - apply Forall_insert; [exact Hval|]. split; simpl.
    + destruct (of_gain node); simpl in *; unfold ADS1015_DEFAULT_PGA in *; lia.
    + destruct (of_datarate node); simpl in *; unfold ADS1015_DEFAULT_DATA_RATE in *; lia.
Qed.

Lemma get_channels_config_store env :
  env_sane env -> preserves (B := B) store_ok (ads1015_get_channels_config env).
Proof.
  intros [Hpd Hof]. unfold ads1015_get_channels_config, ads1015_get_channels_config_of.
  destruct (pdata env) as [pd|].
  - apply preserves_modify. intros s _. apply (Hpd pd eq_refl).
  - apply preserves_bind.
    + destruct (config_of env); [|apply preserves_ret].
      destruct (of_children env) as [[|n l]|]; try apply preserves_ret.
      apply of_children_loop_store, (Hof _ eq_refl).
    + intros r. destruct (r =? 0); [apply preserves_ret|].
      apply preserves_modify. intros s _. split; [reflexivity|].
      change (Forall valid_channel_data default_channels).
      let l := eval vm_compute in default_channels in change default_channels with l.
      repeat constructor; simpl; lia.
Qed.

Lemma set_conv_ready_pin_keeps (s : system B) :
  let s' := snd (ads1015_set_conv_ready_pin s) in
  priv s' = priv s /\ power s' = power s /\ indio_dev s' = indio_dev s.
Proof.
  set (P := fun x : system B => priv x = priv s /\ power x = power s
                                /\ indio_dev x = indio_dev s).
  assert (Hp : preserves P ads1015_set_conv_ready_pin).
  { unfold ads1015_set_conv_ready_pin.
    pose proof (preserves_regmap_update_bits P) as Hu. preserves_tac.
    apply Hu. blind. }
  apply Hp. repeat split.
Qed.

Lemma probe_result env (s : system B) :
  fst (ads1015_probe env s) = 0 ->
  let s' := snd (ads1015_probe env s) in
  data_rate (priv s') = chip_data_rate (chip env) /\
  conv_invalid (priv s') = true /\
  use_buffer (priv s') = false /\
  power s' = mk_pm 0 false /\
  indio_dev s' = indio_dev s /\
  (0 < client_irq env ->
   irq (priv s') = client_irq env /\
   (irq_type env = IRQF_TRIGGER_RISING \/ irq_type env = IRQF_TRIGGER_FALLING)).
Proof.
  unfold ads1015_probe.
  destruct (alloc_ok env); cbn [negb]; [|intros E; vm_compute in E; discriminate].
  unfold_monad. cbv beta iota zeta.
  fold (chip_data_rate (chip env)).
  set (s0 := with_priv (set_data_rate_table (chip_data_rate (chip env)))
               (with_priv (fun _ => zero_data) s)).
  pose proof (get_channels_config_rest env s0) as Hrest.
  destruct (ads1015_get_channels_config env s0) as [[] s1]. simpl in Hrest.
  assert (Ht : data_rate (priv s1) = chip_data_rate (chip env))
    by (apply (f_equal (fun x => data_rate (priv x))) in Hrest; exact Hrest).
  assert (Hi : indio_dev s1 = indio_dev s)
    by (apply (f_equal indio_dev) in Hrest; exact Hrest).
  destruct (Z.eqb_spec (regmap_init_err env) 0) as [_|Hre]; cbn [negb];
    [|intros E; simpl in E; contradiction].
  destruct (kfifo_ok env); cbn [negb]; [|intros E; vm_compute in E; discriminate].
  set (s2 := with_priv (set_use_buffer false) s1).
  pose proof (set_conv_ready_pin_keeps s2) as (Hp3 & Hw3 & Hi3).
  destruct (ads1015_set_conv_ready_pin s2) as [r1 s3]. simpl in Hp3, Hw3, Hi3.
  destruct (Z.eqb_spec r1 0) as [_|Hr1]; cbn [negb];
    [|intros E; simpl in E; contradiction].
  pose proof (set_conv_mode_run_shape ADS1015_CONTINUOUS s3 (or_introl eq_refl)) as Hm.
  destruct (ads1015_set_conv_mode ADS1015_CONTINUOUS s3) as [r2 s4].
  destruct Hm as (Hp4 & Hw4 & Hi4 & _).
  destruct (Z.eqb_spec r2 0) as [_|Hr2]; cbn [negb];
    [|intros E; simpl in E; contradiction].
  assert (Hfin : forall s5 : system B,
            priv s5 = priv s4 \/ priv s5 = set_irq (client_irq env) (priv s4) ->
            indio_dev s5 = indio_dev s4 ->
            let res :=
              (if negb (set_active_ret env =? 0)
               then fun s6 : system B => (set_active_ret env, s6)
               else fun s6 : system B =>
                      (if register_ret env <? 0
                       then fun s7 : system B => (register_ret env, s7)
                       else fun s7 : system B => (0, s7))
                        (with_power (mk_pm 0 false) s6))
                (with_priv (set_conv_invalid true) s5) in
            fst res = 0 ->
            data_rate (priv (snd res)) = chip_data_rate (chip env) /\
            conv_invalid (priv (snd res)) = true /\
            use_buffer (priv (snd res)) = false /\
            power (snd res) = mk_pm 0 false /\
            indio_dev (snd res) = indio_dev s /\
            irq (priv (snd res)) = irq (priv s5)).
  { intros s5 Hp5 Hi5 res. unfold res.
    destruct (Z.eqb_spec (set_active_ret env) 0) as [_|Hsa]; cbn [negb];
      [|intros E; simpl in E; contradiction].
    destruct (Z.ltb_spec (register_ret env) 0) as [Hreg|_]; [simpl; intros; lia|].
    intros _. simpl.
    assert (Hcd : data_rate (priv s5) = data_rate (priv s1)
                  /\ use_buffer (priv s5) = false).
    { destruct Hp5 as [-> | ->]; simpl; rewrite Hp4, Hp3; repeat split. }
    destruct Hcd as (Hdr & Hub).
    rewrite Hdr, Ht.
    repeat split; try assumption; congruence. }
  destruct (Z.ltb_spec 0 (client_irq env)) as [Hirq|Hirq].
  - unfold ads1015_probe_irq.
    destruct ((irq_type env =? IRQF_TRIGGER_RISING) || (irq_type env =? IRQF_TRIGGER_FALLING))
      eqn:Eo; unfold mret, M_ret, ret; cbv beta iota zeta.
    + assert (Hty : irq_type env = IRQF_TRIGGER_RISING \/ irq_type env = IRQF_TRIGGER_FALLING).
      { apply orb_true_iff in Eo as [Eo|Eo]; apply Z.eqb_eq in Eo; tauto. }
      destruct (Z.eqb_spec (request_irq_ret env) 0) as [_|Hrq]; cbn [negb];
        [|intros E; simpl in E; contradiction].
      intros E. cbv zeta.
      destruct (Hfin (with_priv (set_irq (client_irq env)) s4)
                     (or_intror eq_refl) eq_refl E)
        as (F2 & F3 & F4 & F5 & F6 & F7).
      refine (conj F2 (conj F3 (conj F4 (conj F5 (conj F6 _))))).
      intros _. split; [exact F7|exact Hty].
    + intros E. vm_compute in E. discriminate.
  - change (negb (0 =? 0)) with false. cbv beta iota.
    intros E. cbv zeta.
    destruct (Hfin s4 (or_introl eq_refl) eq_refl E)
      as (F2 & F3 & F4 & F5 & F6 & F7).
    refine (conj F2 (conj F3 (conj F4 (conj F5 (conj F6 _))))).
    intros Hpos. lia.
Qed.

(** ** The setters *)

Lemma scan_table_first tbl x i n j :
  scan_table tbl x i n = Some j ->
  forall k, i <= k < j -> table_at tbl k <> x.
Proof.
  revert i. induction n as [|n IH]; intros i; simpl; [discriminate|].
  destruct (Z.eqb_spec (table_at tbl i) x) as [E|E].
  - intros [= <-] k Hk. lia.
  - intros Hs k Hk. destruct (Z.eq_dec k i) as [->|Hne]; [exact E|].
    apply (IH _ Hs). lia.
Qed.

Lemma channel_at_insert_other (l : list ads1015_channel_data) d i j c :
  channel_data d = <[Z.to_nat i := c]> l ->
  0 <= i -> 0 <= j -> i <> j ->
  channel_at d j = l !!! Z.to_nat j.
Proof.
  intros Hd Hi Hj Hne. unfold channel_at. rewrite Hd.
  apply list_lookup_total_insert_ne. lia.
Qed.

Lemma write_raw_effect chan val val2 mask (s : system B) :
  0 <= address chan ->
  let '(r, s') := ads1015_write_raw chan val val2 mask s in
  with_priv (set_channel_data (fun _ => [])) s'
  = with_priv (set_channel_data (fun _ => [])) s /\
  (r <> 0 -> r = - EINVAL /\ s' = s) /\
  (forall other, 0 <= other -> other <> address chan ->
                 channel_at (priv s') other = channel_at (priv s) other) /\
  (mask = IIO_CHAN_INFO_SCALE ->
   cd_data_rate (channel_at (priv s') (address chan))
   = cd_data_rate (channel_at (priv s) (address chan))) /\
  (mask = IIO_CHAN_INFO_SAMP_FREQ ->
   pga (channel_at (priv s') (address chan)) = pga (channel_at (priv s) (address chan))).
Proof.
  intros Ha. unfold ads1015_write_raw.
  assert (Hsame : forall r, (r <> 0 -> r = - EINVAL) ->
            with_priv (set_channel_data (fun _ => [])) s
            = with_priv (set_channel_data (fun _ => [])) s /\
            (r <> 0 -> r = - EINVAL /\ s = s) /\
            (forall other, 0 <= other -> other <> address chan ->
                           channel_at (priv s) other = channel_at (priv s) other) /\
            (mask = IIO_CHAN_INFO_SCALE ->
             cd_data_rate (channel_at (priv s) (address chan))
             = cd_data_rate (channel_at (priv s) (address chan))) /\
            (mask = IIO_CHAN_INFO_SAMP_FREQ ->
             pga (channel_at (priv s) (address chan))
             = pga (channel_at (priv s) (address chan))))
    by (intros r Hr; repeat split; auto).
  destruct mask.
  - apply (Hsame (- EINVAL)). reflexivity.
  - rewrite set_scale_unfold.
    destruct (scan_table _ _ _ _) as [i|]; [|apply (Hsame (- EINVAL)); reflexivity].
    split; [reflexivity|]. split; [intros Hr; lia|]. split; [|split].
    + intros other Ho Hne. unfold store_pga. simpl.
      eapply channel_at_insert_other; [reflexivity|lia|lia|congruence].
    + intros _. unfold channel_at, store_pga. simpl.
      rewrite list_lookup_total_insert. case_decide; reflexivity.
    + discriminate.
  - rewrite set_data_rate_unfold.
    destruct (scan_table _ _ _ _) as [i|]; [|apply (Hsame (- EINVAL)); reflexivity].
    split; [reflexivity|]. split; [intros Hr; lia|]. split; [|split].
    + intros other Ho Hne. unfold store_data_rate. simpl.
      eapply channel_at_insert_other; [reflexivity|lia|lia|congruence].
    + discriminate.
    + intros _. unfold channel_at, store_data_rate. simpl.
      rewrite list_lookup_total_insert. case_decide; reflexivity.
  - apply (Hsame (- EINVAL)). reflexivity.
Qed.

(** X11: a write through [ads1015_write_raw] makes no bus access: the
    register device, the log, the power status, the IIO flags and every
    field of the driver data but the configuration store are as before.  In
    the store only the addressed channel can change, and of that channel
    only the gain index for a scale write and only the rate index for a
    sampling-frequency write.  The only error is -EINVAL, and it leaves the
    store untouched too. *)
Theorem write_raw_touches_one_index chan val val2 mask (s : system B) :
  0 <= address chan ->
  let '(r, s') := ads1015_write_raw chan val val2 mask s in
  with_priv (set_channel_data (fun _ => [])) s'
  = with_priv (set_channel_data (fun _ => [])) s /\
  (r <> 0 -> r = - EINVAL /\ s' = s) /\
  (forall other, 0 <= other -> other <> address chan ->
                 channel_at (priv s') other = channel_at (priv s) other) /\
  (mask = IIO_CHAN_INFO_SCALE ->
   cd_data_rate (channel_at (priv s') (address chan))
   = cd_data_rate (channel_at (priv s) (address chan))) /\
  (mask = IIO_CHAN_INFO_SAMP_FREQ ->
   pga (channel_at (priv s') (address chan)) = pga (channel_at (priv s) (address chan))).
Proof. apply write_raw_effect. Qed.

(** X12: a setter that succeeds stores the lowest index whose table entry
    equals the value sought: the entry at the stored index is that value and
    no entry below it is.  The gain table repeats 256 at the indices 5, 6
    and 7, so [ads1015_set_scale] stores 256 as 5 and never stores 6 or 7;
    the ADS1015 rate table repeats 3300 at 6 and 7, so
    [ads1015_set_data_rate] stores 3300 Hz as 6 and never stores 7. *)
Theorem setters_store_first_match chan scale uscale rate (s : system B) :
  (fst (ads1015_set_scale chan scale uscale s) = 0 ->
   exists i,
     snd (ads1015_set_scale chan scale uscale s)
     = with_priv (store_pga (address chan) i) s /\
     0 <= i <= 5 /\
     table_at ads1015_fullscale_range i = fullscale_of chan scale uscale /\
     (forall k, 0 <= k < i ->
                table_at ads1015_fullscale_range k <> fullscale_of chan scale uscale) /\
     (fullscale_of chan scale uscale = 256 -> i = 5)) /\
  (fst (ads1015_set_data_rate (address chan) rate s) = 0 ->
   exists i,
     snd (ads1015_set_data_rate (address chan) rate s)
     = with_priv (store_data_rate (address chan) i) s /\
     0 <= i <= 7 /\
     table_at (data_rate (priv s)) i = u32 rate /\
     (forall k, 0 <= k < i -> table_at (data_rate (priv s)) k <> u32 rate) /\
     (data_rate (priv s) = ads1015_data_rate -> i <= 6) /\
     (data_rate (priv s) = ads1015_data_rate -> u32 rate = 3300 -> i = 6)).
Proof.
  split.
  - rewrite set_scale_unfold.
    destruct (scan_table _ _ _ _) as [i|] eqn:E; [|intros Hr; simpl in Hr; unfold EINVAL in Hr; lia].
    intros _. exists i. split; [reflexivity|].
    destruct (scan_table_some _ _ _ _ _ E) as [Hi Ht]. simpl in Hi.
    pose proof (scan_table_first _ _ _ _ _ E) as Hf.
    assert (H5 : i <= 5).
    { destruct (Z.le_gt_cases i 5) as [Hle|Hgt]; [exact Hle|]. exfalso.
      apply (Hf 5); [lia|]. rewrite <- Ht.
      assert (Ei : i = 6 \/ i = 7) by lia. destruct Ei as [-> | ->]; reflexivity. }
    split; [lia|]. split; [exact Ht|]. split; [exact Hf|].
    intros E256. rewrite E256 in Ht.
    assert (Ei : i = 0 \/ i = 1 \/ i = 2 \/ i = 3 \/ i = 4 \/ i = 5) by lia.
    destruct Ei as [-> |[-> |[-> |[-> |[-> | ->]]]]];
      first [reflexivity | vm_compute in Ht; discriminate].
  - rewrite set_data_rate_unfold.
    destruct (scan_table _ _ _ _) as [i|] eqn:E; [|intros Hr; simpl in Hr; unfold EINVAL in Hr; lia].
    intros _. exists i. split; [reflexivity|].
    destruct (scan_table_some _ _ _ _ _ E) as [Hi Ht]. simpl in Hi.
    pose proof (scan_table_first _ _ _ _ _ E) as Hf.
    assert (H6 : data_rate (priv s) = ads1015_data_rate -> i <= 6).
    { intros Htbl. destruct (Z.le_gt_cases i 6) as [Hle|Hgt]; [exact Hle|]. exfalso.
      apply (Hf 6); [lia|]. rewrite <- Ht.
      assert (Ei : i = 7) by lia. rewrite Ei, Htbl. reflexivity. }
    split; [lia|]. split; [exact Ht|]. split; [exact Hf|]. split; [exact H6|].
    intros Htbl E3300. specialize (H6 Htbl). rewrite Htbl, E3300 in Ht.
    assert (Ei : i = 0 \/ i = 1 \/ i = 2 \/ i = 3 \/ i = 4 \/ i = 5 \/ i = 6) by lia.
    destruct Ei as [-> |[-> |[-> |[-> |[-> |[-> | ->]]]]]];
      first [reflexivity | vm_compute in Ht; discriminate].
Qed.

(** X13: for either chip and every pair of rate indices the settling delay
    lies between 668 and 275000 microseconds: an acquisition never sleeps
    for more than a little over a quarter of a second. *)
Theorem conv_time_bounds tbl dr_old dr :
  chip_table tbl -> 0 <= dr_old < 8 -> 0 <= dr < 8 ->
  668 <= conv_time_of tbl dr_old dr <= 275000.
Proof.
  intros Ht Ho Hn.
  assert (Eo : dr_old = 0 \/ dr_old = 1 \/ dr_old = 2 \/ dr_old = 3 \/
               dr_old = 4 \/ dr_old = 5 \/ dr_old = 6 \/ dr_old = 7) by lia.
  assert (En : dr = 0 \/ dr = 1 \/ dr = 2 \/ dr = 3 \/
               dr = 4 \/ dr = 5 \/ dr = 6 \/ dr = 7) by lia.
  clear Ho Hn.
  destruct Ht as [-> | ->];
    repeat (destruct Eo as [-> | Eo]); try subst dr_old;
      repeat (destruct En as [-> | En]); try subst dr;
        vm_compute; split; discriminate.
Qed.

(** ** The capture cycle *)

Lemma acquire_run_no_push ci val t r v ci' sample ts :
  acquire_run ci val t r v ci' -> ~ In (EvPush sample ts) t.
Proof. intros Hrun Hin. inversion Hrun; subst; simpl in Hin; intuition discriminate. Qed.

Lemma finish_cycle_trace r res (s1 : system B) :
  trace (finish_cycle r res s1)
  = trace s1 ++ (if r <? 0 then [] else [EvPush (s16 res) (timestamp (priv s1))]).
Proof.
  unfold finish_cycle. destruct (r <? 0); simpl; [rewrite app_nil_r|]; reflexivity.
Qed.

Lemma irq_thread_pushes (s : system B) t sample ts :
  trace (snd (ads1015_irq_handler_thread s)) = trace s ++ t ->
  In (EvPush sample ts) t ->
  ts = timestamp (priv s).
Proof.
  intros Ht Hin.
  destruct (buffer_enabled (indio_dev s)) eqn:He.
  2:{ rewrite irq_thread_disabled in Ht by assumption. simpl in Ht.
      rewrite <- (app_nil_r (trace s)) in Ht at 1. apply app_inv_head in Ht.
      subst t. destruct Hin. }
  destruct (use_buffer (priv s)) eqn:Hu.
  - rewrite irq_thread_fast in Ht by assumption.
    rewrite regmap_read_in_map in Ht by (vm_compute; split; discriminate).
    destruct (bus_read ADS1015_CONV_REG (regmap s)) as [[r v] b].
    simpl in Ht. rewrite finish_cycle_trace in Ht. simpl in Ht.
    rewrite <- app_assoc in Ht. apply app_inv_head in Ht. subst t.
    destruct (r <? 0); simpl in Hin; intuition congruence.
  - rewrite irq_thread_full in Ht by assumption.
    set (chan := find_first_bit _ _) in Ht.
    pose proof (get_adc_result_run_shape chan 0 s) as Hrun.
    pose proof (get_adc_result_keeps chan 0 s) as (_ & _ & _ & Hts & _).
    destruct (ads1015_get_adc_result chan 0 s) as [[r res] s1].
    destruct Hrun as (t0 & Ht0 & Hrun). simpl in Ht, Hts.
    rewrite finish_cycle_trace, Ht0, <- app_assoc in Ht.
    apply app_inv_head in Ht. subst t.
    apply in_app_or in Hin as [Hin|Hin].
    + exfalso. eapply acquire_run_no_push; eassumption.
    + destruct (r <? 0); simpl in Hin; intuition congruence.
Qed.

(** X14: the interrupt handler stores the time it is given and does nothing
    else, and a sample pushed by the threaded handler that follows carries
    that time. *)
Theorem pushed_sample_timestamp now (s : system B) :
  let '(ret, s1) := ads1015_irq_handler now s in
  ret = IRQ_WAKE_THREAD /\
  s1 = with_priv (set_timestamp now) s /\
  forall t sample ts,
    trace (snd (ads1015_irq_handler_thread s1)) = trace s ++ t ->
    In (EvPush sample ts) t ->
    ts = now.
Proof.
  unfold ads1015_irq_handler. unfold_monad. simpl.
  split; [reflexivity|]. split; [reflexivity|].
  intros t sample ts Ht Hin.
  apply (irq_thread_pushes _ t sample ts Ht Hin).
Qed.

Lemma find_bit_from_found mask fuel i k :
  i <= k < i + Z.of_nat fuel ->
  Z.testbit mask k = true ->
  (forall j, i <= j < k -> Z.testbit mask j = false) ->
  find_bit_from mask i fuel = k.
Proof.
  revert i. induction fuel as [|fuel IH]; intros i Hk Hset Hclear; [lia|].
  simpl. destruct (Z.eq_dec i k) as [->|Hne].
  - rewrite Hset. reflexivity.
  - rewrite (Hclear i) by lia. apply IH; [lia|exact Hset|].
    intros j Hj. apply Hclear. lia.
Qed.

Lemma find_bit_from_none mask fuel i :
  (forall j, i <= j < i + Z.of_nat fuel -> Z.testbit mask j = false) ->
  find_bit_from mask i fuel = i + Z.of_nat fuel.
Proof.
  revert i. induction fuel as [|fuel IH]; intros i Hclear; simpl; [lia|].
  rewrite (Hclear i) by lia. rewrite IH; [lia|].
  intros j Hj. apply Hclear. lia.
Qed.

Lemma irq_thread_channel (s : system B) k :
  buffer_enabled (indio_dev s) = true ->
  use_buffer (priv s) = false ->
  0 <= k < masklength (indio_dev s) ->
  Z.testbit (active_scan_mask (indio_dev s)) k = true ->
  (forall j, 0 <= j < k -> Z.testbit (active_scan_mask (indio_dev s)) j = false) ->
  ads1015_irq_handler_thread s =
  let '(r, res, s1) := ads1015_get_adc_result k 0 s in
  (IRQ_HANDLED, finish_cycle r res s1).
Proof.
  intros He Hu Hk Hset Hclear. rewrite irq_thread_full by assumption.
  unfold find_first_bit.
  rewrite (find_bit_from_found _ _ 0 k); [reflexivity|lia|exact Hset|exact Hclear].
Qed.

(** X15: in a capture cycle on the full path the channel acquired is the
    lowest bit set in the scan mask, so for a one-hot mask the selected
    channel.  When that bit is not a voltage channel, or the mask is empty,
    the cycle does nothing at all: no bus access, no sample pushed, and
    [use_buffer] stays false. *)
Theorem capture_channel_selection (s : system B) k :
  buffer_enabled (indio_dev s) = true ->
  use_buffer (priv s) = false ->
  0 <= k < masklength (indio_dev s) ->
  (Z.testbit (active_scan_mask (indio_dev s)) k = true ->
   (forall j, 0 <= j < k -> Z.testbit (active_scan_mask (indio_dev s)) j = false) ->
   ads1015_irq_handler_thread s =
   (let '(r, res, s1) := ads1015_get_adc_result k 0 s in
    (IRQ_HANDLED, finish_cycle r res s1)) /\
   (ADS1015_CHANNELS <= k -> ads1015_irq_handler_thread s = (IRQ_HANDLED, s))) /\
  (active_scan_mask (indio_dev s) = 2 ^ k ->
   ads1015_irq_handler_thread s =
   let '(r, res, s1) := ads1015_get_adc_result k 0 s in
   (IRQ_HANDLED, finish_cycle r res s1)) /\
  (active_scan_mask (indio_dev s) = 0 ->
   ADS1015_CHANNELS <= masklength (indio_dev s) ->
   ads1015_irq_handler_thread s = (IRQ_HANDLED, s)).
Proof.
  intros He Hu Hk.
  assert (Hbad : forall c, ADS1015_CHANNELS <= c ->
            (let '(r, res, s1) := ads1015_get_adc_result c 0 s in
             (IRQ_HANDLED, finish_cycle r res s1)) = (IRQ_HANDLED, s)).
  { intros c Hc. unfold ads1015_get_adc_result.
    replace (c >=? ADS1015_CHANNELS) with true
      by (symmetry; rewrite Z.geb_leb; apply Z.leb_le, Hc).
    rewrite orb_true_r. reflexivity. }
  split; [|split].
  - intros Hset Hclear.
    pose proof (irq_thread_channel s k He Hu Hk Hset Hclear) as Hch.
    split; [exact Hch|]. intros Hc. rewrite Hch. apply Hbad, Hc.
  - intros Hmask. apply irq_thread_channel; try assumption.
    + rewrite Hmask. apply Z.pow2_bits_true. lia.
    + intros j Hj. rewrite Hmask. apply Z.pow2_bits_false. lia.
  - intros Hmask Hlen. rewrite irq_thread_full by assumption.
    unfold find_first_bit. rewrite find_bit_from_none.
    + rewrite Z2Nat.id by lia. apply Hbad. lia.
    + intros j _. rewrite Hmask. apply Z.bits_0.
Qed.

(** ** Acquisitions in a row *)

Lemma get_adc_result_ok_clears chan val (s : system B) :
  fst (fst (ads1015_get_adc_result chan val s)) = 0 ->
  conv_invalid (priv (snd (ads1015_get_adc_result chan val s))) = false.
Proof.
  pose proof (get_adc_result_run_shape chan val s) as Hrun.
  destruct (ads1015_get_adc_result chan val s) as [[r v] s'].
  destruct Hrun as (t & _ & Hrun). simpl. intros ->.
  inversion Hrun; subst; try reflexivity; unfold EINVAL in *; lia.
Qed.

(** X16: after an acquisition that returned 0, a second acquisition of the
    same channel on a device that reads back the three fields just
    configured makes no configuration write and does not sleep: it reads
    the configuration register and the conversion register, nothing else. *)
Theorem repeated_acquisition_is_direct chan val val' (s : system B) w1 b1 :
  well_formed (priv s) ->
  0 <= chan < ADS1015_CHANNELS ->
  let s1 := snd (ads1015_get_adc_result chan val s) in
  let c := channel_at (priv s) chan in
  fst (fst (ads1015_get_adc_result chan val s)) = 0 ->
  bus_read ADS1015_CFG_REG (regmap s1) = (0, w1, b1) ->
  cfg_fields (Z.land w1 val_mask) = (chan, pga c, cd_data_rate c) ->
  exists r2 v2,
    trace (snd (ads1015_get_adc_result chan val' s1))
    = trace s1 ++ [EvRead ADS1015_CFG_REG 0 (Z.land w1 val_mask);
                   EvRead ADS1015_CONV_REG r2 v2].
Proof.
  intros Hwf Hc s1 c Hok Hrd Hfields.
  pose proof (get_adc_result_ok_clears chan val s Hok) as Hci. fold s1 in Hci.
  pose proof (get_adc_result_keeps chan val s) as (Hcd & Hdr & _). fold s1 in Hcd, Hdr.
  assert (Hwf1 : well_formed (priv s1)).
  { destruct Hwf as (H1 & H2 & H3). unfold well_formed. rewrite Hcd, Hdr. auto. }
  assert (Hch : channel_at (priv s1) chan = c)
    by (unfold c, channel_at; rewrite Hcd; reflexivity).
  rewrite get_adc_result_acquire by assumption. unfold acquire_spec.
  rewrite (bool_decide_eq_true_2 (0 <= chan < ADS1015_CHANNELS)) by assumption.
  rewrite regmap_read_in_map by (vm_compute; split; discriminate).
  rewrite Hrd. simpl. rewrite Hch.
  rewrite (bool_decide_eq_true_2 (_ = cfg_fields (Z.land w1 val_mask)))
    by (symmetry; exact Hfields).
  unfold settle_then_read. simpl. rewrite Hci.
  rewrite regmap_read_in_map by (vm_compute; split; discriminate). simpl.
  destruct (bus_read ADS1015_CONV_REG b1) as [[r2 v2] b2]. simpl.
  exists r2, (Z.land v2 val_mask). rewrite <- app_assoc. reflexivity.
Qed.

(** ** Bus discipline *)

Lemma disciplined_log e (s : system B) :
  event_ok e -> disciplined s -> disciplined (log e s).
Proof.
  intros He Hs. unfold disciplined in *. simpl.
  apply Forall_app. split; [exact Hs|]. constructor; [exact He|constructor].
Qed.

Lemma disc_regmap_read reg v0 :
  reg = ADS1015_CONV_REG \/ reg = ADS1015_CFG_REG ->
  preserves disciplined (regmap_read reg v0).
Proof.
  intros Hreg s Hs. unfold regmap_read. destruct (max_register <? reg); [exact Hs|].
  destruct (bus_read reg (regmap s)) as [[r v] b]. simpl.
  apply (disciplined_log _ (with_regmap b s)); [exact Hreg|exact Hs].
Qed.

Lemma disc_regmap_write_cfg v :
  preserves disciplined (regmap_write ADS1015_CFG_REG v).
Proof.
  intros s Hs. rewrite regmap_write_writeable by reflexivity.
  destruct (bus_write ADS1015_CFG_REG (Z.land v val_mask) (regmap s)) as [r b]. simpl.
  apply (disciplined_log _ (with_regmap b s)); [|exact Hs].
  left. split; [reflexivity|apply land_val_mask_range].
Qed.

Lemma disc_regmap_write_lo :
  preserves disciplined (regmap_write ADS1015_LO_THRESH_REG 0).
Proof.
  intros s Hs. rewrite regmap_write_writeable by reflexivity.
  destruct (bus_write ADS1015_LO_THRESH_REG (Z.land 0 val_mask) (regmap s)) as [r b].
  simpl. apply (disciplined_log _ (with_regmap b s)); [|exact Hs].
  right. left. split; reflexivity.
Qed.

Lemma disc_regmap_write_hi :
  preserves disciplined (regmap_write ADS1015_HI_THRESH_REG 65535).
Proof.
  intros s Hs. rewrite regmap_write_writeable by reflexivity.
  destruct (bus_write ADS1015_HI_THRESH_REG (Z.land 65535 val_mask) (regmap s)) as [r b].
  simpl. apply (disciplined_log _ (with_regmap b s)); [|exact Hs].
  right. right. split; reflexivity.
Qed.

Lemma disc_usleep_range a b : preserves disciplined (usleep_range a b).
Proof.
  intros s Hs. unfold usleep_range. simpl.
  apply (disciplined_log _ (with_regmap (bus_elapse a (regmap s)) s)); [exact I|exact Hs].
Qed.

Ltac disc_tac :=
  repeat first
    [ assumption
    | match goal with
      | |- preserves _ (mret _) => apply preserves_ret
      | |- preserves _ (gets _) => apply preserves_gets
      | |- preserves _ (regmap_read ADS1015_CONV_REG _) =>
          apply disc_regmap_read; left; reflexivity
      | |- preserves _ (regmap_read ADS1015_CFG_REG _) =>
          apply disc_regmap_read; right; reflexivity
      | |- preserves _ (regmap_write ADS1015_CFG_REG _) => apply disc_regmap_write_cfg
      | |- preserves _ (regmap_write ADS1015_LO_THRESH_REG 0) => apply disc_regmap_write_lo
      | |- preserves _ (regmap_write ADS1015_HI_THRESH_REG 65535) =>
          apply disc_regmap_write_hi
      | |- preserves _ (usleep_range _ _) => apply disc_usleep_range
      | |- preserves _ (modify (log _)) =>
          apply preserves_modify; intros ? ?; apply disciplined_log; [exact I|assumption]
      | |- preserves _ (modify _) =>
          apply preserves_modify; intros ? Hs; exact Hs
      | |- preserves _ (_ ≫= _) => apply preserves_bind; [| intro]
      | |- preserves _ (if ?b then _ else _) => destruct b
      | |- preserves _ (let '(_, _) := ?x in _) => destruct x
      | |- preserves _ (match ?x with _ => _ end) => destruct x
      end ].

Lemma disc_update_bits_cfg mask val :
  preserves disciplined (regmap_update_bits ADS1015_CFG_REG mask val).
Proof. unfold regmap_update_bits. disc_tac. Qed.

Lemma disc_get_adc_result chan val :
  preserves disciplined (ads1015_get_adc_result chan val).
Proof. unfold ads1015_get_adc_result. disc_tac. Qed.

Lemma disc_set_conv_mode mode : preserves disciplined (ads1015_set_conv_mode mode).
Proof. apply disc_update_bits_cfg. Qed.

Lemma disc_set_conv_ready_pin : preserves disciplined ads1015_set_conv_ready_pin.
Proof.
  unfold ads1015_set_conv_ready_pin.
  pose proof (disc_update_bits_cfg ADS1015_CFG_COMP_QUE_MASK 0). disc_tac.
Qed.

Lemma disc_runtime_resume : preserves disciplined ads1015_runtime_resume.
Proof.
  unfold ads1015_runtime_resume.
  pose proof (disc_set_conv_mode ADS1015_CONTINUOUS). disc_tac.
Qed.

Lemma disc_runtime_suspend : preserves disciplined ads1015_runtime_suspend.
Proof. apply disc_set_conv_mode. Qed.

Lemma disc_set_power_state on : preserves disciplined (ads1015_set_power_state on).
Proof.
  unfold ads1015_set_power_state, pm_runtime_get_sync, pm_runtime_put_noidle,
    pm_runtime_put_autosuspend, pm_usage_add, pm_set_suspended.
  pose proof disc_runtime_resume. destruct on; disc_tac.
Qed.

Lemma disc_of_children_loop nodes :
  preserves (B := B) disciplined (of_children_loop nodes).
Proof.
  apply preserves_of_children_loop. intros s c p d Hs. exact Hs.
Qed.

Lemma disc_probe env : preserves disciplined (ads1015_probe env).
Proof.
  unfold ads1015_probe, ads1015_get_channels_config, ads1015_get_channels_config_of,
    ads1015_probe_irq.
  pose proof disc_set_conv_ready_pin.
  pose proof (disc_set_conv_mode ADS1015_CONTINUOUS).
  pose proof disc_of_children_loop as Hl.
  disc_tac; apply Hl.
Qed.

Lemma disc_read_raw chan val val2 mask :
  preserves disciplined (ads1015_read_raw chan val val2 mask).
Proof.
  unfold ads1015_read_raw, iio_device_claim_direct_mode, iio_device_release_direct_mode.
  pose proof (disc_set_power_state true). pose proof (disc_set_power_state false).
  pose proof (disc_get_adc_result (address chan) val).
  destruct mask; disc_tac.
Qed.

Lemma disc_write_raw chan val val2 mask :
  preserves (B := B) disciplined (ads1015_write_raw chan val val2 mask).
Proof.
  unfold ads1015_write_raw, ads1015_set_scale, ads1015_set_data_rate.
  destruct mask; disc_tac.
Qed.

Lemma disc_irq_handler_thread : preserves disciplined ads1015_irq_handler_thread.
Proof.
  unfold ads1015_irq_handler_thread.
  apply preserves_bind; [apply preserves_gets|intro i].
  destruct (negb (buffer_enabled i)); [disc_tac|].
  apply preserves_bind; [apply preserves_gets|intro d].
  pose proof (disc_get_adc_result
                (find_first_bit (active_scan_mask i) (masklength i)) 0).
  disc_tac.
Qed.

Lemma disc_do_call c : preserves disciplined (do_call c).
Proof.
  pose proof disc_probe. pose proof disc_read_raw. pose proof disc_write_raw.
  pose proof disc_irq_handler_thread. pose proof disc_runtime_suspend.
  pose proof disc_runtime_resume.
  pose proof (disc_set_power_state true). pose proof (disc_set_power_state false).
  pose proof (disc_set_conv_mode ADS1015_SINGLESHOT).
  destruct c; unfold do_call, ads1015_remove, iio_enable_buffer, iio_disable_buffer,
    ads1015_buffer_preenable, ads1015_buffer_postdisable, set_buffer_enabled,
    ads1015_irq_handler, pm_autosuspend_expired, pm_set_suspended,
    pm_runtime_put_noidle, pm_usage_add;
    disc_tac; auto.
Qed.

(** X17: whatever entry points of the driver are called, in whatever
    order and with whatever arguments, and however the bus answers, the
    driver reads only the conversion and the configuration register, never
    writes the conversion register, writes the low threshold only with 0 and
    the high threshold only with 0xFFFF, and writes only 16-bit words to the
    configuration register. *)
Theorem bus_discipline calls (s : system B) :
  disciplined s -> disciplined (do_calls calls s).
Proof.
  revert s. induction calls as [|c rest IH]; intros s Hs; [exact Hs|].
  simpl. apply IH, disc_do_call, Hs.
Qed.

(** ** Power requests *)

Lemma power_on_suspended (s : system B) :
  runtime_suspended (power s) = true ->
  0 <= usage_count (power s) ->
  let '(r, s1) := ads1015_set_power_state true s in
  indio_dev s1 = indio_dev s /\
  exists t c,
    trace s1 = trace s ++ t /\
    mode_run ADS1015_CONTINUOUS t c /\
    ((c = 0 /\ r = 0 /\ priv s1 = set_conv_invalid true (priv s) /\
      power s1 = mk_pm (usage_count (power s) + 1) false) \/
     (c < 0 /\ r = c /\ priv s1 = priv s /\ power s1 = power s) \/
     (0 < c /\ r = 0 /\ priv s1 = priv s /\
      power s1 = mk_pm (usage_count (power s) + 1) true)).
Proof.
  intros Hsus Hu. unfold ads1015_set_power_state, pm_runtime_get_sync,
    pm_runtime_put_noidle, pm_usage_add, pm_set_suspended, ads1015_runtime_resume.
  unfold_monad. cbv beta iota zeta.
  change (runtime_suspended (power (with_power _ s))) with (runtime_suspended (power s)).
  simpl runtime_suspended. rewrite Hsus. cbv beta iota zeta.
  set (sA := with_power _ s).
  pose proof (set_conv_mode_run_shape ADS1015_CONTINUOUS sA (or_introl eq_refl)) as Hm.
  destruct (ads1015_set_conv_mode ADS1015_CONTINUOUS sA) as [c sC].
  destruct Hm as (Hp & Hw & Hi & t & Ht & Hrun).
  subst sA. simpl in Hp, Hw, Hi, Ht.
  assert (Eu : (0 <? usage_count (power s) + 1) = true) by (apply Z.ltb_lt; lia).
  destruct (c =? 0) eqn:Ez; [apply Z.eqb_eq in Ez; subst c|apply Z.eqb_neq in Ez];
    [|destruct (c <? 0) eqn:El; [apply Z.ltb_lt in El|apply Z.ltb_ge in El]].
  - simpl. split; [exact Hi|]. exists t, 0. split; [exact Ht|]. split; [exact Hrun|].
    left. rewrite Hp, Hw. repeat split.
  - assert (Ez' : (c =? 0) = false) by (apply Z.eqb_neq; lia).
    assert (El' : (c <? 0) = true) by (apply Z.ltb_lt; lia).
    cbv beta iota zeta. rewrite Ez'. cbv beta iota zeta. rewrite El'.
    cbv beta iota zeta. rewrite Hw. cbn [usage_count]. rewrite Eu.
    cbv beta iota zeta. rewrite El'. simpl.
    split; [exact Hi|]. exists t, c. split; [exact Ht|]. split; [exact Hrun|].
    right. left. rewrite ?Hw. cbn [usage_count runtime_suspended].
    repeat split; try lia; try assumption.
    destruct (power s) as [u b]. simpl in *. subst b.
    f_equal. lia.
  - assert (Ez' : (c =? 0) = false) by (apply Z.eqb_neq; lia).
    assert (El' : (c <? 0) = false) by (apply Z.ltb_ge; lia).
    cbv beta iota zeta. rewrite Ez'. cbv beta iota zeta. rewrite El'.
    cbv beta iota zeta. rewrite El'. simpl.
    split; [exact Hi|]. exists t, c. split; [exact Ht|]. split; [exact Hrun|].
    right. right. rewrite Hw. repeat split; try assumption. lia.
Qed.

(** X18: a power request on a runtime-active device makes no bus access and
    only counts the user.  On a suspended device it switches the chip to
    continuous mode; when that succeeds the device is active and
    [conv_invalid] is set, so that the next acquisition waits; when it
    fails with a negative code, that code is returned, the device stays
    suspended and the usage counter and the driver data are as before. *)
Theorem power_on_invalidates (s : system B) :
  0 <= usage_count (power s) ->
  let '(r, s1) := ads1015_set_power_state true s in
  (runtime_suspended (power s) = false ->
   r = 0 /\
   s1 = with_power (mk_pm (usage_count (power s) + 1) false) s) /\
  (runtime_suspended (power s) = true ->
   (runtime_suspended (power s1) = false ->
    r = 0 /\ conv_invalid (priv s1) = true /\
    usage_count (power s1) = usage_count (power s) + 1) /\
   (r < 0 ->
    priv s1 = priv s /\ power s1 = power s)).
Proof.
  intros Hu. destruct (runtime_suspended (power s)) eqn:Hsus.
  - pose proof (power_on_suspended s Hsus Hu) as Hon.
    destruct (ads1015_set_power_state true s) as [r s1].
    destruct Hon as (_ & t & c & _ & _ & Hcase).
    split; [discriminate|]. intros _.
    destruct Hcase as [(-> & -> & Hp & Hw)|[(Hc & -> & Hp & Hw)|(Hc & -> & Hp & Hw)]].
    + split; [|lia]. intros _. rewrite Hp, Hw. repeat split.
    + split; [|intros _; split; assumption].
      rewrite Hw, Hsus. discriminate.
    + split; [|lia]. rewrite Hw. simpl. discriminate.
  - unfold ads1015_set_power_state, pm_runtime_get_sync, pm_usage_add.
    unfold_monad. simpl. rewrite Hsus. simpl.
    split; [|discriminate]. intros _. split; reflexivity.
Qed.

(** An acquisition that finds [conv_invalid] set and returns 0: what it
    did on the bus, how long it slept and where its value comes from. *)
Lemma get_adc_result_settled chan val (s : system B) :
  conv_invalid (priv s) = true ->
  let '(r, v, s') := ads1015_get_adc_result chan val s in
  r = 0 ->
  exists old tw x,
    let d := conv_time_of (data_rate (priv s))
               (Z.shiftr (Z.land old ADS1015_CFG_DR_MASK) ADS1015_CFG_DR_SHIFT)
               (s32 (cd_data_rate (channel_at (priv s) chan))) in
    trace s' = trace s ++ [EvRead ADS1015_CFG_REG 0 old] ++ tw
                       ++ [EvSleep d (d + 1); EvRead ADS1015_CONV_REG 0 x] /\
    (tw = [] \/ exists w, tw = [EvWrite ADS1015_CFG_REG w 0]) /\
    v = x.
Proof.
  intros Hci. unfold ads1015_get_adc_result.
  destruct ((chan <? 0) || (chan >=? ADS1015_CHANNELS)).
  { intros E. vm_compute in E. discriminate. }
  unfold_monad.
  rewrite regmap_read_in_map by (vm_compute; split; discriminate).
  destruct (bus_read ADS1015_CFG_REG (regmap s)) as [[r0 w0] b0].
  pose proof (land_val_mask_range w0) as Hold.
  set (old := Z.land w0 val_mask) in *.
  destruct (Z.eqb_spec r0 0) as [->|Hr0]; simpl; [|intros E; contradiction].
  fold settle_mask.
  match goal with
  | |- context [Z.land ?c settle_mask] =>
      pose proof (merged_word_range old c Hold) as Hrange;
      set (cfg := Z.lor (Z.land old (not32 settle_mask)) (Z.land c settle_mask)) in *
  end.
  destruct (Z.eqb_spec old cfg) as [E|E]; simpl.
  - rewrite Hci. simpl.
    rewrite regmap_read_in_map by (vm_compute; split; discriminate). simpl.
    match goal with
    | |- context [bus_read ADS1015_CONV_REG ?b] =>
        destruct (bus_read ADS1015_CONV_REG b) as [[r1 v1] b1]
    end.
    simpl. intros ->. exists old, nil, (Z.land v1 val_mask).
    split; [simpl; rewrite <- !app_assoc; reflexivity|].
    split; [left; reflexivity|reflexivity].
  - rewrite regmap_write_writeable by reflexivity. simpl.
    rewrite land_val_mask_small by assumption.
    destruct (bus_write ADS1015_CFG_REG cfg b0) as [r1 b1].
    destruct (Z.eqb_spec r1 0) as [->|Hr1]; simpl; [|intros E'; contradiction].
    rewrite regmap_read_in_map by (vm_compute; split; discriminate). simpl.
    match goal with
    | |- context [bus_read ADS1015_CONV_REG ?b] =>
        destruct (bus_read ADS1015_CONV_REG b) as [[r2 v2] b2]
    end.
    simpl. intros ->. exists old, [EvWrite ADS1015_CFG_REG cfg 0], (Z.land v2 val_mask).
    split; [simpl; rewrite <- !app_assoc; reflexivity|].
    split; [right; exists cfg; reflexivity|reflexivity].
Qed.

(** X19: a raw read that finds the device suspended and returns
    IIO_VAL_INT made, after the resume, an acquisition that read the
    configuration register, wrote it or not, slept for the settling delay
    computed from the rate index in the word read and the stored rate index
    of the channel, and then read the conversion register; the value
    returned is the word of that read, shifted and sign-extended.  This
    holds provided the bus answered every access of the call with 0 or a
    negative code. *)
Theorem raw_read_after_resume chan val val2 (s : system B) :
  buffer_enabled (indio_dev s) = false ->
  runtime_suspended (power s) = true ->
  0 <= usage_count (power s) ->
  let '(r, v, v2, s') := ads1015_read_raw chan val val2 IIO_CHAN_INFO_RAW s in
  forall t,
    trace s' = trace s ++ t ->
    (forall reg c x, In (EvRead reg c x) t -> c <= 0) ->
    (forall reg x c, In (EvWrite reg x c) t -> c <= 0) ->
    r = IIO_VAL_INT ->
    exists t0 old tw x,
      let d := conv_time_of (data_rate (priv s))
                 (Z.shiftr (Z.land old ADS1015_CFG_DR_MASK) ADS1015_CFG_DR_SHIFT)
                 (s32 (cd_data_rate (channel_at (priv s) (address chan)))) in
      t = t0 ++ [EvRead ADS1015_CFG_REG 0 old] ++ tw
             ++ [EvSleep d (d + 1); EvRead ADS1015_CONV_REG 0 x] /\
      (tw = [] \/ exists w, tw = [EvWrite ADS1015_CFG_REG w 0]) /\
      v = sign_extend32 (Z.shiftr x (shift chan)) (15 - shift chan) /\
      v2 = val2.
Proof.
  intros Hb Hsus Hu. unfold ads1015_read_raw, iio_device_claim_direct_mode,
    iio_device_release_direct_mode.
  unfold_monad. cbv beta iota zeta. rewrite Hb. cbv beta iota zeta.
  rewrite Hb. change (negb (0 =? 0)) with false. cbv beta iota zeta.
  pose proof (power_on_suspended s Hsus Hu) as Hon.
  destruct (ads1015_set_power_state true s) as [r1 s1].
  destruct Hon as (Hi1 & t1 & c & Ht1 & Hmode & Hcase).
  destruct (Z.ltb_spec r1 0) as [Hneg|Hpos].
  { cbv beta iota zeta. intros t _ _ _ E. unfold IIO_VAL_INT in E. lia. }
  cbv beta iota zeta.
  pose proof (get_adc_result_run_shape (address chan) val s1) as Hrun.
  pose proof (get_adc_result_settled (address chan) val s1) as Hset.
  destruct (ads1015_get_adc_result (address chan) val s1) as [[r2 x2] s2].
  destruct Hrun as (t2 & Ht2 & Hrun).
  assert (Hdown : forall x : system B,
            trace (snd (ads1015_set_power_state false x)) = trace x).
  { intros x. reflexivity. }
  destruct (Z.ltb_spec r2 0) as [Hneg2|Hpos2].
  { specialize (Hdown s2). destruct (ads1015_set_power_state false s2) as [r3 s3].
    cbv beta iota zeta. intros t _ _ _ E. unfold IIO_VAL_INT in E. lia. }
  specialize (Hdown s2). destruct (ads1015_set_power_state false s2) as [r3 s3].
  simpl in Hdown. cbv beta iota zeta.
  intros t Ht Hreads Hwrites Hret.
  rewrite Hdown, Ht2, Ht1, <- app_assoc in Ht. apply app_inv_head in Ht. subst t.
  assert (Hc0 : c = 0 /\ priv s1 = set_conv_invalid true (priv s)).
  { destruct Hcase as [(-> & _ & Hp & _)|[(Hc & -> & _)|(Hc & _)]].
    - split; [reflexivity|exact Hp].
    - lia.
    - exfalso. inversion Hmode; subst.
      + specialize (Hreads ADS1015_CFG_REG c w). simpl in Hreads.
        assert (c <= 0) by (apply Hreads; left; reflexivity). lia.
      + lia.
      + specialize (Hwrites ADS1015_CFG_REG w' c). simpl in Hwrites.
        assert (c <= 0) by (apply Hwrites; right; left; reflexivity). lia. }
  destruct Hc0 as [-> Hp1].
  assert (Hci : conv_invalid (priv s1) = true) by (rewrite Hp1; reflexivity).
  rewrite Hci in Hrun.
  assert (Hr2 : r2 = 0).
  { assert (Hle : r2 <= 0); [|lia].
    inversion Hrun; subst;
      first [ unfold EINVAL; lia
            | discriminate
            | solve [eapply Hreads; apply in_or_app; right; simpl;
                     repeat (first [left; reflexivity | right])]
            | solve [eapply Hwrites; apply in_or_app; right; simpl;
                     repeat (first [left; reflexivity | right])] ]. }
  destruct (Hset Hci Hr2) as (old & tw & x & Htr & Htw & Hx).
  rewrite Ht2 in Htr. apply app_inv_head in Htr.
  rewrite Hp1 in Htr.
  change (data_rate (set_conv_invalid true (priv s))) with (data_rate (priv s)) in Htr.
  change (channel_at (set_conv_invalid true (priv s)) (address chan))
    with (channel_at (priv s) (address chan)) in Htr.
  exists t1, old, tw, x. cbv zeta.
  split; [rewrite Htr; reflexivity|]. split; [exact Htw|].
  split; [rewrite Hx; reflexivity|reflexivity].
Qed.

(** ** Channels configured from the device tree *)

Lemma of_children_loop_length nodes (s : system B) :
  length (channel_data (priv (snd (of_children_loop nodes s))))
  = length (channel_data (priv s)).
Proof.
  apply (preserves_of_children_loop
           (fun x => length (channel_data (priv x)) = length (channel_data (priv s))));
    [|reflexivity].
  intros x c p d Hx. simpl. rewrite length_insert. exact Hx.
Qed.

Lemma of_children_loop_unnamed nodes chan (s : system B) :
  Forall node_u32 nodes -> 0 <= chan ->
  (forall n, In n nodes -> of_reg n <> Some chan) ->
  channel_at (priv (snd (of_children_loop nodes s))) chan = channel_at (priv s) chan.
Proof.
  intros Hall Hc. revert s.
  induction nodes as [|node rest IH]; intros s Hno; simpl; [reflexivity|].
  inversion Hall as [|? ? (Hr & _) Hrest]; subst.
  assert (Hno' : forall n, In n rest -> of_reg n <> Some chan)
    by (intros n Hn; apply Hno; right; exact Hn).
  pose proof (Hno node (or_introl eq_refl)) as Hnode.
  destruct (of_reg node) as [channel|]; [|apply IH; assumption].
  destruct (channel >=? ADS1015_CHANNELS); [apply IH; assumption|].
  destruct (6 <? _); [reflexivity|].
  destruct (7 <? _); [reflexivity|].
  unfold put_channel. unfold_monad. cbv beta iota zeta.
  rewrite (IH Hrest _ Hno'). unfold channel_at. simpl.
  apply list_lookup_total_insert_ne.
  simpl in Hr. intros E. apply Hnode. f_equal. lia.
Qed.

Lemma of_children_loop_named pre n post chan (s : system B) :
  Forall node_u32 (pre ++ n :: post) -> Forall node_ok (pre ++ n :: post) ->
  of_reg n = Some chan -> 0 <= chan < ADS1015_CHANNELS ->
  length (channel_data (priv s)) = Z.to_nat ADS1015_CHANNELS ->
  (forall m, In m post -> of_reg m <> Some chan) ->
  channel_at (priv (snd (of_children_loop (pre ++ n :: post) s))) chan
  = mk_channel_data (default ADS1015_DEFAULT_PGA (of_gain n))
                    (default ADS1015_DEFAULT_DATA_RATE (of_datarate n)).
Proof.
  intros Hu Hok Hreg Hc Hlen Hpost. revert s Hlen.
  induction pre as [|m pre IH]; intros s Hlen; simpl in *.
  - inversion Hu as [|? ? _ Hu']; inversion Hok as [|? ? Hn _]; subst.
    unfold node_ok in Hn. rewrite Hreg in *.
    destruct (Z.geb_spec chan ADS1015_CHANNELS) as [Hge|_]; [lia|].
    destruct Hn as [Hn|[Hp Hd]]; [lia|].
    destruct (Z.ltb_spec 6 (default ADS1015_DEFAULT_PGA (of_gain n))); [lia|].
    destruct (Z.ltb_spec 7 (default ADS1015_DEFAULT_DATA_RATE (of_datarate n))); [lia|].
    unfold put_channel. unfold_monad. cbv beta iota zeta.
    rewrite (of_children_loop_unnamed post chan _ Hu' (proj1 Hc) Hpost).
    unfold channel_at. simpl. apply list_lookup_total_insert_eq. lia.
  - inversion Hu as [|? ? _ Hu']; inversion Hok as [|? ? Hm Hok']; subst.
    specialize (IH Hu' Hok').
    unfold node_ok in Hm.
    destruct (of_reg m) as [channel|]; [|apply IH; exact Hlen].
    destruct (Z.geb_spec channel ADS1015_CHANNELS) as [Hge|Hlt]; [apply IH; exact Hlen|].
    destruct Hm as [Hm|[Hp Hd]]; [lia|].
    destruct (Z.ltb_spec 6 (default ADS1015_DEFAULT_PGA (of_gain m))); [lia|].
    destruct (Z.ltb_spec 7 (default ADS1015_DEFAULT_DATA_RATE (of_datarate m))); [lia|].
    unfold put_channel. unfold_monad. cbv beta iota zeta.
    apply IH. simpl. rewrite length_insert. exact Hlen.
Qed.

(** Nothing that probe does after [ads1015_get_channels_config] touches
    the configuration store. *)
Lemma probe_channel_data env (s : system B) :
  alloc_ok env = true ->
  channel_data (priv (snd (ads1015_probe env s)))
  = channel_data
      (priv (snd (ads1015_get_channels_config env
                    (with_priv (set_data_rate_table (chip_data_rate (chip env)))
                               (with_priv (fun _ => zero_data) s))))).
Proof.
  intros Ha. unfold ads1015_probe. rewrite Ha. cbn [negb].
  unfold_monad. cbv beta iota zeta.
  fold (chip_data_rate (chip env)).
  set (s0 := with_priv (set_data_rate_table (chip_data_rate (chip env)))
               (with_priv (fun _ => zero_data) s)).
  destruct (ads1015_get_channels_config env s0) as [[] s1].
  destruct (negb (regmap_init_err env =? 0)); [reflexivity|].
  destruct (negb (kfifo_ok env)); [reflexivity|].
  set (s2 := with_priv (set_use_buffer false) s1).
  pose proof (set_conv_ready_pin_keeps s2) as (Hp3 & _).
  destruct (ads1015_set_conv_ready_pin s2) as [r1 s3]. simpl in Hp3.
  destruct (negb (r1 =? 0)); [simpl; rewrite Hp3; reflexivity|].
  pose proof (set_conv_mode_run_shape ADS1015_CONTINUOUS s3 (or_introl eq_refl)) as Hm.
  destruct (ads1015_set_conv_mode ADS1015_CONTINUOUS s3) as [r2 s4].
  destruct Hm as (Hp4 & _).
  destruct (negb (r2 =? 0)); [simpl; rewrite Hp4, Hp3; reflexivity|].
  unfold ads1015_probe_irq. unfold_monad.
  repeat match goal with
         | |- context [if ?c then _ else _] => destruct c; cbv beta iota zeta
         end;
    simpl; rewrite ?Hp4, ?Hp3; reflexivity.
Qed.

(** X10: a probe that returns 0 hands over the rate table of the chip,
    [conv_invalid] set, [use_buffer] clear, the device runtime-active with
    no user, the IIO flags untouched and, when the client has an interrupt
    line, that line recorded and its trigger rising or falling.  Platform
    data, when there is any, is the configuration store as it was given,
    unchecked; without platform data, and with device-tree cells that are
    [u32] values, the store is well formed: eight entries with indices in
    0..7. *)
Theorem probe_postcondition env (s : system B) :
  (forall nodes, of_children env = Some nodes -> Forall node_u32 nodes) ->
  fst (ads1015_probe env s) = 0 ->
  let s' := snd (ads1015_probe env s) in
  (forall pd, pdata env = Some pd -> channel_data (priv s') = pd) /\
  (pdata env = None -> well_formed (priv s')) /\
  data_rate (priv s') = chip_data_rate (chip env) /\
  conv_invalid (priv s') = true /\
  use_buffer (priv s') = false /\
  power s' = mk_pm 0 false /\
  indio_dev s' = indio_dev s /\
  (0 < client_irq env ->
   irq (priv s') = client_irq env /\
   (irq_type env = IRQF_TRIGGER_RISING \/ irq_type env = IRQF_TRIGGER_FALLING)).
Proof.
  intros Hnodes Hr s'.
  assert (Ha : alloc_ok env = true).
  { destruct (alloc_ok env) eqn:Ea; [reflexivity|].
    unfold ads1015_probe in Hr. rewrite Ea in Hr. vm_compute in Hr. discriminate. }
  pose proof (probe_channel_data env s Ha) as Hcd. fold s' in Hcd.
  destruct (probe_result env s Hr) as (F2 & Frest). fold s' in F2, Frest.
  set (s0 := with_priv (set_data_rate_table (chip_data_rate (chip env)))
               (with_priv (fun _ => zero_data) s)) in *.
  split; [|split; [|exact (conj F2 Frest)]].
  - intros pd Hpd. rewrite Hcd, channels_config_cases, Hpd. reflexivity.
  - intros Hpd.
    assert (Hsane : env_sane env).
    { split; [|exact Hnodes]. intros pd E. rewrite Hpd in E. discriminate. }
    assert (H0 : store_ok s0) by (split; [reflexivity|repeat constructor; simpl; lia]).
    destruct (get_channels_config_store env Hsane s0 H0) as [Hlen Hval].
    unfold well_formed. rewrite Hcd, F2.
    split; [exact Hlen|]. split; [exact Hval|].
    destruct (chip env); [left|right]; reflexivity.
Qed.

(** X20: when probe takes the channel configuration from the device tree
    (no platform data, at least one child node, none refused), a channel
    that some node names gets the gain and the rate of the last node naming
    it, absent cells counting as the defaults 2 and 4, and a channel that no
    node names keeps the gain index 0 and the rate index 0 of the zeroed
    allocation: the defaults are not applied to it. *)
Theorem probe_device_tree_channels env (s : system B) nodes chan :
  alloc_ok env = true ->
  pdata env = None ->
  config_of env = true ->
  of_children env = Some nodes ->
  Forall node_u32 nodes ->
  Forall node_ok nodes ->
  0 <= chan < ADS1015_CHANNELS ->
  let c := channel_at (priv (snd (ads1015_probe env s))) chan in
  (nodes <> [] ->
   (forall n, In n nodes -> of_reg n <> Some chan) ->
   c = mk_channel_data 0 0) /\
  (forall pre n post,
     nodes = pre ++ n :: post ->
     of_reg n = Some chan ->
     (forall m, In m post -> of_reg m <> Some chan) ->
     c = mk_channel_data (default ADS1015_DEFAULT_PGA (of_gain n))
                         (default ADS1015_DEFAULT_DATA_RATE (of_datarate n))).
Proof.
  intros Ha Hpd Hcfg Hof Hu Hok Hc c. subst c. unfold channel_at.
  rewrite (probe_channel_data env s Ha).
  set (s0 := with_priv (set_data_rate_table (chip_data_rate (chip env)))
               (with_priv (fun _ => zero_data) s)).
  assert (Hcd : nodes <> [] ->
                channel_data (priv (snd (ads1015_get_channels_config env s0)))
                = channel_data (priv (snd (of_children_loop nodes s0)))).
  { intros Hne. rewrite channels_config_cases, Hpd, Hcfg.
    unfold ads1015_get_channels_config_of. rewrite Hof.
    destruct nodes as [|n0 l]; [contradiction|].
    rewrite (proj1 (of_children_loop_code (n0 :: l) s0) Hok). reflexivity. }
  split.
  - intros Hne Hno. rewrite (Hcd Hne).
    change (channel_at (priv (snd (of_children_loop nodes s0))) chan = mk_channel_data 0 0).
    rewrite (of_children_loop_unnamed nodes chan s0 Hu (proj1 Hc) Hno).
    unfold channel_at, s0. simpl.
    unfold ADS1015_CHANNELS in *.
    assert (Hn : (Z.to_nat chan < 8)%nat) by lia.
    apply list_lookup_total_correct.
    destruct (Z.to_nat chan) as [|[|[|[|[|[|[|[|k]]]]]]]]; try reflexivity; lia.
  - intros pre n post -> Hreg Hpost.
    rewrite Hcd by (destruct pre; discriminate).
    apply (of_children_loop_named pre n post chan s0 Hu Hok Hreg Hc); [|exact Hpost].
    reflexivity.
Qed.

(** ** The power reference of a capture *)

Lemma set_power_state_indio_dev on (s : system B) :
  indio_dev (snd (ads1015_set_power_state on s)) = indio_dev s.
Proof.
  set (P := fun x : system B => indio_dev x = indio_dev s).
  assert (Hp : preserves P (ads1015_set_power_state on)).
  { unfold ads1015_set_power_state, pm_runtime_get_sync, pm_runtime_put_noidle,
      pm_runtime_put_autosuspend, pm_usage_add, pm_set_suspended.
    pose proof (preserves_runtime_resume P ltac:(blind) ltac:(blind)).
    destruct on; preserves_tac. }
  exact (Hp s eq_refl).
Qed.

(** X21: switching capture on takes one runtime-PM reference and
    switching it off gives that reference back without any bus access; a
    switch-on that fails returns a negative code, leaves capture off and
    keeps no reference. *)
Theorem buffer_enable_balanced (s : system B) :
  0 <= usage_count (power s) ->
  let '(r, s1) := iio_enable_buffer s in
  (r <> 0 ->
   r < 0 /\ indio_dev s1 = indio_dev s /\
   usage_count (power s1) = usage_count (power s)) /\
  (r = 0 ->
   buffer_enabled (indio_dev s1) = true /\
   usage_count (power s1) = usage_count (power s) + 1 /\
   let s2 := snd (iio_disable_buffer s1) in
   indio_dev s2 = mk_iio false (active_scan_mask (indio_dev s)) (masklength (indio_dev s)) /\
   usage_count (power s2) = usage_count (power s) /\
   priv s2 = priv s1 /\ regmap s2 = regmap s1 /\ trace s2 = trace s1).
Proof.
  intros Hu. unfold iio_enable_buffer, ads1015_buffer_preenable.
  unfold_monad. cbv beta iota zeta.
  pose proof (set_power_state_usage_of true s Hu) as [Hle Hup].
  pose proof (set_power_state_indio_dev true s) as Hi.
  destruct (ads1015_set_power_state true s) as [r1 s1]. simpl in Hle, Hup, Hi.
  destruct (Z.eqb_spec r1 0) as [->|Hr1]; cbn [negb]; cbv beta iota zeta.
  - split; [intros E; contradiction|]. intros _.
    change (0 <? 0) with false in Hup.
    split; [reflexivity|]. split; [exact Hup|].
    unfold iio_disable_buffer, ads1015_buffer_postdisable, set_buffer_enabled,
      ads1015_set_power_state, pm_runtime_put_autosuspend, pm_usage_add.
    unfold_monad. simpl. rewrite Hi, Hup.
    repeat split. lia.
  - split; [|intros E; contradiction]. intros _.
    destruct (Z.ltb_spec r1 0) as [Hneg|Hpos]; [|lia].
    repeat split; try assumption.
Qed.

End Extras.

(** ** The theorems at work on the register file *)

Lemma returned_sample_is_settled_witness :
  fst (fst (ads1015_get_adc_result 0 0 probed)) = 0 /\
  conv_invalid (priv (snd (ads1015_get_adc_result 0 0 probed))) = false.
Proof.
  pose proof (returned_sample_is_settled 0 0 probed) as H.
  destruct (ads1015_get_adc_result 0 0 probed) as [[r v] s'] eqn:E.
  assert (Hr : r = 0) by (vm_compute in E; inversion E; reflexivity).
  exact (conj Hr (proj1 (H Hr))).
Defined.

Lemma reconcile_write_word_witness :
  well_formed (priv probed) /\ 0 <= 1 < ADS1015_CHANNELS /\
  bus_read ADS1015_CFG_REG (regmap probed) = (0, 33920, regmap probed) /\
  cfg_fields 38016
  = (1, pga (channel_at (priv probed) 1), cd_data_rate (channel_at (priv probed) 1)).
Proof.
  assert (Hwf : well_formed (priv probed)) by show_well_formed.
  assert (Hc : 0 <= 1 < ADS1015_CHANNELS) by (unfold ADS1015_CHANNELS; lia).
  assert (Hrd : bus_read ADS1015_CFG_REG (regmap probed) = (0, 33920, regmap probed))
    by (vm_compute; reflexivity).
  assert (Ht : trace (snd (ads1015_get_adc_result 1 0 probed))
               = trace probed ++ [EvRead ADS1015_CFG_REG 0 33920;
                                  EvWrite ADS1015_CFG_REG 38016 0;
                                  EvSleep 1375 1376;
                                  EvRead ADS1015_CONV_REG 0 77])
    by (vm_compute; reflexivity).
  assert (Hin : In (EvWrite ADS1015_CFG_REG 38016 0)
                   [EvRead ADS1015_CFG_REG 0 33920;
                    EvWrite ADS1015_CFG_REG 38016 0;
                    EvSleep 1375 1376;
                    EvRead ADS1015_CONV_REG 0 77])
    by (simpl; right; left; reflexivity).
  exact (conj Hwf (conj Hc (conj Hrd
           (proj1 (proj2 (reconcile_write_word 1 0 probed 33920 (regmap probed)
                            Hwf Hc Hrd _ _ _ _ Ht Hin)))))).
Defined.

Lemma set_conv_mode_runs_witness :
  (ADS1015_SINGLESHOT = ADS1015_CONTINUOUS \/ ADS1015_SINGLESHOT = ADS1015_SINGLESHOT) /\
  priv (snd (ads1015_set_conv_mode ADS1015_SINGLESHOT probed)) = priv probed.
Proof.
  assert (Hm : ADS1015_SINGLESHOT = ADS1015_CONTINUOUS
               \/ ADS1015_SINGLESHOT = ADS1015_SINGLESHOT) by (right; reflexivity).
  pose proof (set_conv_mode_runs ADS1015_SINGLESHOT probed Hm) as H.
  destruct (ads1015_set_conv_mode ADS1015_SINGLESHOT probed) as [r s'].
  exact (conj Hm (proj1 H)).
Defined.

Lemma read_raw_balances_power_witness :
  0 <= usage_count (power suspended) /\
  usage_count
    (power (snd (ads1015_read_raw (ADS1015_V_CHAN 1) 0 0 IIO_CHAN_INFO_RAW suspended)))
  = usage_count (power suspended).
Proof.
  assert (Hu : 0 <= usage_count (power suspended)) by (vm_compute; discriminate).
  exact (conj Hu (read_raw_balances_power (ADS1015_V_CHAN 1) 0 0 IIO_CHAN_INFO_RAW
                    suspended Hu)).
Defined.

Lemma read_raw_value_range_witness :
  0 <= shift (ADS1015_V_CHAN 1) <= 15 /\
  fst (fst (fst (ads1015_read_raw (ADS1015_V_CHAN 1) 0 0 IIO_CHAN_INFO_RAW probed)))
  = IIO_VAL_INT /\
  - 2 ^ (15 - shift (ADS1015_V_CHAN 1))
  <= snd (fst (fst (ads1015_read_raw (ADS1015_V_CHAN 1) 0 0 IIO_CHAN_INFO_RAW probed)))
  < 2 ^ (15 - shift (ADS1015_V_CHAN 1)).
Proof.
  assert (Hs : 0 <= shift (ADS1015_V_CHAN 1) <= 15) by (simpl; lia).
  pose proof (read_raw_value_range (ADS1015_V_CHAN 1) 0 0 probed Hs) as H.
  destruct (ads1015_read_raw (ADS1015_V_CHAN 1) 0 0 IIO_CHAN_INFO_RAW probed)
    as [[[r v] v2] s'] eqn:E.
  assert (Hr : r = IIO_VAL_INT) by (vm_compute in E; inversion E; reflexivity).
  exact (conj Hs (conj Hr (proj1 (H Hr)))).
Defined.

Lemma get_channels_config_of_accepts_witness :
  of_children dt_env = Some dt_nodes /\ dt_nodes <> [] /\ Forall node_ok dt_nodes /\
  fst (ads1015_get_channels_config_of dt_env (boot_system reset_regs)) = 0 /\
  of_children default_env = None /\
  fst (ads1015_get_channels_config_of default_env (boot_system reset_regs)) = - EINVAL.
Proof.
  assert (Ho : of_children dt_env = Some dt_nodes) by reflexivity.
  assert (Hne : dt_nodes <> []) by discriminate.
  assert (Hok : Forall node_ok dt_nodes).
  { constructor; [unfold node_ok; simpl; right; lia|].
    constructor; [exact I|constructor]. }
  assert (Hn : of_children default_env = None) by reflexivity.
  exact (conj Ho (conj Hne (conj Hok
           (conj (proj1 (get_channels_config_of_accepts dt_env (boot_system reset_regs))
                        dt_nodes Ho Hne Hok)
                 (conj Hn
                       (proj2 (get_channels_config_of_accepts default_env
                                 (boot_system reset_regs))
                              (or_introl Hn))))))).
Defined.

Lemma channels_config_sources_witness :
  pdata default_env = None /\ config_of default_env = false /\
  channel_data (priv (snd (ads1015_get_channels_config default_env
                             (boot_system reset_regs))))
  = default_channels.
Proof.
  assert (Hp : pdata default_env = None) by reflexivity.
  assert (Hc : config_of default_env = false) by reflexivity.
  exact (conj Hp (conj Hc
           (proj1 (proj1 (proj2 (channels_config_sources default_env
                                   (boot_system reset_regs)))
                         Hp (or_introl Hc))))).
Defined.

Lemma probe_postcondition_witness :
  (forall nodes, of_children dt_env = Some nodes -> Forall node_u32 nodes) /\
  fst (ads1015_probe dt_env (boot_system reset_regs)) = 0 /\
  pdata dt_env = None /\
  0 < client_irq dt_env /\
  well_formed (priv (snd (ads1015_probe dt_env (boot_system reset_regs)))) /\
  irq (priv (snd (ads1015_probe dt_env (boot_system reset_regs)))) = client_irq dt_env.
Proof.
  assert (Hs : forall nodes, of_children dt_env = Some nodes -> Forall node_u32 nodes).
  { intros nodes E. injection E as <-.
    repeat constructor; simpl; lia. }
  assert (Hr : fst (ads1015_probe dt_env (boot_system reset_regs)) = 0)
    by (vm_compute; reflexivity).
  assert (Hp : pdata dt_env = None) by reflexivity.
  assert (Hi : 0 < client_irq dt_env) by (simpl; lia).
  destruct (probe_postcondition dt_env (boot_system reset_regs) Hs Hr)
    as (_ & Hwf & _ & _ & _ & _ & _ & Hirq).
  exact (conj Hs (conj Hr (conj Hp (conj Hi (conj (Hwf Hp) (proj1 (Hirq Hi))))))).
Defined.

Lemma write_raw_touches_one_index_witness :
  0 <= address (ADS1015_V_CHAN 1) /\
  channel_at
    (priv (snd (ads1015_write_raw (ADS1015_V_CHAN 1) 920 0 IIO_CHAN_INFO_SAMP_FREQ probed)))
    0
  = channel_at (priv probed) 0.
Proof.
  assert (Ha : 0 <= address (ADS1015_V_CHAN 1)) by (simpl; lia).
  pose proof (write_raw_touches_one_index (ADS1015_V_CHAN 1) 920 0
                IIO_CHAN_INFO_SAMP_FREQ probed Ha) as H.
  destruct (ads1015_write_raw (ADS1015_V_CHAN 1) 920 0 IIO_CHAN_INFO_SAMP_FREQ probed)
    as [r s'].
  destruct H as (_ & _ & Hother & _).
  assert (H0 : 0 <= 0) by lia.
  assert (Hne : 0 <> address (ADS1015_V_CHAN 1)) by (simpl; lia).
  exact (conj Ha (Hother 0 H0 Hne)).
Defined.

Lemma setters_store_first_match_witness :
  fst (ads1015_set_scale (ADS1015_V_CHAN 0) 0 125000 probed) = 0 /\
  fullscale_of (ADS1015_V_CHAN 0) 0 125000 = 256 /\
  snd (ads1015_set_scale (ADS1015_V_CHAN 0) 0 125000 probed)
  = with_priv (store_pga (address (ADS1015_V_CHAN 0)) 5) probed /\
  fst (ads1015_set_data_rate (address (ADS1015_V_CHAN 0)) 3300 probed) = 0 /\
  data_rate (priv probed) = ads1015_data_rate /\
  u32 3300 = 3300 /\
  snd (ads1015_set_data_rate (address (ADS1015_V_CHAN 0)) 3300 probed)
  = with_priv (store_data_rate (address (ADS1015_V_CHAN 0)) 6) probed.
Proof.
  assert (Hq : fst (ads1015_set_scale (ADS1015_V_CHAN 0) 0 125000 probed) = 0)
    by (vm_compute; reflexivity).
  assert (Hf : fullscale_of (ADS1015_V_CHAN 0) 0 125000 = 256)
    by (vm_compute; reflexivity).
  assert (Hr : fst (ads1015_set_data_rate (address (ADS1015_V_CHAN 0)) 3300 probed) = 0)
    by (vm_compute; reflexivity).
  assert (Ht : data_rate (priv probed) = ads1015_data_rate) by (vm_compute; reflexivity).
  assert (Hu : u32 3300 = 3300) by (vm_compute; reflexivity).
  destruct (proj1 (setters_store_first_match (ADS1015_V_CHAN 0) 0 125000 3300 probed) Hq)
    as (j & Hj & _ & _ & _ & H5).
  destruct (proj2 (setters_store_first_match (ADS1015_V_CHAN 0) 0 125000 3300 probed) Hr)
    as (i & Hs & _ & _ & _ & _ & H6).
  rewrite (H5 Hf) in Hj. rewrite (H6 Ht Hu) in Hs.
  exact (conj Hq (conj Hf (conj Hj (conj Hr (conj Ht (conj Hu Hs)))))).
Defined.

Lemma conv_time_bounds_witness :
  chip_table ads1015_data_rate /\ 0 <= 0 < 8 /\ 0 <= 6 < 8 /\
  668 <= conv_time_of ads1015_data_rate 0 6 <= 275000.
Proof.
  assert (Hc : chip_table ads1015_data_rate) by (left; reflexivity).
  assert (H0 : 0 <= 0 < 8) by lia.
  assert (H6 : 0 <= 6 < 8) by lia.
  exact (conj Hc (conj H0 (conj H6 (conv_time_bounds ads1015_data_rate 0 6 Hc H0 H6)))).
Defined.

Lemma pushed_sample_timestamp_witness :
  trace (snd (ads1015_irq_handler_thread (snd (ads1015_irq_handler 1234 capturing))))
  = trace capturing ++ [EvRead ADS1015_CFG_REG 0 33920; EvSleep 1375 1376;
                        EvRead ADS1015_CONV_REG 0 77; EvPush 77 1234] /\
  In (EvPush 77 1234) [EvRead ADS1015_CFG_REG 0 33920; EvSleep 1375 1376;
                       EvRead ADS1015_CONV_REG 0 77; EvPush 77 1234] /\
  1234 = 1234.
Proof.
  pose proof (pushed_sample_timestamp 1234 capturing) as H.
  destruct (ads1015_irq_handler 1234 capturing) as [ret s1] eqn:E.
  destruct H as (_ & Hs1 & Hts).
  assert (Ht : trace (snd (ads1015_irq_handler_thread s1))
               = trace capturing ++ [EvRead ADS1015_CFG_REG 0 33920; EvSleep 1375 1376;
                                     EvRead ADS1015_CONV_REG 0 77; EvPush 77 1234])
    by (rewrite Hs1; vm_compute; reflexivity).
  assert (Hin : In (EvPush 77 1234)
                   [EvRead ADS1015_CFG_REG 0 33920; EvSleep 1375 1376;
                    EvRead ADS1015_CONV_REG 0 77; EvPush 77 1234])
    by (simpl; do 3 right; left; reflexivity).
  exact (conj Ht (conj Hin (Hts _ 77 1234 Ht Hin))).
Defined.

Lemma capture_channel_selection_witness :
  buffer_enabled (indio_dev capturing) = true /\
  use_buffer (priv capturing) = false /\
  0 <= 0 < masklength (indio_dev capturing) /\
  Z.testbit (active_scan_mask (indio_dev capturing)) 0 = true /\
  ads1015_irq_handler_thread capturing =
  (let '(r, res, s1) := ads1015_get_adc_result 0 0 capturing in
   (IRQ_HANDLED, finish_cycle r res s1)).
Proof.
  assert (Hb : buffer_enabled (indio_dev capturing) = true) by (vm_compute; reflexivity).
  assert (Hu : use_buffer (priv capturing) = false) by (vm_compute; reflexivity).
  assert (Hk : 0 <= 0 < masklength (indio_dev capturing))
    by (vm_compute; split; [discriminate|reflexivity]).
  assert (Ht : Z.testbit (active_scan_mask (indio_dev capturing)) 0 = true)
    by (vm_compute; reflexivity).
  assert (Hl : forall j, 0 <= j < 0 ->
                         Z.testbit (active_scan_mask (indio_dev capturing)) j = false)
    by (intros j Hj; lia).
  exact (conj Hb (conj Hu (conj Hk (conj Ht
           (proj1 (proj1 (capture_channel_selection capturing 0 Hb Hu Hk) Ht Hl)))))).
Defined.

Lemma repeated_acquisition_is_direct_witness :
  well_formed (priv probed) /\ 0 <= 1 < ADS1015_CHANNELS /\
  fst (fst (ads1015_get_adc_result 1 0 probed)) = 0 /\
  bus_read ADS1015_CFG_REG (regmap (snd (ads1015_get_adc_result 1 0 probed)))
  = (0, 38016, mk_regfile 77 38016 0 65535 []) /\
  exists r2 v2,
    trace (snd (ads1015_get_adc_result 1 5 (snd (ads1015_get_adc_result 1 0 probed))))
    = trace (snd (ads1015_get_adc_result 1 0 probed))
      ++ [EvRead ADS1015_CFG_REG 0 (Z.land 38016 val_mask);
          EvRead ADS1015_CONV_REG r2 v2].
Proof.
  assert (Hwf : well_formed (priv probed)) by show_well_formed.
  assert (Hc : 0 <= 1 < ADS1015_CHANNELS) by (unfold ADS1015_CHANNELS; lia).
  assert (Hr : fst (fst (ads1015_get_adc_result 1 0 probed)) = 0)
    by (vm_compute; reflexivity).
  assert (Hrd : bus_read ADS1015_CFG_REG (regmap (snd (ads1015_get_adc_result 1 0 probed)))
                = (0, 38016, mk_regfile 77 38016 0 65535 []))
    by (vm_compute; reflexivity).
  assert (Hf : cfg_fields (Z.land 38016 val_mask)
               = (1, pga (channel_at (priv probed) 1),
                  cd_data_rate (channel_at (priv probed) 1)))
    by (vm_compute; reflexivity).
  exact (conj Hwf (conj Hc (conj Hr (conj Hrd
           (repeated_acquisition_is_direct 1 0 5 probed 38016
              (mk_regfile 77 38016 0 65535 []) Hwf Hc Hr Hrd Hf))))).
Defined.

Lemma bus_discipline_witness :
  disciplined (boot_system reset_regs) /\
  disciplined (do_calls session (boot_system reset_regs)).
Proof.
  assert (Hd : disciplined (boot_system reset_regs)) by (apply Forall_nil_2).
  exact (conj Hd (bus_discipline session (boot_system reset_regs) Hd)).
Defined.

Lemma power_on_invalidates_witness :
  0 <= usage_count (power suspended) /\
  runtime_suspended (power suspended) = true /\
  runtime_suspended (power (snd (ads1015_set_power_state true suspended))) = false /\
  conv_invalid (priv (snd (ads1015_set_power_state true suspended))) = true.
Proof.
  assert (Hu : 0 <= usage_count (power suspended)) by (vm_compute; discriminate).
  assert (Hs : runtime_suspended (power suspended) = true) by (vm_compute; reflexivity).
  assert (Ha : runtime_suspended (power (snd (ads1015_set_power_state true suspended)))
               = false) by (vm_compute; reflexivity).
  pose proof (power_on_invalidates suspended Hu) as H.
  destruct (ads1015_set_power_state true suspended) as [r s1].
  destruct H as [_ H]. destruct (H Hs) as [Hact _].
  exact (conj Hu (conj Hs (conj Ha (proj1 (proj2 (Hact Ha)))))).
Defined.

Lemma raw_read_after_resume_witness :
  buffer_enabled (indio_dev suspended) = false /\
  runtime_suspended (power suspended) = true /\
  0 <= usage_count (power suspended) /\
  fst (fst (fst (ads1015_read_raw (ADS1015_V_CHAN 1) 0 0 IIO_CHAN_INFO_RAW suspended)))
  = IIO_VAL_INT /\
  exists t0 old tw x,
    [EvRead ADS1015_CFG_REG 0 34176; EvWrite ADS1015_CFG_REG 33920 0;
     EvRead ADS1015_CFG_REG 0 33920; EvWrite ADS1015_CFG_REG 38016 0;
     EvSleep 1375 1376; EvRead ADS1015_CONV_REG 0 77]
    = t0 ++ [EvRead ADS1015_CFG_REG 0 old] ++ tw
         ++ [EvSleep (conv_time_of (data_rate (priv suspended))
                        (Z.shiftr (Z.land old ADS1015_CFG_DR_MASK) ADS1015_CFG_DR_SHIFT)
                        (s32 (cd_data_rate (channel_at (priv suspended) 1))))
                     (conv_time_of (data_rate (priv suspended))
                        (Z.shiftr (Z.land old ADS1015_CFG_DR_MASK) ADS1015_CFG_DR_SHIFT)
                        (s32 (cd_data_rate (channel_at (priv suspended) 1))) + 1);
             EvRead ADS1015_CONV_REG 0 x] /\
    snd (fst (fst (ads1015_read_raw (ADS1015_V_CHAN 1) 0 0 IIO_CHAN_INFO_RAW suspended)))
    = sign_extend32 (Z.shiftr x 4) 11.
Proof.
  assert (Hb : buffer_enabled (indio_dev suspended) = false) by (vm_compute; reflexivity).
  assert (Hs : runtime_suspended (power suspended) = true) by (vm_compute; reflexivity).
  assert (Hu : 0 <= usage_count (power suspended)) by (vm_compute; discriminate).
  assert (Hr : fst (fst (fst (ads1015_read_raw (ADS1015_V_CHAN 1) 0 0
                                IIO_CHAN_INFO_RAW suspended))) = IIO_VAL_INT)
    by (vm_compute; reflexivity).
  assert (Ht : trace (snd (ads1015_read_raw (ADS1015_V_CHAN 1) 0 0
                             IIO_CHAN_INFO_RAW suspended))
               = trace suspended
                 ++ [EvRead ADS1015_CFG_REG 0 34176; EvWrite ADS1015_CFG_REG 33920 0;
                     EvRead ADS1015_CFG_REG 0 33920; EvWrite ADS1015_CFG_REG 38016 0;
                     EvSleep 1375 1376; EvRead ADS1015_CONV_REG 0 77])
    by (vm_compute; reflexivity).
  pose proof (raw_read_after_resume (ADS1015_V_CHAN 1) 0 0 suspended Hb Hs Hu) as H.
  destruct (ads1015_read_raw (ADS1015_V_CHAN 1) 0 0 IIO_CHAN_INFO_RAW suspended)
    as [[[r v] v2] s'].
  assert (Hreads : forall reg c x,
            In (EvRead reg c x)
               [EvRead ADS1015_CFG_REG 0 34176; EvWrite ADS1015_CFG_REG 33920 0;
                EvRead ADS1015_CFG_REG 0 33920; EvWrite ADS1015_CFG_REG 38016 0;
                EvSleep 1375 1376; EvRead ADS1015_CONV_REG 0 77] -> c <= 0).
  { intros reg c x Hin. simpl in Hin.
    repeat (destruct Hin as [Hin|Hin]; [try discriminate; inversion Hin; lia|]).
    destruct Hin. }
  assert (Hwrites : forall reg x c,
            In (EvWrite reg x c)
               [EvRead ADS1015_CFG_REG 0 34176; EvWrite ADS1015_CFG_REG 33920 0;
                EvRead ADS1015_CFG_REG 0 33920; EvWrite ADS1015_CFG_REG 38016 0;
                EvSleep 1375 1376; EvRead ADS1015_CONV_REG 0 77] -> c <= 0).
  { intros reg x c Hin. simpl in Hin.
    repeat (destruct Hin as [Hin|Hin]; [try discriminate; inversion Hin; lia|]).
    destruct Hin. }
  destruct (H _ Ht Hreads Hwrites Hr) as (t0 & old & tw & x & Htr & _ & Hv & _).
  refine (conj Hb (conj Hs (conj Hu (conj Hr _)))).
  exists t0, old, tw, x. exact (conj Htr Hv).
Defined.

Lemma probe_device_tree_channels_witness :
  alloc_ok dt_env = true /\ pdata dt_env = None /\ config_of dt_env = true /\
  of_children dt_env = Some dt_nodes /\
  Forall node_u32 dt_nodes /\ Forall node_ok dt_nodes /\
  channel_at (priv (snd (ads1015_probe dt_env (boot_system reset_regs)))) 0
  = mk_channel_data 0 0 /\
  channel_at (priv (snd (ads1015_probe dt_env (boot_system reset_regs)))) 1
  = mk_channel_data 3 5.
Proof.
  assert (Ha : alloc_ok dt_env = true) by reflexivity.
  assert (Hp : pdata dt_env = None) by reflexivity.
  assert (Hc : config_of dt_env = true) by reflexivity.
  assert (Ho : of_children dt_env = Some dt_nodes) by reflexivity.
  assert (Hu : Forall node_u32 dt_nodes) by (repeat constructor; simpl; lia).
  assert (Hok : Forall node_ok dt_nodes).
  { constructor; [unfold node_ok; simpl; right; lia|].
    constructor; [exact I|constructor]. }
  assert (H0 : 0 <= 0 < ADS1015_CHANNELS) by (unfold ADS1015_CHANNELS; lia).
  assert (H1 : 0 <= 1 < ADS1015_CHANNELS) by (unfold ADS1015_CHANNELS; lia).
  assert (Hne : dt_nodes <> []) by discriminate.
  assert (Hno : forall n, In n dt_nodes -> of_reg n <> Some 0).
  { intros n [<-|[<-|[]]]; discriminate. }
  assert (Hpost : forall m, In m [mk_of_node None None None] -> of_reg m <> Some 1).
  { intros m [<-|[]]; discriminate. }
  refine (conj Ha (conj Hp (conj Hc (conj Ho (conj Hu (conj Hok (conj _ _))))))).
  - exact (proj1 (probe_device_tree_channels dt_env (boot_system reset_regs) dt_nodes 0
                    Ha Hp Hc Ho Hu Hok H0) Hne Hno).
  - exact (proj2 (probe_device_tree_channels dt_env (boot_system reset_regs) dt_nodes 1
                    Ha Hp Hc Ho Hu Hok H1)
                 [] (mk_of_node (Some 1) (Some 3) (Some 5)) [mk_of_node None None None]
                 eq_refl eq_refl Hpost).
Defined.

Lemma buffer_enable_balanced_witness :
  0 <= usage_count (power probed) /\
  fst (iio_enable_buffer probed) = 0 /\
  usage_count (power (snd (iio_enable_buffer probed))) = usage_count (power probed) + 1.
Proof.
  assert (Hu : 0 <= usage_count (power probed)) by (vm_compute; discriminate).
  assert (Hr : fst (iio_enable_buffer probed) = 0) by (vm_compute; reflexivity).
  pose proof (buffer_enable_balanced probed Hu) as H.
  destruct (iio_enable_buffer probed) as [r s1].
  exact (conj Hu (conj Hr (proj1 (proj2 (proj2 H Hr))))).
Defined.
